(** * Online-store backend (Django / DRF): cart, catalog, reviews, orders

    A shallow embedding of the view functions of [shopapp/views.py] together
    with the model and serializer code they call ([shopapp/models.py],
    [shopapp/serializers.py], [authapp/models.py]).

    - A database table is the list of its rows in primary-key order; rows are
      appended with a primary key drawn from a per-table sequence.
    - Django runs in autocommit mode: every [save], [create] and [delete] is
      written at once and is not undone when a later statement raises.  View
      code is therefore written in a state-and-exception monad over [Store],
      where an exception keeps the store reached so far.
    - Python integers are [Z].  A Python float, and the value of a
      [FloatField] column, is the rational it denotes ([Q]); float arithmetic
      rounds to the nearest binary64 value, ties to even ([fl]).  Infinities
      and NaN are not represented.
    - Python strings are their UTF-8 encodings.
    - The database is SQLite, the backend of a default Django project:
      integer columns hold signed 64-bit values, text is compared byte by
      byte, [LIKE] ignores the case of ASCII letters only, and NULL sorts
      before every value.  The order of rows that a query leaves open is
      table order, except where the store names the order explicitly
      ([tag_join_order], [related_order]). *)

From Stdlib Require Import ZArith QArith Qreduction Qabs.
From Stdlib Require Import List String Ascii Bool Lia.
From Stdlib Require Import Permutation Sorted.
Import ListNotations.
Open Scope Z_scope.

Set Implicit Arguments.

(** ** Models *)

Module Models.

(** [shopapp.models.Product]; [preview] is the stored path of the image,
    [None] for NULL, and [tags] the tags linked to the product. *)
Record Product := {
  product_id : Z;
  title : string;
  description : string;
  fullDescription : string;
  price : Q;
  date : Z;
  archived : bool;
  preview : option string;
  category : Z;
  freeDelivery : bool;
  available : bool;
  tags : list Z;
  count : Z;
  rating : option Q;
  reviews_count : Z;
  popular : bool;
  limited : bool;
  banner : bool
}.

(** [shopapp.models.Review] *)
Record Review := {
  review_id : Z;
  review_product : Z;
  author : string;
  text : string;
  rate : Z;
  review_date : Z;
  email : option string
}.

(** [authapp.models.Cart]: one-to-one with the user. *)
Record Cart := {
  cart_id : Z;
  cart_user : Z
}.

(** [authapp.models.CartItem] *)
Record CartItem := {
  item_id : Z;
  item_cart : Z;
  item_product : Z;
  item_count : Z
}.

(** [authapp.models.UserProfile] *)
Record UserProfile := {
  profile_user : Z;
  fullName : option string;
  phone : option string;
  profile_email : option string;
  city : option string;
  address : option string
}.

(** [shopapp.models.OrderStatus], [DeliveryType], [PaymentType] *)
Record OrderStatus := {
  status_id : Z;
  status_name : string
}.

Record DeliveryType := {
  delivery_id : Z;
  delivery_name : string;
  delivery_price : Q
}.

Record PaymentType := {
  payment_id : Z;
  payment_name : string
}.

(** [shopapp.models.Order]; the many-to-many [products] field lives in its own
    link table, as in the database. *)
Record Order := {
  order_id : Z;
  createdAt : Z;
  order_user : Z;
  status : option Z;
  deliveryType : option Z;
  paymentType : option Z;
  totalCost : Q
}.

End Models.
Export Models.

(** ** Exceptions *)

Inductive exn :=
| Product_DoesNotExist
| Cart_DoesNotExist
| CartItem_DoesNotExist
| CartItem_MultipleObjectsReturned
| Order_DoesNotExist
| OrderStatus_DoesNotExist
| DeliveryType_DoesNotExist
| PaymentType_DoesNotExist
| RelatedObjectDoesNotExist
| Http404
| KeyError
| AttributeError
| ValueError
| OverflowError
| IntegrityError
| FieldError
| PageNotAnInteger
| EmptyPage.

Definition exn_eqb (a b : exn) : bool :=
  match a, b with
  | Product_DoesNotExist, Product_DoesNotExist
  | Cart_DoesNotExist, Cart_DoesNotExist
  | CartItem_DoesNotExist, CartItem_DoesNotExist
  | CartItem_MultipleObjectsReturned, CartItem_MultipleObjectsReturned
  | Order_DoesNotExist, Order_DoesNotExist
  | OrderStatus_DoesNotExist, OrderStatus_DoesNotExist
  | DeliveryType_DoesNotExist, DeliveryType_DoesNotExist
  | PaymentType_DoesNotExist, PaymentType_DoesNotExist
  | RelatedObjectDoesNotExist, RelatedObjectDoesNotExist
  | Http404, Http404
  | KeyError, KeyError
  | AttributeError, AttributeError
  | ValueError, ValueError
  | OverflowError, OverflowError
  | IntegrityError, IntegrityError
  | FieldError, FieldError
  | PageNotAnInteger, PageNotAnInteger
  | EmptyPage, EmptyPage => true
  | _, _ => false
  end.

Inductive result (A : Type) :=
| Ok (a : A)
| Raise (e : exn).

Arguments Raise {A} e.

(** ** The store *)

Record Store := {
  Product_table : list Product;
  Review_table : list Review;
  Cart_table : list Cart;
  CartItem_table : list CartItem;
  UserProfile_table : list UserProfile;
  OrderStatus_table : list OrderStatus;
  DeliveryType_table : list DeliveryType;
  PaymentType_table : list PaymentType;
  Order_table : list Order;
  Order_products_table : list (Z * Z);
  Review_seq : Z;
  Cart_seq : Z;
  CartItem_seq : Z;
  Order_seq : Z;
  (** [request.session['orderId']] of the calling client *)
  session_orderId : option Z;
  (** The order in which the database returns the rows of a join of
      products with their tags, given these rows in table order.  SQL
      leaves it open. *)
  tag_join_order : list Product -> list Product;
  (** What the database makes of [ORDER BY] terms that leave the columns
      of [Product] (a relation, a transform, a random order): it refuses
      the terms when the query is compiled, or arranges the rows, which a
      join with a relation may repeat. *)
  related_order : list string -> result (list Product -> list Product)
}.

Definition with_Product_table (t : list Product) (st : Store) : Store :=
  {| Product_table := t; Review_table := Review_table st;
     Cart_table := Cart_table st; CartItem_table := CartItem_table st;
     UserProfile_table := UserProfile_table st;
     OrderStatus_table := OrderStatus_table st;
     DeliveryType_table := DeliveryType_table st;
     PaymentType_table := PaymentType_table st;
     Order_table := Order_table st;
     Order_products_table := Order_products_table st;
     Review_seq := Review_seq st; Cart_seq := Cart_seq st;
     CartItem_seq := CartItem_seq st; Order_seq := Order_seq st;
     session_orderId := session_orderId st;
     tag_join_order := tag_join_order st;
     related_order := related_order st |}.

Definition with_Review (t : list Review) (s : Z) (st : Store) : Store :=
  {| Product_table := Product_table st; Review_table := t;
     Cart_table := Cart_table st; CartItem_table := CartItem_table st;
     UserProfile_table := UserProfile_table st;
     OrderStatus_table := OrderStatus_table st;
     DeliveryType_table := DeliveryType_table st;
     PaymentType_table := PaymentType_table st;
     Order_table := Order_table st;
     Order_products_table := Order_products_table st;
     Review_seq := s; Cart_seq := Cart_seq st;
     CartItem_seq := CartItem_seq st; Order_seq := Order_seq st;
     session_orderId := session_orderId st;
     tag_join_order := tag_join_order st;
     related_order := related_order st |}.

Definition with_Cart (t : list Cart) (s : Z) (st : Store) : Store :=
  {| Product_table := Product_table st; Review_table := Review_table st;
     Cart_table := t; CartItem_table := CartItem_table st;
     UserProfile_table := UserProfile_table st;
     OrderStatus_table := OrderStatus_table st;
     DeliveryType_table := DeliveryType_table st;
     PaymentType_table := PaymentType_table st;
     Order_table := Order_table st;
     Order_products_table := Order_products_table st;
     Review_seq := Review_seq st; Cart_seq := s;
     CartItem_seq := CartItem_seq st; Order_seq := Order_seq st;
     session_orderId := session_orderId st;
     tag_join_order := tag_join_order st;
     related_order := related_order st |}.

Definition with_CartItem (t : list CartItem) (s : Z) (st : Store) : Store :=
  {| Product_table := Product_table st; Review_table := Review_table st;
     Cart_table := Cart_table st; CartItem_table := t;
     UserProfile_table := UserProfile_table st;
     OrderStatus_table := OrderStatus_table st;
     DeliveryType_table := DeliveryType_table st;
     PaymentType_table := PaymentType_table st;
     Order_table := Order_table st;
     Order_products_table := Order_products_table st;
     Review_seq := Review_seq st; Cart_seq := Cart_seq st;
     CartItem_seq := s; Order_seq := Order_seq st;
     session_orderId := session_orderId st;
     tag_join_order := tag_join_order st;
     related_order := related_order st |}.

Definition with_Order (t : list Order) (s : Z) (st : Store) : Store :=
  {| Product_table := Product_table st; Review_table := Review_table st;
     Cart_table := Cart_table st; CartItem_table := CartItem_table st;
     UserProfile_table := UserProfile_table st;
     OrderStatus_table := OrderStatus_table st;
     DeliveryType_table := DeliveryType_table st;
     PaymentType_table := PaymentType_table st;
     Order_table := t;
     Order_products_table := Order_products_table st;
     Review_seq := Review_seq st; Cart_seq := Cart_seq st;
     CartItem_seq := CartItem_seq st; Order_seq := s;
     session_orderId := session_orderId st;
     tag_join_order := tag_join_order st;
     related_order := related_order st |}.

Definition with_Order_products (t : list (Z * Z)) (st : Store) : Store :=
  {| Product_table := Product_table st; Review_table := Review_table st;
     Cart_table := Cart_table st; CartItem_table := CartItem_table st;
     UserProfile_table := UserProfile_table st;
     OrderStatus_table := OrderStatus_table st;
     DeliveryType_table := DeliveryType_table st;
     PaymentType_table := PaymentType_table st;
     Order_table := Order_table st;
     Order_products_table := t;
     Review_seq := Review_seq st; Cart_seq := Cart_seq st;
     CartItem_seq := CartItem_seq st; Order_seq := Order_seq st;
     session_orderId := session_orderId st;
     tag_join_order := tag_join_order st;
     related_order := related_order st |}.

Definition with_session (s : option Z) (st : Store) : Store :=
  {| Product_table := Product_table st; Review_table := Review_table st;
     Cart_table := Cart_table st; CartItem_table := CartItem_table st;
     UserProfile_table := UserProfile_table st;
     OrderStatus_table := OrderStatus_table st;
     DeliveryType_table := DeliveryType_table st;
     PaymentType_table := PaymentType_table st;
     Order_table := Order_table st;
     Order_products_table := Order_products_table st;
     Review_seq := Review_seq st; Cart_seq := Cart_seq st;
     CartItem_seq := CartItem_seq st; Order_seq := Order_seq st;
     session_orderId := s;
     tag_join_order := tag_join_order st;
     related_order := related_order st |}.

(** ** The view monad *)

(** A computation reads and writes the store and either returns or raises;
    in both cases the store it reached is kept. *)
Definition M (A : Type) : Type := Store -> result A * Store.

Definition ret {A} (a : A) : M A := fun st => (Ok a, st).

Definition raise {A} (e : exn) : M A := fun st => (Raise e, st).

Definition bind {A B} (m : M A) (k : A -> M B) : M B :=
  fun st =>
    match m st with
    | (Ok a, st1) => k a st1
    | (Raise e, st1) => (Raise e, st1)
    end.

Definition gets {A} (f : Store -> A) : M A := fun st => (Ok (f st), st).

Definition modify (f : Store -> Store) : M unit := fun st => (Ok tt, f st).

Declare Scope view_scope.
Delimit Scope view_scope with view.

Notation "x <- m ;; k" := (bind m (fun x => k))
  (at level 100, m at next level, right associativity) : view_scope.
Notation "m ;;; k" := (bind m (fun _ => k))
  (at level 100, right associativity) : view_scope.

Open Scope view_scope.

(** [try: m  except e: h] *)
Definition try_except {A} (m : M A) (e : exn) (h : M A) : M A :=
  fun st =>
    match m st with
    | (Ok a, st1) => (Ok a, st1)
    | (Raise e', st1) => if exn_eqb e' e then h st1 else (Raise e', st1)
    end.

(** [try: x = m  except e: return h] followed by the rest [k x] of the
    function body. *)
Definition try_or_return {A B} (m : M A) (e : exn) (h : M B) (k : A -> M B)
  : M B :=
  fun st =>
    match m st with
    | (Ok a, st1) => k a st1
    | (Raise e', st1) => if exn_eqb e' e then h st1 else (Raise e', st1)
    end.

Fixpoint mapM {A B} (f : A -> M B) (l : list A) : M (list B) :=
  match l with
  | [] => ret []
  | a :: l' => b <- f a ;; bs <- mapM f l' ;; ret (b :: bs)
  end.

Fixpoint forM_ {A} (l : list A) (f : A -> M unit) : M unit :=
  match l with
  | [] => ret tt
  | a :: l' => f a ;;; forM_ l' f
  end.

(** ** Numbers *)

(** The integer nearest to [a / b], for [0 < b]; of two nearest ones the
    even one. *)
Definition round_half_even (a b : Z) : Z :=
  let q := a / b in
  match 2 * (a mod b) ?= b with
  | Lt => q
  | Gt => q + 1
  | Eq => if Z.even q then q else q + 1
  end.

(** The integer [k] with [2^k <= n / d < 2^(k+1)]. *)
Definition floor_log2 (n d : positive) : Z :=
  let L := Z.log2 (Zpos n) - Z.log2 (Zpos d) in
  if (if 0 <=? L then Zpos d * 2 ^ L <=? Zpos n
      else Zpos d <=? Zpos n * 2 ^ (- L))
  then L else L - 1.

(** Rounding of [n / d] to binary64: 53 significant bits, the exponent of
    the last bit not below -1074 (gradual underflow). *)
Definition fl_pos (n d : positive) : Q :=
  let e := Z.max (floor_log2 n d - 52) (-1074) in
  if 0 <=? e
  then inject_Z (round_half_even (Zpos n) (Zpos d * 2 ^ e) * 2 ^ e)
  else Qred (round_half_even (Zpos n * 2 ^ (- e)) (Zpos d)
             # Z.to_pos (2 ^ (- e))).

(** The float that a real result is rounded to, in lowest terms.  A result
    beyond the largest float, which IEEE arithmetic turns into an infinity,
    is outside the model. *)
Definition fl (x : Q) : Q :=
  let x := Qred x in
  match Qnum x with
  | 0 => 0%Q
  | Zpos n => fl_pos n (Qden x)
  | Zneg n => (- fl_pos n (Qden x))%Q
  end.


(** A JSON number as Python holds it: an [int] or a [float]. *)
Inductive Num :=
| Int (z : Z)
| Float (x : Q).

(** [float(n)] *)
Definition float_of (n : Num) : Q :=
  match n with
  | Int z => fl (inject_Z z)
  | Float x => x
  end.

(** [a * b] and [a + b]: exact on two integers, float arithmetic as soon as
    a float takes part. *)
Definition Num_mul (a b : Num) : Num :=
  match a, b with
  | Int x, Int y => Int (x * y)
  | _, _ => Float (fl (float_of a * float_of b))
  end.

Definition Num_add (a b : Num) : Num :=
  match a, b with
  | Int x, Int y => Int (x + y)
  | _, _ => Float (fl (float_of a + float_of b))
  end.

(** [a / b] of two integers with [b <> 0]: the quotient correctly rounded. *)
Definition true_divide (a b : Z) : Q := fl (inject_Z a / inject_Z b).

(** The largest value of an integer column. *)
Definition INTEGER_max : Z := 2 ^ 63 - 1.

(** Writing [value] into a [PositiveIntegerField] column: the driver
    refuses a Python integer outside 64 bits with [OverflowError], the
    [CHECK (column >= 0)] of the column fails with [IntegrityError]. *)
Definition PositiveIntegerField_write (value : Z) : M unit :=
  if (value >? INTEGER_max) || (value <? - INTEGER_max - 1)
  then raise OverflowError
  else if value <? 0 then raise IntegrityError
  else ret tt.

(** ** Responses *)

Definition HTTP_200_OK : Z := 200.
Definition HTTP_201_CREATED : Z := 201.
Definition HTTP_400_BAD_REQUEST : Z := 400.
Definition HTTP_404_NOT_FOUND : Z := 404.

(** A product as [ProductSerializer] renders it: the row, the number of its
    reviews ([get_reviews]) and the mean of their rates ([get_rating]). *)
Record ProductOut := {
  out_product : Product;
  out_reviews : Z;
  out_rating : Q
}.

(** A product as [CartGETSerializer] renders it: the row and [get_count]. *)
Record CartLine := {
  line_product : Product;
  line_count : Z
}.

(** An order as [OrderSerializer] renders it. *)
Record OrderOut := {
  out_id : Z;
  out_createdAt : Z;
  out_totalCost : Q;
  out_fullName : option string;
  out_email : option string;
  out_phone : option string;
  out_deliveryType : option string;
  out_paymentType : option string;
  out_status : option string;
  out_city : option string;
  out_address : option string;
  out_products : list ProductOut
}.

Inductive Body :=
| NoBody
| ErrorBody (error : string)
| SerializerErrors
| CartBody (lines : list CartLine)
| CatalogBody (items : list ProductOut) (currentPage lastPage : Z)
| ReviewsBody (reviews : list Review)
| OrdersBody (orders : list OrderOut)
| OrderBody (order : OrderOut) (orderId : Z)
| OrderIdBody (orderId : Z).

Record Response := {
  data : Body;
  status_code : Z
}.

(** ** Managers and querysets *)

(** [Product.objects.get(id=pk)] *)
Definition Product_objects_get (pk : Z) : M Product :=
  t <- gets Product_table ;;
  match find (fun p => product_id p =? pk) t with
  | Some p => ret p
  | None => raise Product_DoesNotExist
  end.

(** [Cart.objects.get(user=user)] *)
Definition Cart_objects_get (user : Z) : M Cart :=
  t <- gets Cart_table ;;
  match find (fun c => cart_user c =? user) t with
  | Some c => ret c
  | None => raise Cart_DoesNotExist
  end.

(** [Cart.objects.get_or_create(user=user)] *)
Definition Cart_objects_get_or_create (user : Z) : M (Cart * bool) :=
  try_except
    (c <- Cart_objects_get user ;; ret (c, false))
    Cart_DoesNotExist
    (pk <- gets Cart_seq ;;
     let c := {| cart_id := pk; cart_user := user |} in
     modify (fun st => with_Cart (Cart_table st ++ [c]) (pk + 1) st) ;;;
     ret (c, true)).

(** [cart.items.filter(product=product)]; without the filter it is
    [cart.items.all()]. *)
Definition in_cart (cart : Cart) (i : CartItem) : bool :=
  item_cart i =? cart_id cart.

Definition of_product (product : Product) (i : CartItem) : bool :=
  item_product i =? product_id product.

Definition cart_items_all (cart : Cart) : M (list CartItem) :=
  t <- gets CartItem_table ;; ret (filter (in_cart cart) t).

Definition cart_items_filter (cart : Cart) (product : Product)
  : M (list CartItem) :=
  t <- gets CartItem_table ;;
  ret (filter (of_product product) (filter (in_cart cart) t)).

(** [cart.items.get(product=product)] *)
Definition cart_items_get (cart : Cart) (product : Product) : M CartItem :=
  l <- cart_items_filter cart product ;;
  match l with
  | [] => raise CartItem_DoesNotExist
  | [i] => ret i
  | _ :: _ :: _ => raise CartItem_MultipleObjectsReturned
  end.

(** [QuerySet.first()] of an unordered queryset: the row of least primary
    key, which is the first one in table order. *)
Definition first {A} (l : list A) : option A := hd_error l.

Definition with_count (i : CartItem) (n : Z) : CartItem :=
  {| item_id := item_id i; item_cart := item_cart i;
     item_product := item_product i; item_count := n |}.

(** [item.save()] of a row that has a primary key: an UPDATE of that row,
    and an INSERT when no row has the key.  Nothing is written when the
    database refuses the count. *)
Definition CartItem_save (i : CartItem) : M unit :=
  PositiveIntegerField_write (item_count i) ;;;
  modify (fun st =>
    let t := CartItem_table st in
    if existsb (fun r => item_id r =? item_id i) t
    then with_CartItem
           (map (fun r => if item_id r =? item_id i then i else r) t)
           (CartItem_seq st) st
    else with_CartItem (t ++ [i]) (CartItem_seq st) st).

(** [CartItem.objects.create(cart=cart, product=product, count=count)] *)
Definition CartItem_objects_create (cart : Cart) (product : Product)
    (count : Z) : M CartItem :=
  pk <- gets CartItem_seq ;;
  let i := {| item_id := pk; item_cart := cart_id cart;
              item_product := product_id product; item_count := count |} in
  PositiveIntegerField_write count ;;;
  modify (fun st => with_CartItem (CartItem_table st ++ [i]) (pk + 1) st) ;;;
  ret i.

(** [cart_item.delete()] *)
Definition CartItem_delete (i : CartItem) : M unit :=
  modify (fun st =>
    with_CartItem
      (filter (fun r => negb (item_id r =? item_id i)) (CartItem_table st))
      (CartItem_seq st) st).

(** ** Cart serializers *)

(** [CartItemSerializer]: [id = IntegerField()],
    [count = IntegerField(min_value=1)]; an absent key is [None]. *)
Record CartItemData := {
  data_id : option Z;
  data_count : option Z
}.

(** [serializer.is_valid()] with [serializer.validated_data] *)
Definition CartItemSerializer_validate (d : CartItemData) : option (Z * Z) :=
  match data_id d, data_count d with
  | Some i, Some c => if 1 <=? c then Some (i, c) else None
  | _, _ => None
  end.

(** [CartGETSerializer.get_count] *)
Definition CartGETSerializer_get_count (cart : Cart) (obj : Product) : M Z :=
  try_except
    (cart_item <- cart_items_get cart obj ;; ret (item_count cart_item))
    CartItem_DoesNotExist
    (ret 0).

(** The three closing lines shared by the methods of [BasketAPIView]:
    [items = cart.items.all()], [products = [item.product for item in items]],
    [CartGETSerializer(products, many=True, context={'cart': cart}).data]. *)
Definition CartGETSerializer_data (cart : Cart) : M (list CartLine) :=
  items <- cart_items_all cart ;;
  products <- mapM (fun item => Product_objects_get (item_product item)) items ;;
  mapM (fun obj =>
          c <- CartGETSerializer_get_count cart obj ;;
          ret {| line_product := obj; line_count := c |})
       products.

(** ** BasketAPIView *)

Module BasketAPIView.

Definition get (user : Z) : M Response :=
  cart <- Cart_objects_get user ;;
  lines <- CartGETSerializer_data cart ;;
  ret {| data := CartBody lines; status_code := HTTP_200_OK |}.

Definition post (user : Z) (request_data : CartItemData) : M Response :=
  match CartItemSerializer_validate request_data with
  | Some (product_id, count) =>
      try_or_return (Product_objects_get product_id) Product_DoesNotExist
        (ret {| data := ErrorBody "Invalid product ID";
                status_code := HTTP_400_BAD_REQUEST |})
        (fun product =>
           cc <- Cart_objects_get_or_create user ;;
           let cart := fst cc in
           try_except
             (item <- cart_items_get cart product ;;
              CartItem_save (with_count item (item_count item + count)))
             CartItem_DoesNotExist
             (CartItem_objects_create cart product count ;;; ret tt) ;;;
           lines <- CartGETSerializer_data cart ;;
           ret {| data := CartBody lines; status_code := HTTP_201_CREATED |})
  | None =>
      ret {| data := SerializerErrors; status_code := HTTP_400_BAD_REQUEST |}
  end.

(** The body of a DELETE request: [request.data.get('id')] and
    [request.data.get('count', 1)], the latter already through [int]. *)
Record DeleteData := {
  delete_id : option Z;
  delete_count : option Z
}.

Definition delete (user : Z) (request_data : DeleteData) : M Response :=
  try_or_return (Cart_objects_get user) Cart_DoesNotExist
    (ret {| data := ErrorBody "Cart not found.";
            status_code := HTTP_404_NOT_FOUND |})
    (fun cart =>
       let count := match delete_count request_data with
                    | Some c => c
                    | None => 1
                    end in
       match delete_id request_data with
       | None =>
           ret {| data := ErrorBody "Product ID is required.";
                  status_code := HTTP_400_BAD_REQUEST |}
       | Some product_id =>
           try_or_return (Product_objects_get product_id) Product_DoesNotExist
             (ret {| data := ErrorBody "Product not found.";
                     status_code := HTTP_404_NOT_FOUND |})
             (fun product =>
                l <- cart_items_filter cart product ;;
                let finish :=
                  lines <- CartGETSerializer_data cart ;;
                  ret {| data := CartBody lines;
                         status_code := HTTP_200_OK |} in
                match first l with
                | Some cart_item =>
                    let new_count := item_count cart_item - count in
                    if new_count <? 0 then
                      ret {| data := ErrorBody "Count cannot be negative.";
                             status_code := HTTP_400_BAD_REQUEST |}
                    else if new_count =? 0 then
                      CartItem_delete cart_item ;;; finish
                    else
                      CartItem_save (with_count cart_item new_count) ;;;
                      finish
                | None => finish
                end)
       end).

End BasketAPIView.

(** ** Strings of query parameters *)

Definition lower_ascii (c : ascii) : ascii :=
  let n := nat_of_ascii c in
  if ((65 <=? n) && (n <=? 90))%nat then ascii_of_nat (n + 32) else c.

(** Lower case of the ASCII letters.  It is what [LIKE] compares by; and it
    decides [s.lower() == 'false'] and [s.lower() == 'true'] as Python's
    [str.lower()] does, which maps no further character to a letter of
    these two words. *)
Fixpoint lower (s : string) : string :=
  match s with
  | EmptyString => EmptyString
  | String c s' => String (lower_ascii c) (lower s')
  end.

(** The ASCII characters for which [str.isspace()] holds. *)
Definition is_space (c : ascii) : bool :=
  let n := nat_of_ascii c in
  ((n =? 32) || ((9 <=? n) && (n <=? 13)) || ((28 <=? n) && (n <=? 31)))%nat.

Definition byte_is (c : ascii) (n : N) : bool := (N_of_ascii c =? n)%N.

(** The encodings of the other characters for which [str.isspace()] holds:
    U+0085 and U+00A0 in two bytes; U+1680, U+2000 to U+200A, U+2028,
    U+2029, U+202F, U+205F and U+3000 in three. *)
Definition is_space2 (c1 c2 : ascii) : bool :=
  byte_is c1 194 && (byte_is c2 133 || byte_is c2 160).

Definition is_space3 (c1 c2 c3 : ascii) : bool :=
  (byte_is c1 225 && byte_is c2 154 && byte_is c3 128)
  || (byte_is c1 226 && byte_is c2 128
      && (((128 <=? N_of_ascii c3) && (N_of_ascii c3 <=? 138))%N
          || byte_is c3 168 || byte_is c3 169 || byte_is c3 175))
  || (byte_is c1 226 && byte_is c2 129 && byte_is c3 159)
  || (byte_is c1 227 && byte_is c2 128 && byte_is c3 128).

(** [str.lstrip()] *)
Fixpoint lstrip (s : string) : string :=
  match s with
  | EmptyString => EmptyString
  | String c1 s1 =>
      if is_space c1 then lstrip s1
      else
        match s1 with
        | EmptyString => s
        | String c2 s2 =>
            if is_space2 c1 c2 then lstrip s2
            else
              match s2 with
              | EmptyString => s
              | String c3 s3 => if is_space3 c1 c2 c3 then lstrip s3 else s
              end
        end
  end.

(** [str.rstrip()]: the text is cut where nothing but white space follows. *)
Fixpoint rstrip (s : string) : string :=
  match s with
  | EmptyString => EmptyString
  | String c s' =>
      match lstrip s with
      | EmptyString => EmptyString
      | _ => String c (rstrip s')
      end
  end.

(** [str.strip()] *)
Definition strip (s : string) : string := rstrip (lstrip s).

(** [len(s)]: the number of characters, which is the number of bytes that
    do not continue a character. *)
Fixpoint len (s : string) : nat :=
  match s with
  | EmptyString => 0%nat
  | String c s' =>
      if ((128 <=? N_of_ascii c) && (N_of_ascii c <? 192))%N
      then len s' else S (len s')
  end.

(** ['\x00' in s] *)
Fixpoint has_null (s : string) : bool :=
  match s with
  | EmptyString => false
  | String c s' => byte_is c 0 || has_null s'
  end.

(** [str.split(',')] *)
Fixpoint split_comma (s : string) : list string :=
  match s with
  | EmptyString => [EmptyString]
  | String c s' =>
      if Ascii.eqb c "," then EmptyString :: split_comma s'
      else match split_comma s' with
           | h :: t => String c h :: t
           | [] => [String c EmptyString]
           end
  end.

(** [needle in haystack] *)
Fixpoint contains (needle haystack : string) : bool :=
  String.prefix needle haystack ||
  match haystack with
  | EmptyString => false
  | String _ h' => contains needle h'
  end.

(** Truth value of an optional string: [None] and [''] are false. *)
Definition truthy (o : option string) : option string :=
  match o with
  | Some EmptyString => None
  | _ => o
  end.

(** ** Catalog query parameters *)

(** A price bound of the query string as [FloatField.get_prep_value] sees
    it: [float(s)] either is a (finite) number or raises [ValueError]. *)
Inductive NumberParam :=
| NotANumber
| Number (q : Q).

(** [request.GET] of a catalog request.  [None] is an absent key.  For the
    two price bounds [None] also stands for the empty string, which the
    code treats alike; [tags] are the values of [tags[]], each as the
    integer that [int(s)] makes of it, [None] where [int(s)] raises;
    [currentPage] is the result of [int(s)], with [None] when the key is
    absent or [int] raises. *)
Record CatalogQuery := {
  filter_name : option string;
  filter_minPrice : option NumberParam;
  filter_maxPrice : option NumberParam;
  filter_freeDelivery : option string;
  filter_available : option string;
  sort : option string;
  sortType : option string;
  tags_list : list (option Z);
  currentPage_param : option Z
}.

(** ** Ordering *)

Definition Comparator := Product -> Product -> comparison.

Definition bool_compare (a b : bool) : comparison :=
  match a, b with
  | false, true => Lt
  | true, false => Gt
  | _, _ => Eq
  end.

(** NULL sorts before every value. *)
Definition option_compare {A} (cmp : A -> A -> comparison) (a b : option A)
  : comparison :=
  match a, b with
  | None, None => Eq
  | None, Some _ => Lt
  | Some _, None => Gt
  | Some x, Some y => cmp x y
  end.

(** The columns of [Product], each with the order of its values. *)
Definition column_compare (name : string) : option Comparator :=
  if String.eqb name "id" || String.eqb name "pk" then
    Some (fun a b => product_id a ?= product_id b)
  else if String.eqb name "title" then
    Some (fun a b => String.compare (title a) (title b))
  else if String.eqb name "description" then
    Some (fun a b => String.compare (description a) (description b))
  else if String.eqb name "fullDescription" then
    Some (fun a b => String.compare (fullDescription a) (fullDescription b))
  else if String.eqb name "price" then Some (fun a b => (price a ?= price b)%Q)
  else if String.eqb name "date" then Some (fun a b => date a ?= date b)
  else if String.eqb name "archived" then
    Some (fun a b => bool_compare (archived a) (archived b))
  else if String.eqb name "preview" then
    Some (fun a b => option_compare String.compare (preview a) (preview b))
  else if String.eqb name "category" || String.eqb name "category_id" then
    Some (fun a b => category a ?= category b)
  else if String.eqb name "freeDelivery" then
    Some (fun a b => bool_compare (freeDelivery a) (freeDelivery b))
  else if String.eqb name "available" then
    Some (fun a b => bool_compare (available a) (available b))
  else if String.eqb name "count" then Some (fun a b => count a ?= count b)
  else if String.eqb name "rating" then
    Some (fun a b => option_compare Qcompare (rating a) (rating b))
  else if String.eqb name "reviews_count" then
    Some (fun a b => reviews_count a ?= reviews_count b)
  else if String.eqb name "popular" then
    Some (fun a b => bool_compare (popular a) (popular b))
  else if String.eqb name "limited" then
    Some (fun a b => bool_compare (limited a) (limited b))
  else if String.eqb name "banner" then
    Some (fun a b => bool_compare (banner a) (banner b))
  else None.

(** The relations of [Product]: its tags, and the models that refer to
    it. *)
Definition is_relation (name : string) : bool :=
  existsb (String.eqb name)
          ["tags"; "reviews"; "specifications"; "images"; "discount";
           "product_orders"; "cartitem"]%string.

(** The part of a lookup before its first [__], and whether there is
    one. *)
Fixpoint head_name (s : string) : string * bool :=
  match s with
  | EmptyString => (EmptyString, false)
  | String c s' =>
      if Ascii.eqb c "_" && String.prefix "_" s' then (EmptyString, true)
      else let (h, more) := head_name s' in (String c h, more)
  end.

(** What an argument of [order_by] resolves to: a column of [Product]; a
    lookup that leaves the columns (it names a relation, or continues
    after [__]), which [order_by] accepts and the database resolves; or
    nothing, which [order_by] refuses with [FieldError]. *)
Inductive Term :=
| Column (c : Comparator)
| Related
| Invalid.

Definition resolve (name : string) : Term :=
  let (head, more) := head_name name in
  if more then
    match column_compare head with
    | Some _ => Related
    | None => if is_relation head then Related else Invalid
    end
  else
    match column_compare name with
    | Some c => Column c
    | None => if is_relation name then Related else Invalid
    end.

(** One argument of [order_by]: [?] asks for a random order, a leading [-]
    reverses the order. *)
Definition order_term (s : string) : Term :=
  if String.eqb s "?" then Related
  else
    match s with
    | String "-" f =>
        match resolve f with
        | Column c => Column (fun a b => CompOpp (c a b))
        | t => t
        end
    | _ => resolve s
    end.

Inductive Ordering :=
| Columns (cs : list Comparator)
| Spanning
| Unresolved.

Fixpoint order_terms (l : list string) : Ordering :=
  match l with
  | [] => Columns []
  | s :: l' =>
      match order_term s, order_terms l' with
      | Invalid, _ | _, Unresolved => Unresolved
      | Related, _ | _, Spanning => Spanning
      | Column c, Columns cs => Columns (c :: cs)
      end
  end.

(** Composite ordering: the first term that tells two rows apart decides. *)
Fixpoint lexicographic (cs : list Comparator) (a b : Product) : comparison :=
  match cs with
  | [] => Eq
  | c :: cs' =>
      match c a b with
      | Eq => lexicographic cs' a b
      | r => r
      end
  end.

Definition precedes (cs : list Comparator) (a b : Product) : bool :=
  match lexicographic cs a b with
  | Gt => false
  | _ => true
  end.

Section Sort.
Variable A : Type.
Variable leb : A -> A -> bool.

Fixpoint insert (x : A) (l : list A) : list A :=
  match l with
  | [] => [x]
  | y :: l' => if leb x y then x :: l else y :: insert x l'
  end.

(** ORDER BY, with rows that compare equal kept in table order. *)
Fixpoint sort_by (l : list A) : list A :=
  match l with
  | [] => []
  | x :: l' => insert x (sort_by l')
  end.
End Sort.

(** [queryset.order_by] applied to the collected [ordering].  The names are
    resolved when it is called; the rows are read and sorted when the
    queryset is evaluated, [queryset] being the evaluation of the queryset
    it is called on. *)
Definition order_by (ordering : list string) (queryset : M (list Product))
  : M (list Product) :=
  match order_terms ordering with
  | Columns cs =>
      rows <- queryset ;;
      ret (sort_by (precedes cs) rows)
  | Spanning =>
      answer <- gets related_order ;;
      match answer ordering with
      | Ok arrange =>
          rows <- queryset ;;
          ret (arrange rows)
      | Raise e => raise e
      end
  | Unresolved => raise FieldError
  end.

(** ** django.core.paginator *)

(** [django.core.paginator.Paginator] of Django 4.2, the release the
    migrations of the repository were generated with.  It is library code
    that [CatalogAPIView.get] instantiates with [Paginator(queryset, 10)],
    hence with [orphans = 0] and [allow_empty_first_page = True].  [number]
    is [None] where [int(number)] raises. *)
Module Paginator.

Section Pages.
Variable A : Type.

Record t := {
  object_list : list A;
  per_page : Z;
  orphans : Z;
  allow_empty_first_page : bool
}.

Record Page := {
  page_object_list : list A;
  number : Z
}.

Definition new (object_list : list A) (per_page : Z) : t :=
  {| object_list := object_list; per_page := per_page;
     orphans := 0; allow_empty_first_page := true |}.

Definition count (self : t) : Z := Z.of_nat (List.length (object_list self)).

(** [ceil(hits / per_page)] for a positive [per_page] *)
Definition ceil_div (hits per_page : Z) : Z :=
  (hits + per_page - 1) / per_page.

Definition num_pages (self : t) : Z :=
  if (count self =? 0) && negb (allow_empty_first_page self) then 0
  else
    let hits := Z.max 1 (count self - orphans self) in
    ceil_div hits (per_page self).

Definition validate_number (self : t) (number : option Z)
  : result Z :=
  match number with
  | None => Raise PageNotAnInteger
  | Some n =>
      if n <? 1 then Raise EmptyPage
      else if n >? num_pages self then
        if (n =? 1) && allow_empty_first_page self then Ok n
        else Raise EmptyPage
      else Ok n
  end.

(** [object_list[bottom:top]] for [0 <= bottom] *)
Definition slice (l : list A) (bottom top : Z) : list A :=
  firstn (Z.to_nat (top - bottom)) (skipn (Z.to_nat bottom) l).

Definition page (self : t) (number : option Z) : result Page :=
  match validate_number self number with
  | Raise e => Raise e
  | Ok n =>
      let bottom := (n - 1) * per_page self in
      let top := bottom + per_page self in
      let top := if top + orphans self >=? count self
                 then count self else top in
      Ok {| page_object_list := slice (object_list self) bottom top;
            number := n |}
  end.

Definition get_page (self : t) (number : option Z) : result Page :=
  match validate_number self number with
  | Ok n => page self (Some n)
  | Raise PageNotAnInteger => page self (Some 1)
  | Raise EmptyPage => page self (Some (num_pages self))
  | Raise e => Raise e
  end.
End Pages.

End Paginator.

(** ** Product serializer *)

(** [product.reviews.all()] *)
Definition product_reviews (product : Product) : M (list Review) :=
  t <- gets Review_table ;;
  ret (filter (fun r => review_product r =? product_id product) t).

(** The builtin [sum] over integers *)
Definition Zsum (l : list Z) : Z := fold_left Z.add l 0.

Definition ProductSerializer_get_reviews (obj : Product) : M Z :=
  reviews <- product_reviews obj ;; ret (Z.of_nat (List.length reviews)).

Definition ProductSerializer_get_rating (obj : Product) : M Q :=
  reviews <- product_reviews obj ;;
  match reviews with
  | _ :: _ =>
      let total_rating := Zsum (map rate reviews) in
      ret (true_divide total_rating (Z.of_nat (List.length reviews)))
  | [] => ret 0%Q
  end.

Definition ProductSerializer_data (obj : Product) : M ProductOut :=
  n <- ProductSerializer_get_reviews obj ;;
  r <- ProductSerializer_get_rating obj ;;
  ret {| out_product := obj; out_reviews := n; out_rating := r |}.

(** ** CatalogAPIView *)

(** The parameters of a query are bound when it is run; SQLite refuses an
    integer outside its 64 bits. *)
Definition bind_parameters (parameters : list Z) : M unit :=
  if forallb (fun v => (- INTEGER_max - 1 <=? v) && (v <=? INTEGER_max))
             parameters
  then ret tt
  else raise OverflowError.

(** The integers of [tags[]], unless a value is none. *)
Fixpoint tag_ids (values : list (option Z)) : option (list Z) :=
  match values with
  | [] => Some []
  | Some t :: values' =>
      match tag_ids values' with
      | Some ids => Some (t :: ids)
      | None => None
      end
  | None :: _ => None
  end.

Module CatalogAPIView.

Definition filter_queryset (GET : CatalogQuery) (queryset : list Product)
  : M (list Product) :=
  let queryset :=
    match truthy (filter_name GET) with
    | Some name_param =>
        filter (fun p => contains (lower name_param) (lower (title p)))
               queryset
    | None => queryset
    end in
  queryset <-
    match filter_minPrice GET with
    | Some (Number v) => ret (filter (fun p => Qle_bool v (price p)) queryset)
    | Some NotANumber => raise ValueError
    | None => ret queryset
    end ;;
  queryset <-
    match filter_maxPrice GET with
    | Some (Number v) => ret (filter (fun p => Qle_bool (price p) v) queryset)
    | Some NotANumber => raise ValueError
    | None => ret queryset
    end ;;
  let queryset :=
    match filter_freeDelivery GET with
    | Some freeDelivery_param =>
        if String.eqb (lower freeDelivery_param) "false"
        then filter (fun p => eqb (freeDelivery p) true
                              || eqb (freeDelivery p) false) queryset
        else filter (fun p => eqb (freeDelivery p) true) queryset
    | None => queryset
    end in
  let queryset :=
    match truthy (filter_available GET) with
    | Some available_param =>
        filter (fun p => eqb (available p)
                             (String.eqb (lower available_param) "true"))
               queryset
    | None => queryset
    end in
  (* from here on [queryset] is the evaluation of the queryset: the
     filters above read nothing and bind no parameter that can fail *)
  queryset <-
    match tags_list GET with
    | _ :: _ =>
        match tag_ids (tags_list GET) with
        | Some ids =>
            (* the join with the tag link table: one row per matching tag *)
            ret (bind_parameters ids ;;;
                 rows_as_returned <- gets tag_join_order ;;
                 ret (rows_as_returned
                        (flat_map (fun p =>
                                     map (fun _ => p)
                                         (filter (fun t => existsb (Z.eqb t) ids)
                                                 (tags p)))
                                  queryset)))
        | None => raise ValueError
        end
    | [] => ret (ret queryset)
    end ;;
  match truthy (sort GET) with
  | Some sort_param =>
      match sortType GET with
      | None => raise AttributeError
      | Some sort_type_param =>
          let sort_fields := map strip (split_comma sort_param) in
          let sort_types := map strip (split_comma sort_type_param) in
          let ordering :=
            flat_map (fun fs : string * string =>
                        let (field, sort_type) := fs in
                        if String.eqb sort_type "dec" then [field]
                        else if String.eqb sort_type "inc"
                             then [String "-" field]
                             else [])
                     (combine sort_fields sort_types) in
          order_by ordering queryset
      end
  | None => queryset
  end.

Definition get_queryset : M (list Product) := gets Product_table.

Definition get (GET : CatalogQuery) : M Response :=
  all <- get_queryset ;;
  queryset <- filter_queryset GET all ;;
  let paginator := Paginator.new queryset 10 in
  let page_number := currentPage_param GET in
  match Paginator.get_page paginator page_number with
  | Raise e => raise e
  | Ok page_obj =>
      items <- mapM ProductSerializer_data
                    (Paginator.page_object_list page_obj) ;;
      ret {| data := CatalogBody items (Paginator.number page_obj)
                                 (Paginator.num_pages paginator);
             status_code := HTTP_200_OK |}
  end.

End CatalogAPIView.

(** ** ProductAPIView *)

Module ProductAPIView.

(** [queryset.filter(archived=False, id=pk)] *)
Definition get_queryset (pk : Z) : M (list Product) :=
  t <- gets Product_table ;;
  ret (filter (fun p => eqb (archived p) false && (product_id p =? pk)) t).

End ProductAPIView.

(** ** Review aggregation *)

Definition with_aggregates (p : Product) (n : Z) (r : option Q) : Product :=
  {| product_id := product_id p; title := title p;
     description := description p; fullDescription := fullDescription p;
     price := price p; date := date p; archived := archived p;
     preview := preview p; category := category p;
     freeDelivery := freeDelivery p; available := available p;
     tags := tags p; count := count p;
     rating := r; reviews_count := n;
     popular := popular p; limited := limited p; banner := banner p |}.

Definition with_reviews_count (p : Product) (n : Z) : Product :=
  with_aggregates p n (rating p).

Definition with_rating (p : Product) (r : option Q) : Product :=
  with_aggregates p (reviews_count p) r.

(** [aggregate(avg_rating=Avg('rate'))]: NULL over no rows; otherwise the
    database adds the integers up (exactly, while the sum stays within 64
    bits), converts sum and count to floats and divides them. *)
Definition Avg (rates : list Z) : option Q :=
  match rates with
  | [] => None
  | _ :: _ =>
      Some (fl (fl (inject_Z (Zsum rates))
                / fl (inject_Z (Z.of_nat (List.length rates)))))
  end.

(** [Product.calculate_reviews_count] *)
Definition calculate_reviews_count (self : Product) : M Z :=
  reviews <- product_reviews self ;; ret (Z.of_nat (List.length reviews)).

(** [Product.average_rating] *)
Definition average_rating (self : Product) : M (option Q) :=
  reviews <- product_reviews self ;; ret (Avg (map rate reviews)).

(** [product.save()] *)
Definition Product_save (p : Product) : M unit :=
  modify (fun st =>
    let t := Product_table st in
    if existsb (fun r => product_id r =? product_id p) t
    then with_Product_table
           (map (fun r => if product_id r =? product_id p then p else r) t) st
    else with_Product_table (t ++ [p]) st).

(** The [post_save] receiver of [Review].  [instance.product] is the very
    object the caller holds, so the receiver's assignments are seen by the
    caller: the updated object is handed back. *)
Definition update_product_fields (product : Product) : M Product :=
  n <- calculate_reviews_count product ;;
  let product := with_reviews_count product n in
  r <- average_rating product ;;
  let product := with_rating product r in
  Product_save product ;;;
  ret product.

(** [review.save()] of a new review of [product]: the INSERT, then the
    [post_save] signal. *)
Definition Review_save (product : Product) (author text : string) (rate : Z)
    (email : option string) (now : Z) : M (Review * Product) :=
  pk <- gets Review_seq ;;
  let review := {| review_id := pk; review_product := product_id product;
                   author := author; text := text; rate := rate;
                   review_date := now; email := email |} in
  modify (fun st => with_Review (Review_table st ++ [review]) (pk + 1) st) ;;;
  product <- update_product_fields product ;;
  ret (review, product).

(** The value of the key [email] as [serializers.EmailField] sees it: a
    JSON null, or a string together with the verdict of the validators of
    the field on the stripped string ([EmailValidator], at most 254
    characters, no null character), which are library code. *)
Inductive EmailParam :=
| EmailNull
| EmailText (s : string) (accepted : bool).

(** The body of a review request.  [None] is an absent key.  [rv_author]
    and [rv_text] are JSON strings, [rv_rate] an integer; [rv_date] says
    whether [DateTimeField] accepts the value of the key [date]. *)
Record ReviewData := {
  rv_author : option string;
  rv_email : option EmailParam;
  rv_text : option string;
  rv_rate : option Z;
  rv_date : option bool
}.

(** [serializer.validated_data] of [ReviewSerializer]; [email] is present
    only when it was sent. *)
Record ReviewValidated := {
  v_author : string;
  v_email : option (option string);
  v_text : string;
  v_rate : Z
}.

(** [serializers.CharField(max_length=...)] on a string: the text is
    stripped, must not be blank, must not hold a null character, and has
    at most [max_length] characters. *)
Definition CharField (max_length : option nat) (data : string)
  : option string :=
  let value := strip data in
  if String.eqb value "" then None
  else if has_null value then None
  else
    match max_length with
    | Some n => if (len value <=? n)%nat then Some value else None
    | None => Some value
    end.

(** [serializers.EmailField(allow_null=True, allow_blank=True)]: [None]
    where the field refuses the value. *)
Definition EmailField (data : EmailParam) : option (option string) :=
  match data with
  | EmailNull => Some None
  | EmailText s accepted =>
      let value := strip s in
      if String.eqb value "" then Some (Some EmptyString)
      else if accepted then Some (Some value)
      else None
  end.

(** [serializer.is_valid()] of [ReviewSerializer], a [ModelSerializer] over
    [Review] with the fields [author], [email], [text], [rate], [date]:
    [author], [text] and [rate] are required, [rate] carries the validators
    of the model field (1 to 5), [email] and [date] are optional. *)
Definition ReviewSerializer_validate (d : ReviewData)
  : option ReviewValidated :=
  match rv_author d, rv_text d, rv_rate d with
  | Some a, Some t, Some r =>
      match CharField (Some 100%nat) a, CharField None t with
      | Some a, Some t =>
          let email :=
            match rv_email d with
            | Some e =>
                match EmailField e with
                | Some value => Some (Some value)
                | None => None
                end
            | None => Some None
            end in
          let date_accepted :=
            match rv_date d with
            | Some accepted => accepted
            | None => true
            end in
          match email with
          | Some email =>
              if (1 <=? r) && (r <=? 5) && date_accepted
              then Some {| v_author := a; v_email := email;
                           v_text := t; v_rate := r |}
              else None
          | None => None
          end
      | _, _ => None
      end
  | _, _, _ => None
  end.

Module ReviewViewSet.

(** [now] is the reading of [timezone.now] used as default of [date]. *)
Definition create (pk : Z) (request_data : ReviewData) (now : Z)
  : M Response :=
  try_or_return (Product_objects_get pk) Product_DoesNotExist
    (ret {| data := ErrorBody "Продукт не найден.";
            status_code := HTTP_404_NOT_FOUND |})
    (fun product =>
       match ReviewSerializer_validate request_data with
       | Some validated_data =>
           email <- match v_email validated_data with
                    | Some e => ret e
                    | None => raise KeyError
                    end ;;
           rp <- Review_save product (v_author validated_data)
                             (v_text validated_data) (v_rate validated_data)
                             email now ;;
           let product := snd rp in
           n <- calculate_reviews_count product ;;
           let product := with_reviews_count product n in
           r <- average_rating product ;;
           let product := with_rating product r in
           Product_save product ;;;
           reviews <- product_reviews product ;;
           ret {| data := ReviewsBody reviews;
                  status_code := HTTP_201_CREATED |}
       | None =>
           ret {| data := SerializerErrors;
                  status_code := HTTP_400_BAD_REQUEST |}
       end).

End ReviewViewSet.

(** ** Orders *)

(** One element of a product list sent by the client.  [None] is an absent
    key; [price] and [count] are JSON numbers. *)
Record ProductData := {
  pd_id : option Z;
  pd_price : option Num;
  pd_count : option Num
}.

(** The body of a request to [OrderDetailView.post]. *)
Record OrderData := {
  payload_products : option (list ProductData);
  payload_deliveryType : option string;
  payload_paymentType : option string
}.

(** [Order.objects.create(user=user)]: the other columns take their
    defaults, [createdAt] the reading [now] of [timezone.now]. *)
Definition Order_objects_create (user now : Z) : M Order :=
  pk <- gets Order_seq ;;
  let order := {| order_id := pk; createdAt := now; order_user := user;
                  status := None; deliveryType := None; paymentType := None;
                  totalCost := 0%Q |} in
  modify (fun st => with_Order (Order_table st ++ [order]) (pk + 1) st) ;;;
  ret order.

(** [Order.objects.get(pk=pk)] *)
Definition Order_objects_get (pk : Z) : M Order :=
  t <- gets Order_table ;;
  match find (fun o => order_id o =? pk) t with
  | Some o => ret o
  | None => raise Order_DoesNotExist
  end.

(** [Order.objects.all()], under [Meta.ordering = ['-createdAt']] *)
Definition Order_objects_all : M (list Order) :=
  t <- gets Order_table ;;
  ret (sort_by (fun a b => createdAt b <=? createdAt a) t).

(** [order.save()] *)
Definition Order_save (o : Order) : M unit :=
  modify (fun st =>
    let t := Order_table st in
    if existsb (fun r => order_id r =? order_id o) t
    then with_Order
           (map (fun r => if order_id r =? order_id o then o else r) t)
           (Order_seq st) st
    else with_Order (t ++ [o]) (Order_seq st) st).

(** [order.products.add(product)]: a link that exists is not added again. *)
Definition order_products_add (order : Order) (product : Product) : M unit :=
  modify (fun st =>
    let t := Order_products_table st in
    if existsb (fun l => (fst l =? order_id order)
                         && (snd l =? product_id product)) t
    then st
    else with_Order_products (t ++ [(order_id order, product_id product)]) st).

(** [order.products.all()] *)
Definition order_products_all (order : Order) : M (list Product) :=
  links <- gets Order_products_table ;;
  mapM (fun l => Product_objects_get (snd l))
       (filter (fun l => fst l =? order_id order) links).

Definition DeliveryType_objects_get (pk : Z) : M DeliveryType :=
  t <- gets DeliveryType_table ;;
  match find (fun d => delivery_id d =? pk) t with
  | Some d => ret d
  | None => raise DeliveryType_DoesNotExist
  end.

Definition PaymentType_objects_get (pk : Z) : M PaymentType :=
  t <- gets PaymentType_table ;;
  match find (fun d => payment_id d =? pk) t with
  | Some d => ret d
  | None => raise PaymentType_DoesNotExist
  end.

Definition OrderStatus_objects_get (pk : Z) : M OrderStatus :=
  t <- gets OrderStatus_table ;;
  match find (fun d => status_id d =? pk) t with
  | Some d => ret d
  | None => raise OrderStatus_DoesNotExist
  end.

(** [get_object_or_404(Model, id=pk)], for a manager's [get] that raises
    [does_not_exist]. *)
Definition get_object_or_404 {A} (objects_get : Z -> M A)
    (does_not_exist : exn) (pk : Z) : M A :=
  try_except (objects_get pk) does_not_exist (raise Http404).

(** [user.profile] *)
Definition user_profile (user : Z) : M UserProfile :=
  t <- gets UserProfile_table ;;
  match find (fun p => profile_user p =? user) t with
  | Some p => ret p
  | None => raise RelatedObjectDoesNotExist
  end.

(** [user.cart] *)
Definition user_cart (user : Z) : M Cart :=
  try_except (Cart_objects_get user) Cart_DoesNotExist
             (raise RelatedObjectDoesNotExist).

(** A [StringRelatedField] over a nullable foreign key: [str] of the row. *)
Definition string_related {A} (objects_get : Z -> M A) (name : A -> string)
    (fk : option Z) : M (option string) :=
  match fk with
  | None => ret None
  | Some pk => row <- objects_get pk ;; ret (Some (name row))
  end.

(** [OrderSerializer(order).data] *)
Definition OrderSerializer_data (obj : Order) : M OrderOut :=
  profile <- user_profile (order_user obj) ;;
  delivery <- string_related DeliveryType_objects_get delivery_name
                             (deliveryType obj) ;;
  payment <- string_related PaymentType_objects_get payment_name
                            (paymentType obj) ;;
  st <- string_related OrderStatus_objects_get status_name (status obj) ;;
  products <- order_products_all obj ;;
  products <- mapM ProductSerializer_data products ;;
  ret {| out_id := order_id obj; out_createdAt := createdAt obj;
         out_totalCost := totalCost obj;
         out_fullName := fullName profile;
         out_email := profile_email profile;
         out_phone := phone profile;
         out_deliveryType := delivery;
         out_paymentType := payment;
         out_status := st;
         out_city := city profile;
         out_address := address profile;
         out_products := products |}.

Definition with_lookups (o : Order) (s d p : option Z) (cost : Q) : Order :=
  {| order_id := order_id o; createdAt := createdAt o;
     order_user := order_user o;
     status := s; deliveryType := d; paymentType := p; totalCost := cost |}.

(** [cart.items.all().delete()] *)
Definition cart_items_delete_all (cart : Cart) : M unit :=
  modify (fun st =>
    with_CartItem (filter (fun i => negb (in_cart cart i)) (CartItem_table st))
                  (CartItem_seq st) st).

(** What [APIView.dispatch] makes of an exception that leaves the handler:
    [Http404] becomes a 404 response; any other exception raised by the code
    below is not an API exception and is raised again, which ends the request
    as a server error. *)
Definition dispatch (handler : M Response) : M Response :=
  try_except handler Http404
    (ret {| data := ErrorBody "Not found.";
            status_code := HTTP_404_NOT_FOUND |}).

Module OrderAPIView.

Definition get (user : Z) : M Response :=
  orders <- Order_objects_all ;;
  rendered <- mapM OrderSerializer_data orders ;;
  ret {| data := OrdersBody rendered; status_code := HTTP_200_OK |}.

(** [now] is the reading of [timezone.now] taken by [Order.objects.create]. *)
Definition post (user : Z) (request_data : list ProductData) (now : Z)
  : M Response :=
  let products := request_data in
  order <- Order_objects_create user now ;;
  forM_ products (fun product_data =>
    id <- match pd_id product_data with
          | Some i => ret i
          | None => raise KeyError
          end ;;
    product <- Product_objects_get id ;;
    order_products_add order product) ;;;
  d <- get_object_or_404 DeliveryType_objects_get DeliveryType_DoesNotExist 3 ;;
  p <- get_object_or_404 PaymentType_objects_get PaymentType_DoesNotExist 3 ;;
  s <- get_object_or_404 OrderStatus_objects_get OrderStatus_DoesNotExist 7 ;;
  let order := with_lookups order (Some (status_id s))
                            (Some (delivery_id d)) (Some (payment_id p))
                            (totalCost order) in
  Order_save order ;;;
  rendered <- OrderSerializer_data order ;;
  cart <- user_cart user ;;
  cart_items_delete_all cart ;;;
  ret {| data := OrderBody rendered (order_id order);
         status_code := HTTP_201_CREATED |}.

End OrderAPIView.

Module OrderDetailView.

(** The loop [for product_data in products: total_cost += price * count],
    started from the integer 0. *)
Definition total_of (products : list ProductData) : Num :=
  fold_left (fun total_cost product_data =>
               let price := match pd_price product_data with
                            | Some x => x
                            | None => Int 0
                            end in
               let count := match pd_count product_data with
                            | Some x => x
                            | None => Int 0
                            end in
               Num_add total_cost (Num_mul price count))
            products (Int 0).

Definition post (pk : Z) (payload_data : OrderData) : M Response :=
  try_or_return (Order_objects_get pk) Order_DoesNotExist
    (ret {| data := NoBody; status_code := HTTP_404_NOT_FOUND |})
    (fun order =>
       let products := match payload_products payload_data with
                       | Some l => l
                       | None => []
                       end in
       let total_cost := total_of products in
       delivery_type <-
         (if match payload_deliveryType payload_data with
             | Some s => String.eqb s "express"
             | None => false
             end
          then DeliveryType_objects_get 1
          else DeliveryType_objects_get 2) ;;
       let total_cost :=
         Num_add total_cost (Float (delivery_price delivery_type)) in
       payment_type <-
         (if match payload_paymentType payload_data with
             | Some s => String.eqb s "someone"
             | None => false
             end
          then PaymentType_objects_get 2
          else PaymentType_objects_get 1) ;;
       order_status <- OrderStatus_objects_get 1 ;;
       let order := with_lookups order (Some (status_id order_status))
                                 (Some (delivery_id delivery_type))
                                 (Some (payment_id payment_type))
                                 (float_of total_cost) in
       Order_save order ;;;
       modify (with_session (Some (order_id order))) ;;;
       ret {| data := OrderIdBody (order_id order);
              status_code := HTTP_201_CREATED |}).

End OrderDetailView.

(** ** Further views *)

(** [Response(data, status)] of a view whose body is not one of [Body]. *)
Record Reply (A : Type) := {
  reply_data : A;
  reply_status : Z
}.

(** [OrderDetailView.get]; a 404 has no body. *)
Definition OrderDetailView_get (pk : Z) : M (Reply (option OrderOut)) :=
  try_except
    (order <- Order_objects_get pk ;;
     rendered <- OrderSerializer_data order ;;
     ret {| reply_data := Some rendered; reply_status := HTTP_200_OK |})
    Order_DoesNotExist
    (ret {| reply_data := None; reply_status := HTTP_404_NOT_FOUND |}).

Module PaymentView.

(** The body [{'message': ...}], absent on an error status. *)
Definition Paid := Reply (option string).

(** [if order_id:] is false for a missing key and for 0. *)
Definition present (order_id : option Z) : option Z :=
  match order_id with
  | Some 0 => None
  | _ => order_id
  end.

(** The primary key of the URL is not used. *)
Definition get (pk : Z) : M Paid :=
  order_id <- gets session_orderId ;;
  modify (with_session None) ;;;
  match present order_id with
  | Some order_id =>
      try_except
        (Order_objects_get order_id ;;;
         ret {| reply_data := Some "Оплата прошла успешно."%string;
                reply_status := HTTP_200_OK |})
        Order_DoesNotExist
        (ret {| reply_data := None; reply_status := HTTP_404_NOT_FOUND |})
  | None =>
      ret {| reply_data := None; reply_status := HTTP_400_BAD_REQUEST |}
  end.

Definition post (pk : Z) : M Paid :=
  order_id <- gets session_orderId ;;
  match present order_id with
  | Some order_id =>
      try_except
        (order <- Order_objects_get order_id ;;
         order_status <- OrderStatus_objects_get 3 ;;
         Order_save (with_lookups order (Some (status_id order_status))
                                  (deliveryType order) (paymentType order)
                                  (totalCost order)) ;;;
         ret {| reply_data := Some "Статус заказа успешно обновлен."%string;
                reply_status := HTTP_200_OK |})
        Order_DoesNotExist
        (ret {| reply_data := None; reply_status := HTTP_404_NOT_FOUND |})
  | None =>
      ret {| reply_data := None; reply_status := HTTP_400_BAD_REQUEST |}
  end.

End PaymentView.

(** A product as [ProductDetailsSerializer] renders it: the row, its
    reviews, and [get_rating], which is null for a product without
    reviews. *)
Record ProductDetails := {
  details_product : Product;
  details_reviews : list Review;
  details_rating : option Q
}.

Definition ProductDetailsSerializer_get_rating (obj : Product)
  : M (option Q) :=
  reviews <- product_reviews obj ;;
  match reviews with
  | _ :: _ =>
      let total_rating := Zsum (map rate reviews) in
      ret (Some (true_divide total_rating (Z.of_nat (List.length reviews))))
  | [] => ret None
  end.

Definition ProductDetailsSerializer_data (obj : Product) : M ProductDetails :=
  reviews <- product_reviews obj ;;
  r <- ProductDetailsSerializer_get_rating obj ;;
  ret {| details_product := obj; details_reviews := reviews;
         details_rating := r |}.

(** [ProductAPIView.retrieve]: [get_object] looks the primary key up in
    [get_queryset] and raises [Http404] when it is not there. *)
Definition ProductAPIView_retrieve (pk : Z) : M (Reply ProductDetails) :=
  queryset <- ProductAPIView.get_queryset pk ;;
  instance <- match find (fun p => product_id p =? pk) queryset with
              | Some p => ret p
              | None => raise Http404
              end ;;
  d <- ProductDetailsSerializer_data instance ;;
  ret {| reply_data := d; reply_status := HTTP_200_OK |}.

(** ** Vocabulary of the statements *)

(** The line items that [user]'s cart holds for product [pid]; a user
    without a cart has none. *)
Definition line_items (st : Store) (user pid : Z) : list CartItem :=
  match find (fun c => cart_user c =? user) (Cart_table st) with
  | Some cart =>
      filter (fun i => (item_cart i =? cart_id cart) && (item_product i =? pid))
             (CartItem_table st)
  | None => []
  end.

(** Integrity of the cart tables: what the database enforces (primary keys
    are unique and were drawn from the sequence, foreign keys point at
    rows) and the invariants of the data model (one line item per cart and
    product, counts at least 1). *)
Record Store_wf (st : Store) : Prop := {
  wf_item_pk : forall i, In i (CartItem_table st) -> item_id i < CartItem_seq st;
  wf_item_pk_unique : NoDup (map item_id (CartItem_table st));
  wf_cart_pk : forall c, In c (Cart_table st) -> cart_id c < Cart_seq st;
  wf_item_cart :
    forall i, In i (CartItem_table st) ->
              exists c, In c (Cart_table st) /\ cart_id c = item_cart i;
  wf_item_product :
    forall i, In i (CartItem_table st) ->
              exists p, In p (Product_table st) /\ product_id p = item_product i;
  wf_item_unique :
    NoDup (map (fun i => (item_cart i, item_product i)) (CartItem_table st));
  wf_item_count : forall i, In i (CartItem_table st) -> 1 <= item_count i
}.

(** The response of a request that ended without an exception. *)
Definition responded (r : result Response) (code : Z) : Prop :=
  exists body, r = Ok {| data := body; status_code := code |}.

(** A placeholder row, for lookups that cannot fail. *)
Definition no_product : Product :=
  {| product_id := 0; title := ""; description := ""; fullDescription := "";
     price := 0; date := 0; archived := false; preview := None;
     category := 0; freeDelivery := false;
     available := false; tags := []; count := 0;
     rating := None; reviews_count := 0; popular := false;
     limited := false; banner := false |}.

(** The cart [Cart.objects.get_or_create] answers with, and the store it
    leaves. *)
Definition cart_for (st : Store) (user : Z) : Cart :=
  match find (fun c => cart_user c =? user) (Cart_table st) with
  | Some c => c
  | None => {| cart_id := Cart_seq st; cart_user := user |}
  end.

Definition with_cart_for (st : Store) (user : Z) : Store :=
  match find (fun c => cart_user c =? user) (Cart_table st) with
  | Some _ => st
  | None =>
      with_Cart (Cart_table st ++ [{| cart_id := Cart_seq st;
                                      cart_user := user |}])
                (Cart_seq st + 1) st
  end.

(** The store after adding [count] of product [pid] to [user]'s cart, read
    off the data model: the line item of the product gains [count], and a
    line item with [count] is appended when there is none. *)
Definition added (st : Store) (user pid count : Z) : Store :=
  let cart := cart_for st user in
  let st_c := with_cart_for st user in
  match line_items st user pid with
  | [] =>
      with_CartItem
        (CartItem_table st ++
           [{| item_id := CartItem_seq st; item_cart := cart_id cart;
               item_product := pid; item_count := count |}])
        (CartItem_seq st + 1) st_c
  | i :: _ =>
      with_CartItem
        (map (fun r => if item_id r =? item_id i
                       then with_count i (item_count i + count) else r)
             (CartItem_table st))
        (CartItem_seq st) st_c
  end.

(** The count that [user]'s cart holds of product [pid] once [count] more
    are added. *)
Definition count_after (st : Store) (user pid count : Z) : Z :=
  match line_items st user pid with
  | i :: _ => item_count i + count
  | [] => count
  end.

(** [ProductSerializer(obj).data] as a function of the store. *)
Definition rendered (st : Store) (obj : Product) : ProductOut :=
  let reviews :=
    filter (fun r => review_product r =? product_id obj) (Review_table st) in
  {| out_product := obj;
     out_reviews := Z.of_nat (List.length reviews);
     out_rating :=
       match reviews with
       | _ :: _ =>
           true_divide (Zsum (map rate reviews))
                       (Z.of_nat (List.length reviews))
       | [] => 0%Q
       end |}.

(** The same catalog query for another page. *)
Definition with_currentPage (GET : CatalogQuery) (page : option Z)
  : CatalogQuery :=
  {| filter_name := filter_name GET;
     filter_minPrice := filter_minPrice GET;
     filter_maxPrice := filter_maxPrice GET;
     filter_freeDelivery := filter_freeDelivery GET;
     filter_available := filter_available GET;
     sort := sort GET; sortType := sortType GET;
     tags_list := tags_list GET;
     currentPage_param := page |}.

(** ** Sample data *)

Definition empty_store : Store :=
  {| Product_table := []; Review_table := []; Cart_table := [];
     CartItem_table := []; UserProfile_table := [];
     OrderStatus_table := []; DeliveryType_table := [];
     PaymentType_table := []; Order_table := [];
     Order_products_table := [];
     Review_seq := 1; Cart_seq := 1; CartItem_seq := 1; Order_seq := 1;
     session_orderId := None;
     tag_join_order := fun rows => rows;
     related_order := fun _ => Ok (fun rows => rows) |}.

(** A catalog request without any parameter. *)
Definition no_parameters : CatalogQuery :=
  {| filter_name := None; filter_minPrice := None; filter_maxPrice := None;
     filter_freeDelivery := None; filter_available := None;
     sort := None; sortType := None; tags_list := [];
     currentPage_param := None |}.

Definition sample_product (id : Z) (p : Q) (is_archived : bool) : Product :=
  {| product_id := id; title := "Lamp"; description := "";
     fullDescription := ""; price := p; date := 0;
     archived := is_archived; preview := None; category := 1;
     freeDelivery := false;
     available := true; tags := []; count := 10;
     rating := Some 0%Q; reviews_count := 0; popular := false;
     limited := false; banner := false |}.

Definition sample_profile (user : Z) : UserProfile :=
  {| profile_user := user; fullName := Some "Ann"%string; phone := None;
     profile_email := None; city := None; address := None |}.

(** Three products (product 8 is archived), users 10 and 11, a cart of
    user 10 with four of product 9, the lookup rows the order views refer
    to, and one order of each user. *)
Definition sample_store : Store :=
  {| Product_table := [sample_product 7 150 false;
                       sample_product 8 50 true;
                       sample_product 9 200 false];
     Review_table := [];
     Cart_table := [{| cart_id := 1; cart_user := 10 |}];
     CartItem_table := [{| item_id := 1; item_cart := 1;
                           item_product := 9; item_count := 4 |}];
     UserProfile_table := [sample_profile 10; sample_profile 11];
     OrderStatus_table := [{| status_id := 1; status_name := "pending" |};
                           {| status_id := 3; status_name := "paid" |};
                           {| status_id := 7; status_name := "draft" |}];
     DeliveryType_table :=
       [{| delivery_id := 1; delivery_name := "express";
           delivery_price := 500 |};
        {| delivery_id := 2; delivery_name := "ordinary";
           delivery_price := 200 |};
        {| delivery_id := 3; delivery_name := "unset";
           delivery_price := 0 |}];
     PaymentType_table := [{| payment_id := 1; payment_name := "online" |};
                           {| payment_id := 2; payment_name := "someone" |};
                           {| payment_id := 3; payment_name := "unset" |}];
     Order_table := [{| order_id := 1; createdAt := 1000; order_user := 10;
                        status := Some 7; deliveryType := Some 3;
                        paymentType := Some 3; totalCost := 0 |};
                     {| order_id := 2; createdAt := 2000; order_user := 11;
                        status := Some 7; deliveryType := Some 3;
                        paymentType := Some 3; totalCost := 0 |}];
     Order_products_table := [(1, 7); (2, 9)];
     Review_seq := 1; Cart_seq := 2; CartItem_seq := 2; Order_seq := 3;
     session_orderId := None;
     tag_join_order := fun rows => rows;
     related_order := fun _ => Ok (fun rows => rows) |}.

(** The sample store with another count in its line item. *)
Definition sample_store_with_count (count : Z) : Store :=
  with_CartItem [{| item_id := 1; item_cart := 1; item_product := 9;
                    item_count := count |}] 2 sample_store.




(** The reviews of the product with primary key [pk]. *)
Definition reviews_of (st : Store) (pk : Z) : list Review :=
  filter (fun r => review_product r =? pk) (Review_table st).

(** The arithmetic mean of a non-empty list of integers. *)
Definition mean (values : list Z) : Q :=
  (inject_Z (Zsum values) / inject_Z (Z.of_nat (List.length values)))%Q.

(** The rating that the product page shows for the given rates. *)
Definition page_rating (rates : list Z) : option Q :=
  match rates with
  | [] => None
  | _ :: _ => Some (true_divide (Zsum rates) (Z.of_nat (List.length rates)))
  end.

(** The arithmetic mean of a non-empty list of integers: the rational
    whose product with the number of values is their sum. *)
Definition is_mean_of (q : Q) (values : list Z) : Prop :=
  values <> []
  /\ (q * inject_Z (Z.of_nat (List.length values)) == inject_Z (Zsum values))%Q.

(** The store after a review of [product] was saved and the product's
    aggregates were written back. *)
Definition reviewed (st : Store) (product : Product) (review : Review)
  : Store :=
  let st1 := with_Review (Review_table st ++ [review]) (Review_seq st + 1) st in
  let rs := reviews_of st1 (product_id product) in
  with_Product_table
    (map (fun r => if product_id r =? product_id product
                   then with_aggregates product (Z.of_nat (List.length rs))
                                        (Avg (map rate rs))
                   else r)
         (Product_table st))
    st1.

(** A stored review of product 7, and the sample store with two of them,
    of rates 5 and 4. *)
Definition stored_review (pk r : Z) : Review :=
  {| review_id := pk; review_product := 7; author := "Ann"; text := "fine";
     rate := r; review_date := 0; email := None |}.

Definition rated_store : Store :=
  with_Review [stored_review 1 5; stored_review 2 4] 3 sample_store.

(** A valid review request with the given rate. *)
Definition sample_review (r : Z) : ReviewData :=
  {| rv_author := Some "Ann"%string; rv_email := Some EmailNull;
     rv_text := Some "fine"%string; rv_rate := Some r; rv_date := None |}.

(** A review request whose author is one no-break space, and one that is
    valid but has no key [email]. *)
Definition blank_author_review : ReviewData :=
  {| rv_author := Some (String "194" (String "160" EmptyString));
     rv_email := None; rv_text := Some "fine"%string; rv_rate := Some 4;
     rv_date := None |}.

Definition review_without_email : ReviewData :=
  {| rv_author := Some "Ann"%string; rv_email := None;
     rv_text := Some "fine"%string; rv_rate := Some 4; rv_date := None |}.

(** Ways in which a review request is not valid. *)
Definition refused (d : ReviewData) : Prop :=
  rv_author d = None \/ rv_text d = None \/ rv_rate d = None
  \/ (exists r, rv_rate d = Some r /\ (r < 1 \/ 5 < r))
  \/ (exists a, rv_author d = Some a
                /\ (strip a = EmptyString \/ has_null (strip a) = true
                    \/ (100 < len (strip a))%nat))
  \/ (exists t, rv_text d = Some t
                /\ (strip t = EmptyString \/ has_null (strip t) = true))
  \/ (exists s, rv_email d = Some (EmailText s false)
                /\ strip s <> EmptyString)
  \/ rv_date d = Some false.












(** A finalize payload: two of a product at 150, one at 200, express
    delivery. *)
Definition sample_payload : OrderData :=
  {| payload_products :=
       Some [{| pd_id := Some 7; pd_price := Some (Int 150);
                pd_count := Some (Int 2) |};
             {| pd_id := Some 9; pd_price := Some (Int 200);
                pd_count := Some (Int 1) |}];
     payload_deliveryType := Some "express"%string;
     payload_paymentType := None |}.




(** Referential integrity of the order tables: the owner of every order
    has a profile, the lookup rows an order refers to exist, and so do the
    products linked to orders. *)
Record Orders_renderable (st : Store) : Prop := {
  owner_has_profile :
    forall o, In o (Order_table st) ->
      find (fun p => profile_user p =? order_user o) (UserProfile_table st)
      <> None;
  status_exists :
    forall o pk, In o (Order_table st) -> status o = Some pk ->
      find (fun s => status_id s =? pk) (OrderStatus_table st) <> None;
  delivery_exists :
    forall o pk, In o (Order_table st) -> deliveryType o = Some pk ->
      find (fun d => delivery_id d =? pk) (DeliveryType_table st) <> None;
  payment_exists :
    forall o pk, In o (Order_table st) -> paymentType o = Some pk ->
      find (fun d => payment_id d =? pk) (PaymentType_table st) <> None;
  linked_product_exists :
    forall l, In l (Order_products_table st) ->
      find (fun p => product_id p =? snd l) (Product_table st) <> None
}.

(** A rendered order shows the identity, creation time, cost and owner's
    name of the order row. *)
Definition renders (st : Store) (o : Order) (r : OrderOut) : Prop :=
  out_id r = order_id o
  /\ out_createdAt r = createdAt o
  /\ out_totalCost r = totalCost o
  /\ exists profile,
       find (fun p => profile_user p =? order_user o) (UserProfile_table st)
       = Some profile
       /\ out_fullName r = fullName profile.

(** A computation that keeps a property of the store, however it ends. *)
Definition preserves {A} (P : Store -> Prop) (m : M A) : Prop :=
  forall st, P st -> P (snd (m st)).

(** The requests of the API that are modelled, with their arguments. *)
Inductive Request :=
| GET_basket (user : Z)
| POST_basket (user : Z) (request_data : CartItemData)
| DELETE_basket (user : Z) (request_data : BasketAPIView.DeleteData)
| GET_catalog (GET : CatalogQuery)
| GET_product (pk : Z)
| POST_review (pk : Z) (request_data : ReviewData) (now : Z)
| GET_orders (user : Z)
| POST_orders (user : Z) (request_data : list ProductData) (now : Z)
| GET_order (pk : Z)
| POST_order (pk : Z) (payload_data : OrderData)
| GET_payment (pk : Z)
| POST_payment (pk : Z).

(** The store a request leaves, whether it was answered or ended in an
    exception. *)
Definition handle (st : Store) (r : Request) : Store :=
  match r with
  | GET_basket user => snd (BasketAPIView.get user st)
  | POST_basket user d => snd (BasketAPIView.post user d st)
  | DELETE_basket user d => snd (BasketAPIView.delete user d st)
  | GET_catalog q => snd (CatalogAPIView.get q st)
  | GET_product pk => snd (ProductAPIView_retrieve pk st)
  | POST_review pk d now => snd (ReviewViewSet.create pk d now st)
  | GET_orders user => snd (dispatch (OrderAPIView.get user) st)
  | POST_orders user d now => snd (dispatch (OrderAPIView.post user d now) st)
  | GET_order pk => snd (OrderDetailView_get pk st)
  | POST_order pk d => snd (OrderDetailView.post pk d st)
  | GET_payment pk => snd (PaymentView.get pk st)
  | POST_payment pk => snd (PaymentView.post pk st)
  end.

(** Primary keys of orders were drawn from the sequence: every order and
    every product link of an order has an order key below it. *)
Record Orders_fresh (st : Store) : Prop := {
  order_pk_below :
    forall o, In o (Order_table st) -> order_id o < Order_seq st;
  link_pk_below :
    forall l, In l (Order_products_table st) -> fst l < Order_seq st
}.

(** An element of a product list that names an existing product. *)
Definition names_product (st : Store) (d : ProductData) : Prop :=
  exists i p,
    pd_id d = Some i
    /\ find (fun x => product_id x =? i) (Product_table st) = Some p.

(** The ids named by a product list. *)
Definition named_ids (request : list ProductData) : list (option Z) :=
  map pd_id request.

(** The order row [OrderAPIView.post] creates, before and after the
    placeholder lookup rows are assigned. *)
Definition draft (st : Store) (user now : Z) : Order :=
  {| order_id := Order_seq st; createdAt := now; order_user := user;
     status := None; deliveryType := None; paymentType := None;
     totalCost := 0%Q |}.

Definition placed (st : Store) (user now : Z) : Order :=
  {| order_id := Order_seq st; createdAt := now; order_user := user;
     status := Some 7; deliveryType := Some 3; paymentType := Some 3;
     totalCost := 0%Q |}.

(** The products linked to an order. *)
Definition linked_to (st : Store) (order_pk : Z) : list Z :=
  map snd (filter (fun l => fst l =? order_pk) (Order_products_table st)).

(** The statements of [OrderAPIView.post] that follow its loop. *)
Definition after_attaching (user : Z) (order : Order) : M Response :=
  d <- get_object_or_404 DeliveryType_objects_get DeliveryType_DoesNotExist 3 ;;
  p <- get_object_or_404 PaymentType_objects_get PaymentType_DoesNotExist 3 ;;
  s <- get_object_or_404 OrderStatus_objects_get OrderStatus_DoesNotExist 7 ;;
  let order := with_lookups order (Some (status_id s))
                            (Some (delivery_id d)) (Some (payment_id p))
                            (totalCost order) in
  Order_save order ;;;
  rendered <- OrderSerializer_data order ;;
  cart <- user_cart user ;;
  cart_items_delete_all cart ;;;
  ret {| data := OrderBody rendered (order_id order);
         status_code := HTTP_201_CREATED |}.

(** The store after the order row was created and the products of a
    request were linked to it. *)
Definition attached (st : Store) (user now : Z) (new : list (Z * Z)) : Store :=
  with_Order_products
    (Order_products_table st ++ new)
    (with_Order (Order_table st ++ [draft st user now]) (Order_seq st + 1) st).





(** Whether a product passes the filters of a catalog query other than the
    tag filter: every filter that is present must hold. *)
Definition matches (GET : CatalogQuery) (p : Product) : bool :=
  (match truthy (filter_name GET) with
   | Some name_param => contains (lower name_param) (lower (title p))
   | None => true
   end)
  && (match filter_minPrice GET with
      | Some (Number v) => Qle_bool v (price p)
      | _ => true
      end)
  && (match filter_maxPrice GET with
      | Some (Number v) => Qle_bool (price p) v
      | _ => true
      end)
  && (match filter_freeDelivery GET with
      | Some freeDelivery_param =>
          if String.eqb (lower freeDelivery_param) "false" then true
          else freeDelivery p
      | None => true
      end)
  && (match truthy (filter_available GET) with
      | Some available_param =>
          eqb (available p) (String.eqb (lower available_param) "true")
      | None => true
      end).

(** The tags a catalog query names. *)
Definition requested_tags (GET : CatalogQuery) : list Z :=
  flat_map (fun value => match value with Some t => [t] | None => [] end)
           (tags_list GET).

(** How often a matching product is listed: once without tag filter, and
    with a tag filter once for each of its tags that the query names. *)
Definition copies (GET : CatalogQuery) (p : Product) : nat :=
  match tags_list GET with
  | [] => 1%nat
  | _ :: _ =>
      List.length (filter (fun t => existsb (Z.eqb t) (requested_tags GET))
                          (tags p))
  end.

(** What a catalog query selects from a queryset: the matching products,
    each as often as it is listed. *)
Definition selected (GET : CatalogQuery) (queryset : list Product)
  : list Product :=
  flat_map (fun p => repeat p (copies GET p)) (filter (matches GET) queryset).

(** An integer that a 64-bit column or parameter can hold. *)
Definition fits_INTEGER (v : Z) : Prop := - INTEGER_max - 1 <= v <= INTEGER_max.

(** The rows of a join come back in some order, none lost and none
    added. *)
Definition join_keeps_rows (st : Store) : Prop :=
  forall rows, Permutation (tag_join_order st rows) rows.

(** The arguments that [filter_queryset] hands to [order_by]. *)
Definition ordering_of (GET : CatalogQuery) : list string :=
  match truthy (sort GET), sortType GET with
  | Some sort_param, Some sort_type_param =>
      flat_map (fun fs : string * string =>
                  let (field, sort_type) := fs in
                  if String.eqb sort_type "dec" then [field]
                  else if String.eqb sort_type "inc" then [String "-" field]
                       else [])
               (combine (map strip (split_comma sort_param))
                        (map strip (split_comma sort_type_param)))
  | _, _ => []
  end.

(** The query sorts, if at all, by columns of [Product]. *)
Definition sorts_by_columns (GET : CatalogQuery) : Prop :=
  exists cs, order_terms (ordering_of GET) = Columns cs.

(** The sort step of [filter_queryset] does not raise: [sortType] is there
    when [sort] is, and the sort terms resolve to columns of [Product]. *)
Definition sort_accepted (GET : CatalogQuery) : Prop :=
  (truthy (sort GET) <> None -> sortType GET <> None)
  /\ exists cs, order_terms (ordering_of GET) = Columns cs.

(** The catalog request [sort=price&sortType=...] without filters. *)
Definition sort_query (direction : string) : CatalogQuery :=
  {| filter_name := None; filter_minPrice := None; filter_maxPrice := None;
     filter_freeDelivery := None; filter_available := None;
     sort := Some "price"%string; sortType := Some direction;
     tags_list := []; currentPage_param := None |}.

(** The same catalog query without its [sort] parameter. *)
Definition without_sort (GET : CatalogQuery) : CatalogQuery :=
  {| filter_name := filter_name GET;
     filter_minPrice := filter_minPrice GET;
     filter_maxPrice := filter_maxPrice GET;
     filter_freeDelivery := filter_freeDelivery GET;
     filter_available := filter_available GET;
     sort := None; sortType := sortType GET;
     tags_list := tags_list GET;
     currentPage_param := currentPage_param GET |}.

(** The direction tokens of a [sortType] parameter. *)
Definition directions (sort_type_param : string) : list string :=
  map strip (split_comma sort_type_param).

(** A product carrying the given tags, and the catalog request that names
    the given tags and nothing else. *)
Definition tagged_product (id : Z) (product_tags : list Z) : Product :=
  {| product_id := id; title := "Lamp"; description := "";
     fullDescription := ""; price := 100; date := 0;
     archived := false; preview := None; category := 1;
     freeDelivery := false;
     available := true; tags := product_tags; count := 10;
     rating := Some 0%Q; reviews_count := 0; popular := false;
     limited := false; banner := false |}.

Definition tag_query (requested : list Z) : CatalogQuery :=
  {| filter_name := None; filter_minPrice := None; filter_maxPrice := None;
     filter_freeDelivery := None; filter_available := None;
     sort := None; sortType := None; tags_list := map Some requested;
     currentPage_param := None |}.

(** A computation that leaves the store as it found it. *)
Definition readonly {A} (m : M A) : Prop := forall st, snd (m st) = st.

(** * Properties *)

Unset Implicit Arguments.

(** ** Running the monad *)

Lemma bind_Ok A B (m : M A) (k : A -> M B) st a st1 :
  m st = (Ok a, st1) -> bind m k st = k a st1.
Proof. unfold bind; intros ->; reflexivity. Qed.

Lemma bind_Raise A B (m : M A) (k : A -> M B) st e st1 :
  m st = (Raise e, st1) -> bind m k st = (Raise e, st1).
Proof. unfold bind; intros ->; reflexivity. Qed.

(** ** Rounding *)

Lemma round_half_even_near a b :
  0 < b -> 2 * Z.abs (b * round_half_even a b - a) <= b.
Proof.
  intros Hb. unfold round_half_even.
  pose proof (Z.div_mod a b ltac:(lia)) as Hdiv.
  pose proof (Z.mod_pos_bound a b Hb) as Hmod.
  destruct (Z.compare_spec (2 * (a mod b)) b) as [H|H|H];
    [destruct (Z.even (a / b))| |]; nia.
Qed.

Lemma round_half_even_exact a b : 0 < b -> round_half_even (a * b) b = a.
Proof.
  intros Hb. unfold round_half_even.
  rewrite Z.div_mul, Z.mod_mul by lia.
  destruct (Z.compare_spec (2 * 0) b); lia.
Qed.

Lemma fl_Proper x y : (x == y)%Q -> fl x = fl y.
Proof. intros H. unfold fl. rewrite (Qred_complete _ _ H). reflexivity. Qed.

Lemma Qred_integer z : Qred (inject_Z z) = inject_Z z.
Proof.
  unfold Qred, inject_Z.
  pose proof (Z.ggcd_correct_divisors z 1) as H.
  pose proof (Z.ggcd_gcd z 1) as Hg. rewrite Z.gcd_1_r in Hg.
  destruct (Z.ggcd z 1) as [g [aa bb]]. cbn [fst snd] in *. subst g.
  destruct H as [-> Hb]. replace bb with 1 by lia.
  rewrite Z.mul_1_l. reflexivity.
Qed.

Lemma floor_log2_integer n :
  floor_log2 n 1 = Z.log2 (Zpos n).
Proof.
  unfold floor_log2. change (Z.log2 1) with 0. rewrite Z.sub_0_r.
  pose proof (Z.log2_nonneg (Zpos n)) as H0.
  pose proof (Z.log2_spec (Zpos n) ltac:(lia)) as [Hlo _].
  replace (0 <=? Z.log2 (Z.pos n)) with true by (symmetry; apply Z.leb_le; lia).
  replace (1 * 2 ^ Z.log2 (Z.pos n) <=? Z.pos n) with true
    by (symmetry; apply Z.leb_le; lia).
  reflexivity.
Qed.

Lemma fl_pos_integer n : Zpos n <= 2 ^ 53 -> fl_pos n 1 = inject_Z (Zpos n).
Proof.
  intros Hn. unfold fl_pos. rewrite floor_log2_integer.
  pose proof (Z.log2_nonneg (Zpos n)) as H0.
  pose proof (Z.log2_spec (Zpos n) ltac:(lia)) as [Hlo Hhi].
  assert (HL : Z.log2 (Zpos n) <= 53).
  { pose proof (Z.log2_le_mono _ _ Hn) as Hm.
    rewrite Z.log2_pow2 in Hm by lia. exact Hm. }
  set (L := Z.log2 (Zpos n)) in *.
  rewrite Z.max_l by lia.
  destruct (Z.leb_spec 0 (L - 52)) as [He|He].
  - assert (HLL : L = 52 \/ L = 53) by lia.
    replace (1 * 2 ^ (L - 52)) with (2 ^ (L - 52)) by lia.
    destruct HLL as [-> | ->].
    + change (2 ^ (52 - 52)) with 1.
      rewrite <- (Z.mul_1_r (Zpos n)) at 1.
      rewrite round_half_even_exact by lia. f_equal. lia.
    + assert (Zpos n = 2 ^ 53) as -> by (change (2 ^ 53) with (2 * 2 ^ 52) in *; lia).
      reflexivity.
  - replace (- (L - 52)) with (52 - L) by lia.
    assert (Hp : 0 < 2 ^ (52 - L)) by (apply Z.pow_pos_nonneg; lia).
    replace (Zpos n * 2 ^ (52 - L)) with ((Zpos n * 2 ^ (52 - L)) * 1) by lia.
    rewrite round_half_even_exact by lia.
    rewrite <- Qred_integer. apply Qred_complete.
    unfold Qeq. cbn [Qnum Qden inject_Z]. rewrite Z2Pos.id by lia. lia.
Qed.

Lemma fl_integer z : Z.abs z <= 2 ^ 53 -> fl (inject_Z z) = inject_Z z.
Proof.
  intros Hz. unfold fl. rewrite Qred_integer. cbn [Qnum Qden inject_Z].
  destruct z as [|n|n].
  - reflexivity.
  - apply fl_pos_integer. lia.
  - rewrite fl_pos_integer by lia. reflexivity.
Qed.

Lemma floor_log2_lower n d :
  Zpos d <= Zpos n ->
  0 <= floor_log2 n d /\ Zpos d * 2 ^ floor_log2 n d <= Zpos n.
Proof.
  intros Hnd. unfold floor_log2.
  pose proof (Z.log2_le_mono _ _ Hnd) as Hmono.
  pose proof (Z.log2_nonneg (Zpos d)) as Hd0.
  pose proof (Z.log2_spec (Zpos n) ltac:(lia)) as [Hnlo Hnhi].
  pose proof (Z.log2_spec (Zpos d) ltac:(lia)) as [Hdlo Hdhi].
  set (a := Z.log2 (Zpos n)) in *. set (b := Z.log2 (Zpos d)) in *.
  replace (0 <=? a - b) with true by (symmetry; apply Z.leb_le; lia).
  destruct (Z.leb_spec (Zpos d * 2 ^ (a - b)) (Zpos n)) as [H|H].
  - split; lia.
  - assert (a - b <> 0) by (intros E; rewrite E in H; cbn in H; lia).
    split; [lia|].
    assert (Hpow : 2 ^ a = 2 ^ (a - b - 1) * 2 ^ (b + 1)).
    { rewrite <- Z.pow_add_r by lia. f_equal. lia. }
    assert (0 < 2 ^ (a - b - 1)) by (apply Z.pow_pos_nonneg; lia).
    nia.
Qed.

(** For [1 <= |x|], rounding moves [x] by at most [|x| / 2^53]. *)
Lemma fl_pos_error n d :
  Zpos d <= Zpos n ->
  (Qabs (fl_pos n d - (Zpos n # d)) * inject_Z (2 ^ 53) <= Zpos n # d)%Q.
Proof.
  intros Hnd. destruct (floor_log2_lower n d Hnd) as [Hlg0 Hlg].
  unfold fl_pos. set (lg := floor_log2 n d) in *.
  rewrite Z.max_l by lia.
  destruct (Z.leb_spec 0 (lg - 52)) as [He|He].
  - set (e := lg - 52) in *.
    assert (Hp : 0 < 2 ^ e) by (apply Z.pow_pos_nonneg; lia).
    pose proof (round_half_even_near (Zpos n) (Zpos d * 2 ^ e) ltac:(lia)) as Hr.
    set (m := round_half_even (Zpos n) (Zpos d * 2 ^ e)) in *.
    assert (Hpow : 2 ^ lg = 2 ^ e * 2 ^ 52).
    { rewrite <- Z.pow_add_r by lia. f_equal. lia. }
    unfold Qle, Qabs, Qminus, Qplus, Qopp, Qmult, inject_Z. cbn [Qnum Qden].
    rewrite ?Pos.mul_1_l, ?Pos.mul_1_r, ?Z.mul_1_r.
    replace (m * 2 ^ e * Z.pos d + - Z.pos n)
      with (Z.pos d * 2 ^ e * m - Z.pos n) by lia.
    change (2 ^ 53) with (2 * 2 ^ 52).
    set (P := 2 ^ 52) in *. set (E := 2 ^ e) in *.
    set (A := Z.abs (Z.pos d * E * m - Z.pos n)) in *.
    assert (H1 : 2 * A * (P * Z.pos d) <= Z.pos d * E * (P * Z.pos d))
      by (apply Z.mul_le_mono_nonneg_r; [|exact Hr];
          apply Z.mul_nonneg_nonneg; [apply Z.pow_nonneg | ]; lia).
    assert (H2 : Z.pos d * 2 ^ lg * Z.pos d <= Z.pos n * Z.pos d)
      by (apply Z.mul_le_mono_nonneg_r; lia).
    rewrite Hpow in H2. lia.
  - set (k := - (lg - 52)).
    assert (Hk : 0 < k <= 52) by lia.
    assert (Hp : 0 < 2 ^ k) by (apply Z.pow_pos_nonneg; lia).
    pose proof (round_half_even_near (Zpos n * 2 ^ k) (Zpos d) ltac:(lia)) as Hr.
    set (m := round_half_even (Zpos n * 2 ^ k) (Zpos d)) in *.
    assert (Hpow : 2 ^ 52 = 2 ^ lg * 2 ^ k).
    { rewrite <- Z.pow_add_r by lia. f_equal. lia. }
    rewrite (Qred_correct (m # Z.to_pos (2 ^ k))).
    unfold Qle, Qabs, Qminus, Qplus, Qopp, Qmult, inject_Z. cbn [Qnum Qden].
    rewrite ?Pos.mul_1_r, ?Z.mul_1_r.
    rewrite !Pos2Z.inj_mul, !Z2Pos.id by lia.
    replace (m * Z.pos d + - Z.pos n * 2 ^ k)
      with (Z.pos d * m - Z.pos n * 2 ^ k) by lia.
    change (2 ^ 53) with (2 * 2 ^ 52).
    set (P := 2 ^ 52) in *. set (K := 2 ^ k) in *. set (G := 2 ^ lg) in *.
    assert (HG : 0 < G) by (apply Z.pow_pos_nonneg; lia).
    set (A := Z.abs (Z.pos d * m - Z.pos n * K)) in *.
    assert (H1 : 2 * A * (P * Z.pos d) <= Z.pos d * (P * Z.pos d))
      by (apply Z.mul_le_mono_nonneg_r; [|exact Hr];
          apply Z.mul_nonneg_nonneg; [apply Z.pow_nonneg | ]; lia).
    assert (H2 : Z.pos d * G * (K * Z.pos d) <= Z.pos n * (K * Z.pos d))
      by (apply Z.mul_le_mono_nonneg_r; [|exact Hlg];
          apply Z.mul_nonneg_nonneg; lia).
    rewrite Hpow in H1 |- *. lia.
Qed.

Lemma fl_error x :
  (1 <= Qabs x)%Q -> (Qabs (fl x - x) * inject_Z (2 ^ 53) <= Qabs x)%Q.
Proof.
  intros Hx.
  assert (Hx' : (1 <= Qabs (Qred x))%Q) by (rewrite Qred_correct; exact Hx).
  rewrite <- (Qred_correct x) at 2 3.
  unfold fl. cbv zeta.
  destruct (Qred x) as [n d] eqn:E. cbn [Qnum Qden].
  destruct n as [|n|n].
  - exfalso. revert Hx'. unfold Qle, Qabs. cbn. lia.
  - assert (Hnd : Zpos d <= Zpos n).
    { revert Hx'. unfold Qle, Qabs. cbn. lia. }
    pose proof (fl_pos_error n d Hnd) as H.
    replace (Qabs (Zpos n # d)) with (Zpos n # d) by reflexivity.
    exact H.
  - assert (Hnd : Zpos d <= Zpos n).
    { revert Hx'. unfold Qle, Qabs. cbn. lia. }
    pose proof (fl_pos_error n d Hnd) as H.
    replace (Qabs (Zneg n # d)) with (Zpos n # d) by reflexivity.
    assert (Heq : (- fl_pos n d - (Zneg n # d) == - (fl_pos n d - (Zpos n # d)))%Q).
    { unfold Qeq, Qminus, Qplus, Qopp. cbn [Qnum Qden]. lia. }
    rewrite Heq, Qabs_opp. exact H.
Qed.

Lemma Product_objects_get_Ok st pk p :
  find (fun p => product_id p =? pk) (Product_table st) = Some p ->
  Product_objects_get pk st = (Ok p, st).
Proof.
  intros H; unfold Product_objects_get, bind, gets; rewrite H; reflexivity.
Qed.

Lemma Product_objects_get_None st pk :
  find (fun p => product_id p =? pk) (Product_table st) = None ->
  Product_objects_get pk st = (Raise Product_DoesNotExist, st).
Proof.
  intros H; unfold Product_objects_get, bind, gets; rewrite H; reflexivity.
Qed.

Lemma Cart_objects_get_Ok st user c :
  find (fun c => cart_user c =? user) (Cart_table st) = Some c ->
  Cart_objects_get user st = (Ok c, st).
Proof.
  intros H; unfold Cart_objects_get, bind, gets; rewrite H; reflexivity.
Qed.

Lemma Cart_objects_get_None st user :
  find (fun c => cart_user c =? user) (Cart_table st) = None ->
  Cart_objects_get user st = (Raise Cart_DoesNotExist, st).
Proof.
  intros H; unfold Cart_objects_get, bind, gets; rewrite H; reflexivity.
Qed.

(** ** Writing a count *)

Lemma PositiveIntegerField_write_Ok v st :
  0 <= v <= INTEGER_max -> PositiveIntegerField_write v st = (Ok tt, st).
Proof.
  intros Hv. unfold PositiveIntegerField_write.
  replace (v >? INTEGER_max) with false
    by (rewrite Z.gtb_ltb; symmetry; apply Z.ltb_ge; lia).
  replace (v <? - INTEGER_max - 1) with false
    by (symmetry; apply Z.ltb_ge; unfold INTEGER_max; lia).
  replace (v <? 0) with false by (symmetry; apply Z.ltb_ge; lia).
  reflexivity.
Qed.

Lemma PositiveIntegerField_write_over v st :
  INTEGER_max < v ->
  PositiveIntegerField_write v st = (Raise OverflowError, st).
Proof.
  intros Hv. unfold PositiveIntegerField_write.
  replace (v >? INTEGER_max) with true
    by (rewrite Z.gtb_ltb; symmetry; apply Z.ltb_lt; lia).
  reflexivity.
Qed.

Lemma PositiveIntegerField_write_keeps v st :
  snd (PositiveIntegerField_write v st) = st.
Proof.
  unfold PositiveIntegerField_write.
  destruct (_ || _); [reflexivity|]. destruct (v <? 0); reflexivity.
Qed.

Lemma CartItem_save_Ok i st :
  0 <= item_count i <= INTEGER_max ->
  CartItem_save i st
  = (Ok tt,
     if existsb (fun r => item_id r =? item_id i) (CartItem_table st)
     then with_CartItem
            (map (fun r => if item_id r =? item_id i then i else r)
                 (CartItem_table st))
            (CartItem_seq st) st
     else with_CartItem (CartItem_table st ++ [i]) (CartItem_seq st) st).
Proof.
  intros Hi. unfold CartItem_save.
  rewrite (bind_Ok _ _ _ _ _ _ _ (PositiveIntegerField_write_Ok _ st Hi)).
  reflexivity.
Qed.

(** A save either writes the row or raises and leaves the store. *)
Lemma CartItem_save_cases i st :
  CartItem_save i st
  = (Ok tt,
     if existsb (fun r => item_id r =? item_id i) (CartItem_table st)
     then with_CartItem
            (map (fun r => if item_id r =? item_id i then i else r)
                 (CartItem_table st))
            (CartItem_seq st) st
     else with_CartItem (CartItem_table st ++ [i]) (CartItem_seq st) st)
  \/ exists e, CartItem_save i st = (Raise e, st).
Proof.
  unfold CartItem_save, PositiveIntegerField_write.
  destruct (_ || _); [right; eexists; reflexivity|].
  destruct (_ <? 0); [right; eexists; reflexivity|].
  left. reflexivity.
Qed.

Lemma CartItem_save_over i st :
  INTEGER_max < item_count i ->
  CartItem_save i st = (Raise OverflowError, st).
Proof.
  intros Hi. unfold CartItem_save.
  rewrite (bind_Raise _ _ _ _ _ _ _ (PositiveIntegerField_write_over _ st Hi)).
  reflexivity.
Qed.

Lemma CartItem_objects_create_Ok cart product count st :
  0 <= count <= INTEGER_max ->
  CartItem_objects_create cart product count st
  = (let i := {| item_id := CartItem_seq st; item_cart := cart_id cart;
                 item_product := product_id product; item_count := count |} in
     (Ok i, with_CartItem (CartItem_table st ++ [i]) (CartItem_seq st + 1) st)).
Proof.
  intros Hc. unfold CartItem_objects_create.
  rewrite (bind_Ok _ _ _ _ st (CartItem_seq st) st) by reflexivity.
  rewrite (bind_Ok _ _ _ _ _ _ _ (PositiveIntegerField_write_Ok _ st Hc)).
  reflexivity.
Qed.

Lemma CartItem_objects_create_over cart product count st :
  INTEGER_max < count ->
  CartItem_objects_create cart product count st = (Raise OverflowError, st).
Proof.
  intros Hc. unfold CartItem_objects_create.
  rewrite (bind_Ok _ _ _ _ st (CartItem_seq st) st) by reflexivity.
  rewrite (bind_Raise _ _ _ _ _ _ _ (PositiveIntegerField_write_over _ st Hc)).
  reflexivity.
Qed.

(** ** Removing from the cart *)

Section Remove.
Variables (st : Store) (user pid : Z).
Variables (cart : Cart) (product : Product) (cart_item : CartItem).
Hypothesis Hcart :
  find (fun c => cart_user c =? user) (Cart_table st) = Some cart.
Hypothesis Hproduct :
  find (fun p => product_id p =? pid) (Product_table st) = Some product.
Hypothesis Hitem :
  first (filter (of_product product)
                (filter (in_cart cart) (CartItem_table st)))
  = Some cart_item.

Let request (c : Z) : BasketAPIView.DeleteData :=
  {| BasketAPIView.delete_id := Some pid;
     BasketAPIView.delete_count := Some c |}.

Lemma cart_item_in_table : In cart_item (CartItem_table st).
Proof.
  unfold first in Hitem.
  destruct (filter _ _) as [|x l] eqn:E; [discriminate|].
  injection Hitem as ->.
  assert (In cart_item (cart_item :: l)) as H by (left; reflexivity).
  rewrite <- E in H.
  apply filter_In in H as [H _]. apply filter_In in H as [H _]. exact H.
Qed.

Lemma delete_steps c :
  BasketAPIView.delete user (request c) st =
  let new_count := item_count cart_item - c in
  let finish :=
    (lines <- CartGETSerializer_data cart ;;
     ret {| data := CartBody lines; status_code := HTTP_200_OK |}) in
  if new_count <? 0 then
    (Ok {| data := ErrorBody "Count cannot be negative.";
           status_code := HTTP_400_BAD_REQUEST |}, st)
  else if new_count =? 0 then
    (CartItem_delete cart_item ;;; finish) st
  else
    (CartItem_save (with_count cart_item new_count) ;;; finish) st.
Proof.
  unfold BasketAPIView.delete, try_or_return.
  rewrite (Cart_objects_get_Ok _ _ _ Hcart).
  unfold BasketAPIView.delete_id, request.
  rewrite (Product_objects_get_Ok _ _ _ Hproduct).
  unfold bind at 1, cart_items_filter, bind at 1, gets, ret.
  rewrite Hitem. cbn.
  destruct (item_count cart_item - c <? 0); [reflexivity|].
  destruct (item_count cart_item - c =? 0); reflexivity.
Qed.
End Remove.

(** ** Computations that only read *)

Lemma readonly_ret A (a : A) : readonly (ret a).
Proof. intro; reflexivity. Qed.

Lemma readonly_raise A e : readonly (@raise A e).
Proof. intro; reflexivity. Qed.

Lemma readonly_gets A (f : Store -> A) : readonly (gets f).
Proof. intro; reflexivity. Qed.

Lemma readonly_bind A B (m : M A) (k : A -> M B) :
  readonly m -> (forall a, readonly (k a)) -> readonly (bind m k).
Proof.
  intros Hm Hk st. unfold bind.
  specialize (Hm st). destruct (m st) as [[a|e] st1]; cbn in Hm; subst st1.
  - apply Hk.
  - reflexivity.
Qed.

Lemma readonly_try_except A (m : M A) e (h : M A) :
  readonly m -> readonly h -> readonly (try_except m e h).
Proof.
  intros Hm Hh st. unfold try_except.
  specialize (Hm st). destruct (m st) as [[a|e'] st1]; cbn in Hm; subst st1.
  - reflexivity.
  - destruct (exn_eqb e' e); [apply Hh | reflexivity].
Qed.

Lemma readonly_mapM A B (f : A -> M B) l :
  (forall a, readonly (f a)) -> readonly (mapM f l).
Proof.
  intros Hf. induction l as [|a l IH]; cbn [mapM].
  - apply readonly_ret.
  - apply readonly_bind; [apply Hf|]. intros b.
    apply readonly_bind; [exact IH|]. intros; apply readonly_ret.
Qed.

Ltac readonly_tac :=
  repeat first
    [ apply readonly_ret | apply readonly_raise | apply readonly_gets
    | apply readonly_mapM; intros
    | apply readonly_try_except
    | apply readonly_bind; [|intros]
    | match goal with |- readonly (match ?x with _ => _ end) => destruct x end
    | match goal with |- readonly (if ?x then _ else _) => destruct x end ].

Lemma readonly_CartGETSerializer_data cart :
  readonly (CartGETSerializer_data cart).
Proof.
  unfold CartGETSerializer_data, cart_items_all, CartGETSerializer_get_count.
  readonly_tac.
Qed.

Lemma snd_then_readonly A B (m : M A) (k : M B) st :
  readonly k -> (exists a, fst (m st) = Ok a) ->
  snd ((m ;;; k) st) = snd (m st).
Proof.
  intros Hk [a Ha]. unfold bind.
  destruct (m st) as [[a'|e] st1]; cbn in *; [apply Hk | discriminate].
Qed.

(** C2, as the code has it.  Let [cart_item] be the line item that
    [BasketAPIView.delete] finds for an existing product in the user's
    cart, and [k] its count.  Removing [c > k] is answered 400 "Count cannot
    be negative." and leaves the store as it was; removing [c = k] deletes
    the row of [cart_item] and changes nothing else; removing [c < k] writes
    the count [k - c] into that row and changes nothing else, provided the
    column can hold [k - c]; where it cannot (a negative [c] of large
    magnitude) the request ends in [OverflowError] and the store is as it
    was. *)
Theorem delete_decrements_or_rejects :
  forall st user pid cart product cart_item c,
    find (fun x => cart_user x =? user) (Cart_table st) = Some cart ->
    find (fun p => product_id p =? pid) (Product_table st) = Some product ->
    first (filter (of_product product)
                  (filter (in_cart cart) (CartItem_table st)))
    = Some cart_item ->
    let k := item_count cart_item in
    let request := {| BasketAPIView.delete_id := Some pid;
                      BasketAPIView.delete_count := Some c |} in
    (k < c ->
     BasketAPIView.delete user request st =
     (Ok {| data := ErrorBody "Count cannot be negative.";
            status_code := HTTP_400_BAD_REQUEST |}, st))
    /\ (c = k ->
        snd (BasketAPIView.delete user request st) =
        with_CartItem
          (filter (fun r => negb (item_id r =? item_id cart_item))
                  (CartItem_table st))
          (CartItem_seq st) st)
    /\ (c < k -> k - c <= INTEGER_max ->
        snd (BasketAPIView.delete user request st) =
        with_CartItem
          (map (fun r => if item_id r =? item_id cart_item
                         then with_count cart_item (k - c) else r)
               (CartItem_table st))
          (CartItem_seq st) st)
    /\ (c < k -> INTEGER_max < k - c ->
        BasketAPIView.delete user request st = (Raise OverflowError, st)).
Proof.
  intros st user pid cart product cart_item c Hcart Hproduct Hitem k request.
  pose proof (delete_steps st user pid cart product cart_item
                Hcart Hproduct Hitem c) as Hsteps.
  cbv zeta in Hsteps. fold k in Hsteps. subst request.
  split; [|split; [|split]]; intros Hc; try intros Hrange; rewrite Hsteps.
  - replace (k - c <? 0) with true by (symmetry; apply Z.ltb_lt; lia).
    reflexivity.
  - replace (k - c <? 0) with false by (symmetry; apply Z.ltb_ge; lia).
    replace (k - c =? 0) with true by (symmetry; apply Z.eqb_eq; lia).
    rewrite snd_then_readonly.
    + reflexivity.
    + apply readonly_bind; [apply readonly_CartGETSerializer_data|].
      intros; apply readonly_ret.
    + eexists; reflexivity.
  - replace (k - c <? 0) with false by (symmetry; apply Z.ltb_ge; lia).
    replace (k - c =? 0) with false by (symmetry; apply Z.eqb_neq; lia).
    rewrite snd_then_readonly.
    + rewrite CartItem_save_Ok by (cbn [item_count with_count]; lia).
      cbn [snd item_id with_count].
      replace (existsb _ _) with true; [reflexivity|].
      symmetry. apply existsb_exists. exists cart_item. split.
      * apply (cart_item_in_table st cart product cart_item Hitem).
      * apply Z.eqb_refl.
    + apply readonly_bind; [apply readonly_CartGETSerializer_data|].
      intros; apply readonly_ret.
    + rewrite CartItem_save_Ok by (cbn [item_count with_count]; lia).
      eexists; reflexivity.
  - replace (k - c <? 0) with false by (symmetry; apply Z.ltb_ge; lia).
    replace (k - c =? 0) with false by (symmetry; apply Z.eqb_neq; lia).
    rewrite (bind_Raise _ _ _ _ st OverflowError st); [reflexivity|].
    apply CartItem_save_over. cbn [item_count with_count]. exact Hrange.
Qed.

(** C2, as written, fails where the count to write exceeds the column: on
    a line item of count 4, removing [-(2^63 - 1)] is neither refused nor
    persisted as [4 + (2^63 - 1)]; the row keeps 4. *)
Lemma delete_count_not_persisted :
  ~ (forall st user pid cart product cart_item c,
        find (fun x => cart_user x =? user) (Cart_table st) = Some cart ->
        find (fun p => product_id p =? pid) (Product_table st)
        = Some product ->
        first (filter (of_product product)
                      (filter (in_cart cart) (CartItem_table st)))
        = Some cart_item ->
        c < item_count cart_item ->
        let request := {| BasketAPIView.delete_id := Some pid;
                          BasketAPIView.delete_count := Some c |} in
        map item_count
            (line_items (snd (BasketAPIView.delete user request st)) user pid)
        = [item_count cart_item - c]).
Proof.
  intros H.
  specialize (H sample_store 10 9 {| cart_id := 1; cart_user := 10 |}
                (sample_product 9 200 false)
                {| item_id := 1; item_cart := 1; item_product := 9;
                   item_count := 4 |}
                (- INTEGER_max) eq_refl eq_refl eq_refl eq_refl).
  vm_compute in H. discriminate H.
Qed.

(** ** Lists as tables *)

Lemma filter_map_stable A (P : A -> bool) (f : A -> A) l :
  (forall x, In x l -> P (f x) = P x) ->
  filter P (map f l) = map f (filter P l).
Proof.
  induction l as [|x l IH]; cbn; intros H; [reflexivity|].
  rewrite (H x (or_introl eq_refl)).
  destruct (P x); cbn; rewrite IH; auto.
Qed.

Lemma map_id_on A (f : A -> A) l :
  (forall x, In x l -> f x = x) -> map f l = l.
Proof.
  induction l as [|x l IH]; cbn; intros H; [reflexivity|].
  rewrite (H x (or_introl eq_refl)), IH; auto.
Qed.

Lemma filter_all A (P : A -> bool) l :
  (forall x, In x l -> P x = true) -> filter P l = l.
Proof.
  induction l as [|x l IH]; cbn; intros H; [reflexivity|].
  rewrite (H x (or_introl eq_refl)), IH; auto.
Qed.

Lemma filter_none A (P : A -> bool) l :
  (forall x, In x l -> P x = false) -> filter P l = [].
Proof.
  induction l as [|x l IH]; cbn; intros H; [reflexivity|].
  rewrite (H x (or_introl eq_refl)), IH; auto.
Qed.

Lemma NoDup_map_inj_on A B (f : A -> B) l x y :
  NoDup (map f l) -> In x l -> In y l -> f x = f y -> x = y.
Proof.
  induction l as [|a l IH]; cbn; intros Hnd Hx Hy Hf; [contradiction|].
  inversion Hnd as [|? ? Hnotin Hnd']; subst.
  destruct Hx as [->|Hx], Hy as [->|Hy]; auto.
  - exfalso. apply Hnotin. rewrite Hf. apply in_map; exact Hy.
  - exfalso. apply Hnotin. rewrite <- Hf. apply in_map; exact Hx.
Qed.

Lemma find_app_None A (f : A -> bool) l x :
  find f l = None -> f x = true -> find f (l ++ [x]) = Some x.
Proof.
  induction l as [|a l IH]; cbn; intros H Hx.
  - rewrite Hx; reflexivity.
  - destruct (f a); [discriminate | auto].
Qed.

(** ** The cart view *)

Lemma mapM_readers_Ok A B (f : A -> M B) (g : A -> B) l st :
  (forall a, In a l -> f a st = (Ok (g a), st)) ->
  mapM f l st = (Ok (map g l), st).
Proof.
  induction l as [|a l IH]; cbn [mapM map]; intros H; [reflexivity|].
  unfold bind at 1. rewrite (H a (or_introl eq_refl)).
  unfold bind at 1. rewrite IH by (intros; apply H; right; assumption).
  reflexivity.
Qed.

Lemma in_filter_singleton A (P : A -> bool) l x :
  NoDup l -> In x l -> P x = true ->
  (forall y, In y l -> P y = true -> y = x) ->
  filter P l = [x].
Proof.
  induction l as [|a l IH]; cbn; intros Hnd Hin HP Huniq; [contradiction|].
  inversion Hnd as [|? ? Hnotin Hnd']; subst.
  destruct Hin as [->|Hin].
  - rewrite HP. f_equal. apply filter_none. intros y Hy.
    destruct (P y) eqn:E; [|reflexivity].
    exfalso. apply Hnotin. rewrite <- (Huniq y (or_intror Hy) E). exact Hy.
  - destruct (P a) eqn:E.
    + exfalso. apply Hnotin. rewrite (Huniq a (or_introl eq_refl) E). exact Hin.
    + apply IH; auto.
Qed.

Lemma NoDup_of_map A B (f : A -> B) l : NoDup (map f l) -> NoDup l.
Proof.
  induction l as [|a l IH]; cbn; intros H; [constructor|].
  inversion H as [|? ? Hnotin Hnd]; subst. constructor; auto.
  intros Hin. apply Hnotin. apply in_map; exact Hin.
Qed.

Lemma mapM_map A B C (g : A -> B) (f : B -> M C) l :
  mapM f (map g l) = mapM (fun a => f (g a)) l.
Proof.
  induction l as [|a l IH]; cbn [mapM map]; [reflexivity|].
  rewrite IH; reflexivity.
Qed.

Lemma cart_items_get_unique st cart product i :
  NoDup (map (fun i => (item_cart i, item_product i)) (CartItem_table st)) ->
  In i (CartItem_table st) ->
  in_cart cart i = true ->
  of_product product i = true ->
  cart_items_get cart product st = (Ok i, st).
Proof.
  intros Huniq Hin Hc Hp.
  unfold cart_items_get, cart_items_filter, bind, gets, ret.
  rewrite (in_filter_singleton _ (of_product product)
             (filter (in_cart cart) (CartItem_table st)) i).
  - reflexivity.
  - apply NoDup_filter. apply (NoDup_of_map _ _ _ _ Huniq).
  - apply filter_In; auto.
  - exact Hp.
  - intros y Hy Hyp. apply filter_In in Hy as [Hy Hyc].
    apply (NoDup_map_inj_on _ _ _ _ y i Huniq Hy Hin).
    unfold in_cart, of_product in *.
    apply Z.eqb_eq in Hc, Hp, Hyc, Hyp. congruence.
Qed.

(** With referential integrity and one line item per cart and product, the
    cart view is rendered, one line per item of the cart with that item's
    count. *)
Lemma CartGETSerializer_data_Ok st cart :
  (forall i, In i (CartItem_table st) ->
             exists p, In p (Product_table st) /\ product_id p = item_product i) ->
  NoDup (map (fun i => (item_cart i, item_product i)) (CartItem_table st)) ->
  exists lines,
    CartGETSerializer_data cart st = (Ok lines, st)
    /\ map (fun l => (product_id (line_product l), line_count l)) lines
       = map (fun i => (item_product i, item_count i))
             (filter (in_cart cart) (CartItem_table st)).
Proof.
  intros Hfk Huniq.
  set (items := filter (in_cart cart) (CartItem_table st)).
  set (lookup := fun i : CartItem =>
         match find (fun p => product_id p =? item_product i)
                    (Product_table st) with
         | Some p => p
         | None => no_product
         end).
  assert (Hlookup : forall i, In i items ->
            Product_objects_get (item_product i) st = (Ok (lookup i), st)
            /\ product_id (lookup i) = item_product i).
  { intros i Hi. apply filter_In in Hi as [Hi _].
    destruct (Hfk i Hi) as [p [Hp Hpid]].
    unfold lookup.
    destruct (find _ (Product_table st)) as [p'|] eqn:E.
    - split; [apply Product_objects_get_Ok; exact E|].
      apply find_some in E as [_ E]. apply Z.eqb_eq in E; exact E.
    - exfalso. apply (find_none _ _ E) in Hp.
      apply Z.eqb_neq in Hp. contradiction. }
  exists (map (fun i => {| line_product := lookup i;
                           line_count := item_count i |}) items).
  split.
  - unfold CartGETSerializer_data.
    rewrite (bind_Ok _ _ _ _ st items st) by reflexivity.
    rewrite (bind_Ok _ _ _ _ st (map lookup items) st)
      by (apply mapM_readers_Ok; intros; apply Hlookup; assumption).
    rewrite mapM_map.
    apply mapM_readers_Ok. intros i Hi.
    unfold CartGETSerializer_get_count.
    rewrite (bind_Ok _ _ _ _ st (item_count i) st); [reflexivity|].
    unfold try_except.
    rewrite (bind_Ok _ _ _ _ st i st); [reflexivity|].
    apply (cart_items_get_unique st cart (lookup i) i Huniq).
    + apply filter_In in Hi as [Hi _]; exact Hi.
    + apply filter_In in Hi as [_ Hi]; exact Hi.
    + unfold of_product. rewrite (proj2 (Hlookup i Hi)). apply Z.eqb_refl.
  - rewrite map_map. cbn. apply map_ext_in. intros i Hi.
    rewrite (proj2 (Hlookup i Hi)). reflexivity.
Qed.

(** ** Adding to the cart *)

Lemma filter_filter A (P Q : A -> bool) l :
  filter P (filter Q l) = filter (fun x => Q x && P x) l.
Proof.
  induction l as [|x l IH]; cbn; [reflexivity|].
  destruct (Q x); cbn; [destruct (P x)|]; rewrite IH; reflexivity.
Qed.

Lemma Cart_objects_get_or_create_run st user :
  exists created,
    Cart_objects_get_or_create user st
    = (Ok (cart_for st user, created), with_cart_for st user).
Proof.
  unfold Cart_objects_get_or_create, try_except, cart_for, with_cart_for.
  destruct (find _ (Cart_table st)) as [c|] eqn:E.
  - exists false.
    rewrite (bind_Ok _ _ _ _ st c st) by (apply Cart_objects_get_Ok; exact E).
    reflexivity.
  - exists true.
    rewrite (bind_Raise _ _ _ _ st Cart_DoesNotExist st)
      by (apply Cart_objects_get_None; exact E).
    reflexivity.
Qed.

Lemma with_cart_for_items st user :
  CartItem_table (with_cart_for st user) = CartItem_table st.
Proof. unfold with_cart_for. destruct (find _ _); reflexivity. Qed.

Lemma with_cart_for_products st user :
  Product_table (with_cart_for st user) = Product_table st.
Proof. unfold with_cart_for. destruct (find _ _); reflexivity. Qed.

Lemma with_cart_for_item_seq st user :
  CartItem_seq (with_cart_for st user) = CartItem_seq st.
Proof. unfold with_cart_for. destruct (find _ _); reflexivity. Qed.

Lemma with_cart_for_find st user :
  find (fun c => cart_user c =? user) (Cart_table (with_cart_for st user))
  = Some (cart_for st user).
Proof.
  unfold with_cart_for, cart_for.
  destruct (find _ (Cart_table st)) as [c|] eqn:E; [exact E|].
  cbn. apply find_app_None; [exact E | apply Z.eqb_refl].
Qed.

Lemma cart_for_In st user :
  In (cart_for st user) (Cart_table (with_cart_for st user)).
Proof. apply (find_some _ _ (with_cart_for_find st user)). Qed.

(** No line item refers to a cart that is yet to be created. *)
Lemma fresh_cart_empty st user :
  Store_wf st ->
  find (fun c => cart_user c =? user) (Cart_table st) = None ->
  filter (in_cart (cart_for st user)) (CartItem_table st) = [].
Proof.
  intros Hwf E. apply filter_none. intros i Hi.
  unfold in_cart, cart_for. rewrite E. cbn.
  destruct (wf_item_cart Hwf i Hi) as [c [Hc Hid]].
  pose proof (wf_cart_pk Hwf c Hc). apply Z.eqb_neq. lia.
Qed.

Lemma cart_for_items st user pid :
  Store_wf st ->
  filter (fun i => item_product i =? pid)
         (filter (in_cart (cart_for st user))
                 (CartItem_table (with_cart_for st user)))
  = line_items st user pid.
Proof.
  intros Hwf. rewrite with_cart_for_items. unfold line_items.
  destruct (find _ (Cart_table st)) as [c|] eqn:E.
  - unfold cart_for. rewrite E. apply filter_filter.
  - rewrite (fresh_cart_empty st user Hwf E). reflexivity.
Qed.

Lemma line_items_after st st' user pid :
  find (fun c => cart_user c =? user) (Cart_table st')
  = Some (cart_for st user) ->
  line_items st' user pid
  = filter (fun i => item_product i =? pid)
           (filter (in_cart (cart_for st user)) (CartItem_table st')).
Proof.
  intros E. unfold line_items. rewrite E. symmetry. apply filter_filter.
Qed.

(** At most one line item per cart and product. *)
Lemma line_items_at_most_one st user pid :
  Store_wf st ->
  line_items st user pid = []
  \/ exists i, line_items st user pid = [i]
               /\ In i (CartItem_table st)
               /\ item_cart i = cart_id (cart_for st user)
               /\ item_product i = pid.
Proof.
  intros Hwf. unfold line_items, cart_for.
  destruct (find _ (Cart_table st)) as [c|] eqn:E; [|left; reflexivity].
  set (P := fun i => (item_cart i =? cart_id c) && (item_product i =? pid)).
  destruct (filter P (CartItem_table st)) as [|i l] eqn:F; [left; reflexivity|].
  right. exists i.
  assert (Hi : In i (filter P (CartItem_table st)))
    by (rewrite F; left; reflexivity).
  apply filter_In in Hi as [Hi HP]. unfold P in HP.
  apply andb_true_iff in HP as [Hc Hp]. apply Z.eqb_eq in Hc, Hp.
  repeat split; auto.
  rewrite <- F. apply in_filter_singleton; auto.
  - apply (NoDup_of_map _ _ _ _ (wf_item_unique Hwf)).
  - unfold P. rewrite Hc, Hp, !Z.eqb_refl. reflexivity.
  - intros y Hy HPy. unfold P in HPy.
    apply andb_true_iff in HPy as [Hyc Hyp]. apply Z.eqb_eq in Hyc, Hyp.
    apply (NoDup_map_inj_on _ _ _ _ y i (wf_item_unique Hwf) Hy Hi).
    congruence.
Qed.

(** *** Integrity is kept *)

Lemma with_cart_for_wf st user : Store_wf st -> Store_wf (with_cart_for st user).
Proof.
  intros Hwf. unfold with_cart_for.
  destruct (find _ (Cart_table st)) as [c|] eqn:E; [exact Hwf|].
  destruct Hwf as [H1 H2 H3 H4 H5 H6 H7].
  constructor; cbn; auto.
  - intros c Hc. apply in_app_or in Hc as [Hc|[<-|[]]]; cbn.
    + specialize (H3 c Hc). lia.
    + lia.
  - intros i Hi. destruct (H4 i Hi) as [c [Hc Hid]].
    exists c. split; [apply in_or_app; left; exact Hc | exact Hid].
Qed.

Lemma append_item_wf st i :
  Store_wf st ->
  item_id i = CartItem_seq st ->
  (exists c, In c (Cart_table st) /\ cart_id c = item_cart i) ->
  (exists p, In p (Product_table st) /\ product_id p = item_product i) ->
  (forall j, In j (CartItem_table st) ->
             item_cart j = item_cart i -> item_product j <> item_product i) ->
  1 <= item_count i ->
  Store_wf (with_CartItem (CartItem_table st ++ [i]) (CartItem_seq st + 1) st).
Proof.
  intros [H1 H2 H3 H4 H5 H6 H7] Hid Hc Hp Hfresh Hn.
  constructor; cbn; auto.
  - intros j Hj. apply in_app_or in Hj as [Hj|[<-|[]]].
    + specialize (H1 j Hj). lia.
    + lia.
  - rewrite map_app. cbn. apply NoDup_app; [exact H2 | repeat constructor; auto |].
    intros x Hx [<-|[]]. apply in_map_iff in Hx as [j [Hjx Hj]].
    specialize (H1 j Hj). lia.
  - intros j Hj. apply in_app_or in Hj as [Hj|[<-|[]]]; auto.
  - intros j Hj. apply in_app_or in Hj as [Hj|[<-|[]]]; auto.
  - rewrite map_app. cbn. apply NoDup_app; [exact H6 | repeat constructor; auto |].
    intros x Hx [<-|[]]. apply in_map_iff in Hx as [j [Hjx Hj]].
    injection Hjx as Hjc Hjp. exact (Hfresh j Hj Hjc Hjp).
  - intros j Hj. apply in_app_or in Hj as [Hj|[<-|[]]]; auto.
Qed.

Lemma replace_item_same st i r n :
  Store_wf st -> In i (CartItem_table st) -> In r (CartItem_table st) ->
  (if item_id r =? item_id i then with_count i n else r)
  = if item_id r =? item_id i then with_count r n else r.
Proof.
  intros Hwf Hi Hr. destruct (item_id r =? item_id i) eqn:E; [|reflexivity].
  apply Z.eqb_eq in E.
  rewrite (NoDup_map_inj_on _ _ _ _ r i (wf_item_pk_unique Hwf) Hr Hi E).
  reflexivity.
Qed.

Lemma replace_item_wf st i n :
  Store_wf st -> In i (CartItem_table st) -> 1 <= n ->
  Store_wf (with_CartItem
              (map (fun r => if item_id r =? item_id i
                             then with_count i n else r)
                   (CartItem_table st))
              (CartItem_seq st) st).
Proof.
  intros Hwf Hi Hn.
  rewrite (map_ext_in _ _ _ (fun r Hr => replace_item_same st i r n Hwf Hi Hr)).
  destruct Hwf as [H1 H2 H3 H4 H5 H6 H7].
  assert (Hsame : forall r,
            let r' := if item_id r =? item_id i then with_count r n else r in
            item_id r' = item_id r /\ item_cart r' = item_cart r
            /\ item_product r' = item_product r
            /\ (1 <= item_count r -> 1 <= item_count r')).
  { intros r. cbv zeta. destruct (item_id r =? item_id i); cbn; auto. }
  constructor; cbn.
  - intros j Hj. apply in_map_iff in Hj as [r [<- Hr]].
    rewrite (proj1 (Hsame r)). auto.
  - rewrite map_map.
    rewrite (map_ext _ item_id); [exact H2|]. intros r; apply Hsame.
  - exact H3.
  - intros j Hj. apply in_map_iff in Hj as [r [<- Hr]].
    rewrite (proj1 (proj2 (Hsame r))). auto.
  - intros j Hj. apply in_map_iff in Hj as [r [<- Hr]].
    rewrite (proj1 (proj2 (proj2 (Hsame r)))). auto.
  - rewrite map_map.
    rewrite (map_ext _ (fun r => (item_cart r, item_product r))); [exact H6|].
    intros r. destruct (Hsame r) as [_ [-> [-> _]]]. reflexivity.
  - intros j Hj. apply in_map_iff in Hj as [r [<- Hr]].
    apply Hsame. auto.
Qed.

Lemma line_items_none st user pid :
  Store_wf st -> line_items st user pid = [] ->
  forall j, In j (CartItem_table st) ->
            item_cart j = cart_id (cart_for st user) -> item_product j <> pid.
Proof.
  intros Hwf Hnone j Hj Hjc Hjp.
  rewrite <- (cart_for_items st user pid Hwf), with_cart_for_items in Hnone.
  assert (In j []) as [].
  rewrite <- Hnone. apply filter_In. split; [apply filter_In; split; auto|].
  - unfold in_cart. apply Z.eqb_eq; exact Hjc.
  - apply Z.eqb_eq; exact Hjp.
Qed.

Lemma added_wf st user pid c :
  Store_wf st ->
  (exists p, In p (Product_table st) /\ product_id p = pid) ->
  1 <= c ->
  Store_wf (added st user pid c).
Proof.
  intros Hwf Hp Hc. unfold added.
  pose proof (with_cart_for_wf st user Hwf) as Hwf'.
  destruct (line_items_at_most_one st user pid Hwf) as [E|[i [E [Hi _]]]];
    rewrite E.
  - rewrite <- (with_cart_for_items st user).
    rewrite <- (with_cart_for_item_seq st user).
    apply append_item_wf; cbn; auto.
    + exists (cart_for st user). split; [apply cart_for_In | reflexivity].
    + rewrite with_cart_for_products. exact Hp.
    + rewrite with_cart_for_items. apply line_items_none; assumption.
  - rewrite <- (with_cart_for_items st user).
    rewrite <- (with_cart_for_item_seq st user).
    apply replace_item_wf; auto.
    + rewrite with_cart_for_items. exact Hi.
    + pose proof (wf_item_count Hwf i Hi). lia.
Qed.

(** *** The view against the data model *)

Lemma try_or_return_Ok A B (m : M A) e (h : M B) (k : A -> M B) st a st1 :
  m st = (Ok a, st1) -> try_or_return m e h k st = k a st1.
Proof. unfold try_or_return; intros ->; reflexivity. Qed.

Lemma cart_items_get_run st cart product :
  cart_items_get cart product st =
  (match filter (of_product product)
                (filter (in_cart cart) (CartItem_table st)) with
   | [] => Raise CartItem_DoesNotExist
   | [i] => Ok i
   | _ :: _ :: _ => Raise CartItem_MultipleObjectsReturned
   end, st).
Proof.
  unfold cart_items_get.
  rewrite (bind_Ok _ _ _ _ st _ st) by reflexivity.
  destruct (filter _ _) as [|i [|j l]]; reflexivity.
Qed.

Lemma add_step st user pid c product :
  Store_wf st -> product_id product = pid ->
  0 <= c -> count_after st user pid c <= INTEGER_max ->
  let cart := cart_for st user in
  try_except
    (item <- cart_items_get cart product ;;
     CartItem_save (with_count item (item_count item + c)))
    CartItem_DoesNotExist
    (CartItem_objects_create cart product c ;;; ret tt)
    (with_cart_for st user)
  = (Ok tt, added st user pid c).
Proof.
  intros Hwf Hpid Hc Hrange cart. unfold try_except, added.
  pose proof (cart_for_items st user pid Hwf) as Hitems.
  pose proof (cart_items_get_run (with_cart_for st user) cart product) as Hget.
  unfold of_product in Hget. rewrite Hpid in Hget. fold cart in Hitems.
  rewrite Hitems in Hget. unfold count_after in Hrange.
  destruct (line_items_at_most_one st user pid Hwf) as [E|[i [E [Hi _]]]];
    rewrite E in *.
  - rewrite (bind_Raise _ _ _ _ _ _ _ Hget). cbn [exn_eqb].
    rewrite (bind_Ok _ _ _ _ _ _ _
               (CartItem_objects_create_Ok cart product c _
                  (conj Hc Hrange))).
    cbv zeta. unfold ret.
    rewrite with_cart_for_items, with_cart_for_item_seq, Hpid. reflexivity.
  - rewrite (bind_Ok _ _ _ _ _ _ _ Hget).
    pose proof (wf_item_count Hwf i Hi) as Hk.
    rewrite CartItem_save_Ok by (cbn [item_count with_count]; lia).
    cbn [item_id with_count]. rewrite with_cart_for_items.
    replace (existsb _ _) with true.
    + rewrite with_cart_for_item_seq. reflexivity.
    + symmetry. apply existsb_exists. exists i. split; [exact Hi|].
      apply Z.eqb_refl.
Qed.

(** A count that the column cannot hold is not written. *)
Lemma add_step_over st user pid c product :
  Store_wf st -> product_id product = pid ->
  INTEGER_max < count_after st user pid c ->
  let cart := cart_for st user in
  try_except
    (item <- cart_items_get cart product ;;
     CartItem_save (with_count item (item_count item + c)))
    CartItem_DoesNotExist
    (CartItem_objects_create cart product c ;;; ret tt)
    (with_cart_for st user)
  = (Raise OverflowError, with_cart_for st user).
Proof.
  intros Hwf Hpid Hrange cart. unfold try_except.
  pose proof (cart_for_items st user pid Hwf) as Hitems.
  pose proof (cart_items_get_run (with_cart_for st user) cart product) as Hget.
  unfold of_product in Hget. rewrite Hpid in Hget. fold cart in Hitems.
  rewrite Hitems in Hget. unfold count_after in Hrange.
  destruct (line_items_at_most_one st user pid Hwf) as [E|[i [E [Hi _]]]];
    rewrite E in *.
  - rewrite (bind_Raise _ _ _ _ _ _ _ Hget). cbn [exn_eqb].
    rewrite (bind_Raise _ _ _ _ _ _ _
               (CartItem_objects_create_over cart product c _ Hrange)).
    reflexivity.
  - rewrite (bind_Ok _ _ _ _ _ _ _ Hget).
    rewrite CartItem_save_over by (cbn [item_count with_count]; lia).
    reflexivity.
Qed.

Lemma added_products st user pid c :
  Product_table (added st user pid c) = Product_table st.
Proof.
  unfold added. destruct (line_items st user pid); cbn;
    apply with_cart_for_products.
Qed.

Lemma find_product_exists st pid product :
  find (fun p => product_id p =? pid) (Product_table st) = Some product ->
  product_id product = pid
  /\ exists p, In p (Product_table st) /\ product_id p = pid.
Proof.
  intros H. apply find_some in H as [Hin Hid]. apply Z.eqb_eq in Hid.
  split; [exact Hid | exists product; auto].
Qed.

(** On a store with integrity, [BasketAPIView.post] is answered 201 with
    the cart view and leaves the store [added]. *)
Lemma post_added st user pid c product :
  Store_wf st ->
  find (fun p => product_id p =? pid) (Product_table st) = Some product ->
  1 <= c ->
  count_after st user pid c <= INTEGER_max ->
  exists lines,
    BasketAPIView.post user {| data_id := Some pid; data_count := Some c |} st
    = (Ok {| data := CartBody lines; status_code := HTTP_201_CREATED |},
       added st user pid c)
    /\ map (fun l => (product_id (line_product l), line_count l)) lines
       = map (fun i => (item_product i, item_count i))
             (filter (in_cart (cart_for st user))
                     (CartItem_table (added st user pid c))).
Proof.
  intros Hwf Hfind Hc Hrange.
  destruct (find_product_exists st pid product Hfind) as [Hpid Hex].
  pose proof (added_wf st user pid c Hwf Hex Hc) as Hwf'.
  destruct (CartGETSerializer_data_Ok (added st user pid c)
              (cart_for st user) (wf_item_product Hwf') (wf_item_unique Hwf'))
    as [lines [Hview Hlines]].
  exists lines. split; [|exact Hlines].
  unfold BasketAPIView.post, CartItemSerializer_validate. cbn [data_id data_count].
  replace (1 <=? c) with true by (symmetry; apply Z.leb_le; exact Hc).
  rewrite (try_or_return_Ok _ _ _ _ _ _ st product st)
    by (apply Product_objects_get_Ok; exact Hfind).
  destruct (Cart_objects_get_or_create_run st user) as [created Hcart].
  rewrite (bind_Ok _ _ _ _ _ _ _ Hcart). cbn [fst].
  rewrite (bind_Ok _ _ _ _ _ _ _
             (add_step st user pid c product Hwf Hpid ltac:(lia) Hrange)).
  rewrite (bind_Ok _ _ _ _ _ _ _ Hview).
  reflexivity.
Qed.

(** Where the column cannot hold the new count, [BasketAPIView.post] ends
    in [OverflowError]; the cart it has looked up or created stays, the
    line items are as they were. *)
Lemma post_over st user pid c product :
  Store_wf st ->
  find (fun p => product_id p =? pid) (Product_table st) = Some product ->
  1 <= c ->
  INTEGER_max < count_after st user pid c ->
  BasketAPIView.post user {| data_id := Some pid; data_count := Some c |} st
  = (Raise OverflowError, with_cart_for st user).
Proof.
  intros Hwf Hfind Hc Hrange.
  destruct (find_product_exists st pid product Hfind) as [Hpid Hex].
  unfold BasketAPIView.post, CartItemSerializer_validate. cbn [data_id data_count].
  replace (1 <=? c) with true by (symmetry; apply Z.leb_le; exact Hc).
  rewrite (try_or_return_Ok _ _ _ _ _ _ st product st)
    by (apply Product_objects_get_Ok; exact Hfind).
  destruct (Cart_objects_get_or_create_run st user) as [created Hcart].
  rewrite (bind_Ok _ _ _ _ _ _ _ Hcart). cbn [fst].
  rewrite (bind_Raise _ _ _ _ _ _ _
             (add_step_over st user pid c product Hwf Hpid Hrange)).
  reflexivity.
Qed.

Lemma added_find_cart st user pid c :
  find (fun x => cart_user x =? user) (Cart_table (added st user pid c))
  = Some (cart_for st user).
Proof.
  unfold added. destruct (line_items st user pid); cbn;
    apply with_cart_for_find.
Qed.

Lemma line_items_of_cart_for st user q :
  Store_wf st ->
  filter (fun i => item_product i =? q)
         (filter (in_cart (cart_for st user)) (CartItem_table st))
  = line_items st user q.
Proof.
  intros Hwf. rewrite <- (cart_for_items st user q Hwf).
  rewrite with_cart_for_items. reflexivity.
Qed.

Lemma line_items_In st user q i :
  In i (line_items st user q) ->
  In i (CartItem_table st) /\ item_product i = q.
Proof.
  unfold line_items. destruct (find _ _); [|intros []].
  intros H. apply filter_In in H as [H HP].
  apply andb_true_iff in HP as [_ HP]. apply Z.eqb_eq in HP. auto.
Qed.

Lemma line_items_added st user pid c q :
  Store_wf st ->
  line_items (added st user pid c) user q =
  if q =? pid then
    match line_items st user pid with
    | [] => [{| item_id := CartItem_seq st;
                item_cart := cart_id (cart_for st user);
                item_product := pid; item_count := c |}]
    | i :: _ => [with_count i (item_count i + c)]
    end
  else line_items st user q.
Proof.
  intros Hwf.
  rewrite (line_items_after st _ user q (added_find_cart st user pid c)).
  unfold added.
  destruct (line_items_at_most_one st user pid Hwf) as [E|[i [E [Hi [Hic Hip]]]]];
    rewrite E; cbn [CartItem_table with_CartItem].
  - rewrite !filter_app, (line_items_of_cart_for st user q Hwf).
    unfold in_cart at 1. cbn [filter item_cart]. rewrite Z.eqb_refl.
    cbn [filter item_product]. rewrite (Z.eqb_sym pid q).
    destruct (q =? pid) eqn:Q.
    + apply Z.eqb_eq in Q; subst q. rewrite E. reflexivity.
    + apply app_nil_r.
  - rewrite (map_ext_in _ _ _
               (fun r Hr => replace_item_same st i r _ Hwf Hi Hr)).
    set (f := fun r => if item_id r =? item_id i
                       then with_count r (item_count i + c) else r).
    assert (Hf : forall (P : CartItem -> bool) l,
               (forall r, P (f r) = P r) ->
               filter P (map f l) = map f (filter P l))
      by (intros; apply filter_map_stable; auto).
    rewrite Hf, Hf, (line_items_of_cart_for st user q Hwf).
    + destruct (q =? pid) eqn:Q.
      * apply Z.eqb_eq in Q; subst q. rewrite E. cbn. unfold f.
        rewrite Z.eqb_refl. reflexivity.
      * apply map_id_on. intros r Hr. unfold f.
        destruct (item_id r =? item_id i) eqn:R; [|reflexivity].
        exfalso. apply Z.eqb_eq in R.
        apply line_items_In in Hr as [Hr Hrq].
        rewrite (NoDup_map_inj_on _ _ _ _ r i (wf_item_pk_unique Hwf) Hr Hi R)
          in Hrq.
        apply Z.eqb_neq in Q. congruence.
    + intros r. unfold f. destruct (item_id r =? item_id i); reflexivity.
    + intros r. unfold f. destruct (item_id r =? item_id i); reflexivity.
Qed.

(** C1, as the code has it.  On a store with integrity, for an existing
    product [pid] and a count [c >= 1] such that the column can hold the
    new count of the line item, [BasketAPIView.post] is answered 201 and
    leaves a store with integrity in which: a line item that the user's
    cart held for [pid] has its count raised by [c]; when there was none,
    the cart holds one new line item for [pid] with count [c], appended to
    the table; the line items of every other product are as before.  Where
    the column cannot hold the new count, the request ends in
    [OverflowError] and no line item is changed or created.  In
    particular, when the cart holds no line item for product 7, adding 2 of
    it and then 3 leaves exactly one line item for product 7, with count 5. *)
Theorem post_increments_or_creates :
  forall st user,
    Store_wf st ->
    (forall pid c product,
        find (fun p => product_id p =? pid) (Product_table st) = Some product ->
        1 <= c ->
        count_after st user pid c <= INTEGER_max ->
        let request := {| data_id := Some pid; data_count := Some c |} in
        let st' := snd (BasketAPIView.post user request st) in
        responded (fst (BasketAPIView.post user request st)) HTTP_201_CREATED
        /\ Store_wf st'
        /\ (forall i, line_items st user pid = [i] ->
                      line_items st' user pid
                      = [with_count i (item_count i + c)])
        /\ (line_items st user pid = [] ->
            exists i, line_items st' user pid = [i]
                      /\ item_count i = c
                      /\ CartItem_table st' = CartItem_table st ++ [i])
        /\ (forall q, q <> pid ->
                      line_items st' user q = line_items st user q))
    /\ (forall pid c product,
           find (fun p => product_id p =? pid) (Product_table st)
           = Some product ->
           1 <= c ->
           INTEGER_max < count_after st user pid c ->
           let request := {| data_id := Some pid; data_count := Some c |} in
           fst (BasketAPIView.post user request st) = Raise OverflowError
           /\ CartItem_table (snd (BasketAPIView.post user request st))
              = CartItem_table st)
    /\ (forall product,
           find (fun p => product_id p =? 7) (Product_table st) = Some product ->
           line_items st user 7 = [] ->
           let add c := BasketAPIView.post
                          user {| data_id := Some 7; data_count := Some c |} in
           let st2 := snd (add 3 (snd (add 2 st))) in
           responded (fst (add 2 st)) HTTP_201_CREATED
           /\ responded (fst (add 3 (snd (add 2 st)))) HTTP_201_CREATED
           /\ exists i, line_items st2 user 7 = [i] /\ item_count i = 5).
Proof.
  intros st user Hwf.
  assert (General : forall st pid c product,
             Store_wf st ->
             find (fun p => product_id p =? pid) (Product_table st)
             = Some product ->
             1 <= c ->
             count_after st user pid c <= INTEGER_max ->
             let request := {| data_id := Some pid; data_count := Some c |} in
             responded (fst (BasketAPIView.post user request st))
                       HTTP_201_CREATED
             /\ snd (BasketAPIView.post user request st) = added st user pid c).
  { intros st0 pid c product Hwf0 Hfind Hc Hrange request.
    destruct (post_added st0 user pid c product Hwf0 Hfind Hc Hrange)
      as [lines [Hpost _]].
    subst request. rewrite Hpost. split; [eexists; reflexivity | reflexivity]. }
  split; [|split].
  - intros pid c product Hfind Hc Hrange request st'.
    destruct (General st pid c product Hwf Hfind Hc Hrange) as [Hresp Hst].
    subst st' request. rewrite Hst.
    split; [exact Hresp|].
    split; [apply added_wf; auto; apply (find_product_exists _ _ _ Hfind)|].
    split; [|split].
    + intros i Hi. rewrite (line_items_added st user pid c pid Hwf).
      rewrite Z.eqb_refl, Hi. reflexivity.
    + intros Hnone. rewrite (line_items_added st user pid c pid Hwf).
      rewrite Z.eqb_refl, Hnone. eexists. split; [reflexivity|].
      split; [reflexivity|]. unfold added. rewrite Hnone. reflexivity.
    + intros q Hq. rewrite (line_items_added st user pid c q Hwf).
      apply Z.eqb_neq in Hq. rewrite Hq. reflexivity.
  - intros pid c product Hfind Hc Hrange request. subst request.
    rewrite (post_over st user pid c product Hwf Hfind Hc Hrange).
    split; [reflexivity|]. apply with_cart_for_items.
  - intros product Hfind Hnone add st2.
    assert (Hrange1 : count_after st user 7 2 <= INTEGER_max)
      by (unfold count_after; rewrite Hnone; discriminate).
    destruct (General st 7 2 product Hwf Hfind ltac:(lia) Hrange1)
      as [Hresp1 Hst1].
    fold (add 2) in Hresp1, Hst1.
    assert (Hwf1 : Store_wf (added st user 7 2))
      by (apply added_wf; auto; [apply (find_product_exists _ _ _ Hfind) | lia]).
    assert (Hfind1 : find (fun p => product_id p =? 7)
                          (Product_table (added st user 7 2)) = Some product)
      by (rewrite added_products; exact Hfind).
    assert (Hline1 : line_items (added st user 7 2) user 7
                     = [{| item_id := CartItem_seq st;
                           item_cart := cart_id (cart_for st user);
                           item_product := 7; item_count := 2 |}])
      by (rewrite (line_items_added st user 7 2 7 Hwf), Z.eqb_refl, Hnone;
          reflexivity).
    assert (Hrange2 : count_after (added st user 7 2) user 7 3 <= INTEGER_max)
      by (unfold count_after; rewrite Hline1; discriminate).
    destruct (General (added st user 7 2) 7 3 product Hwf1 Hfind1 ltac:(lia)
                Hrange2)
      as [Hresp2 Hst2].
    fold (add 3) in Hresp2, Hst2.
    subst st2. rewrite Hst1. rewrite Hst2.
    split; [exact Hresp1|]. split; [exact Hresp2|].
    rewrite (line_items_added _ user 7 3 7 Hwf1), Z.eqb_refl.
    rewrite Hline1.
    eexists. split; reflexivity.
Qed.

(** ** Adding, then removing *)

Lemma with_count_with_count i n : with_count (with_count i n) (item_count i) = i.
Proof. destruct i; reflexivity. Qed.

Lemma first_singleton A (l : list A) x : l = [x] -> first l = Some x.
Proof. intros ->; reflexivity. Qed.

Lemma bind_modify B (f : Store -> Store) (k : M B) st :
  (modify f ;;; k) st = k (f st).
Proof. reflexivity. Qed.

Lemma save_back st i n :
  Store_wf st -> In i (CartItem_table st) ->
  let t1 := map (fun r => if item_id r =? item_id i then with_count i n else r)
                (CartItem_table st) in
  existsb (fun r => item_id r =? item_id i) t1 = true
  /\ map (fun r => if item_id r =? item_id i then i else r) t1
     = CartItem_table st.
Proof.
  intros Hwf Hi t1. split.
  - apply existsb_exists. exists (with_count i n). split; [|apply Z.eqb_refl].
    unfold t1. apply in_map_iff. exists i. rewrite Z.eqb_refl. auto.
  - unfold t1. rewrite map_map. apply map_id_on. intros r Hr.
    destruct (item_id r =? item_id i) eqn:R.
    + cbn [with_count item_id]. rewrite Z.eqb_refl.
      apply Z.eqb_eq in R. symmetry.
      apply (NoDup_map_inj_on _ _ _ _ r i (wf_item_pk_unique Hwf) Hr Hi R).
    + rewrite R. reflexivity.
Qed.

(** C3, as the code has it.  Adding, then removing the same count.  On a
    store with integrity, for an existing product and a count [c >= 1]
    such that the column can hold the count after the addition,
    [BasketAPIView.post] followed by [BasketAPIView.delete] of the same
    product and count are answered 201 and 200 and leave the table of line
    items exactly as it was before the two requests: the line item of the
    product has its former count, or is absent again when it was absent,
    and every other line item is untouched. *)
Theorem post_then_delete_restores :
  forall st user pid c product,
    Store_wf st ->
    find (fun p => product_id p =? pid) (Product_table st) = Some product ->
    1 <= c ->
    count_after st user pid c <= INTEGER_max ->
    let add := BasketAPIView.post
                 user {| data_id := Some pid; data_count := Some c |} in
    let remove := BasketAPIView.delete
                    user {| BasketAPIView.delete_id := Some pid;
                            BasketAPIView.delete_count := Some c |} in
    let st2 := snd (remove (snd (add st))) in
    responded (fst (add st)) HTTP_201_CREATED
    /\ responded (fst (remove (snd (add st)))) HTTP_200_OK
    /\ CartItem_table st2 = CartItem_table st
    /\ Product_table st2 = Product_table st
    /\ forall q, line_items st2 user q = line_items st user q.
Proof.
  intros st user pid c product Hwf Hfind Hc Hrange add remove st2.
  destruct (post_added st user pid c product Hwf Hfind Hc Hrange)
    as [lines [Hpost _]].
  fold add in Hpost.
  assert (Hst1 : snd (add st) = added st user pid c) by (rewrite Hpost; reflexivity).
  split; [rewrite Hpost; eexists; reflexivity|].
  subst st2. rewrite Hst1. clear Hpost Hst1 lines.
  set (st1 := added st user pid c).
  destruct (find_product_exists st pid product Hfind) as [Hpid Hex].
  assert (Hfind1 : find (fun p => product_id p =? pid) (Product_table st1)
                   = Some product)
    by (unfold st1; rewrite added_products; exact Hfind).
  pose proof (added_find_cart st user pid c) as Hcart1. fold st1 in Hcart1.
  pose proof (line_items_added st user pid c pid Hwf) as Hline.
  rewrite Z.eqb_refl in Hline. fold st1 in Hline.
  rewrite (line_items_after st st1 user pid Hcart1) in Hline.
  replace (fun i => item_product i =? pid) with (of_product product) in Hline
    by (unfold of_product; rewrite Hpid; reflexivity).
  (* what is left to show once the table after the two requests is known *)
  assert (Hgoal : forall st2,
             CartItem_table st2 = CartItem_table st ->
             Product_table st2 = Product_table st ->
             Cart_table st2 = Cart_table st1 ->
             let finish :=
               (lines <- CartGETSerializer_data (cart_for st user) ;;
                ret {| data := CartBody lines; status_code := HTTP_200_OK |}) in
             responded (fst (finish st2)) HTTP_200_OK
             /\ CartItem_table (snd (finish st2)) = CartItem_table st
             /\ Product_table (snd (finish st2)) = Product_table st
             /\ forall q, line_items (snd (finish st2)) user q
                          = line_items st user q).
  { intros st2 Ht Hp Hc2 finish.
    destruct (CartGETSerializer_data_Ok st2 (cart_for st user))
      as [lines [Hview _]].
    - rewrite Ht, Hp. apply (wf_item_product Hwf).
    - rewrite Ht. apply (wf_item_unique Hwf).
    - unfold finish. rewrite (bind_Ok _ _ _ _ _ _ _ Hview). cbn [fst snd ret].
      split; [eexists; reflexivity|]. repeat split; auto.
      intros q. rewrite (line_items_after st st2 user q).
      + rewrite Ht. apply line_items_of_cart_for; exact Hwf.
      + rewrite Hc2. exact Hcart1. }
  destruct (line_items_at_most_one st user pid Hwf) as [E|[i [E [Hi _]]]];
    rewrite E in Hline; apply first_singleton in Hline;
    pose proof (delete_steps st1 user pid (cart_for st user) product _
                  Hcart1 Hfind1 Hline c) as Hsteps;
    cbv zeta in Hsteps; unfold remove; rewrite Hsteps; clear Hsteps.
  - cbn [item_count].
    replace (c - c <? 0) with false by (symmetry; apply Z.ltb_ge; lia).
    replace (c - c =? 0) with true by (symmetry; apply Z.eqb_eq; lia).
    unfold CartItem_delete. rewrite bind_modify. apply Hgoal.
    + unfold st1, added. rewrite E. cbn [CartItem_table with_CartItem item_id].
      rewrite filter_app. cbn [filter item_id]. rewrite Z.eqb_refl. cbn.
      rewrite app_nil_r. apply filter_all. intros r Hr.
      pose proof (wf_item_pk Hwf r Hr). apply negb_true_iff, Z.eqb_neq. lia.
    + unfold st1. cbn. apply added_products.
    + reflexivity.
  - cbn [item_count with_count].
    pose proof (wf_item_count Hwf i Hi) as Hk.
    replace (item_count i + c - c) with (item_count i) by lia.
    replace (item_count i <? 0) with false by (symmetry; apply Z.ltb_ge; lia).
    replace (item_count i =? 0) with false by (symmetry; apply Z.eqb_neq; lia).
    fold (with_count (with_count i (item_count i + c)) (item_count i)).
    rewrite with_count_with_count.
    unfold count_after in Hrange. rewrite E in Hrange.
    rewrite (bind_Ok _ _ _ _ _ _ _
               (CartItem_save_Ok i st1 ltac:(lia))).
    destruct (save_back st i (item_count i + c) Hwf Hi) as [Hex1 Hback].
    cbv zeta in Hex1, Hback.
    assert (Ht1 : CartItem_table st1
                  = map (fun r => if item_id r =? item_id i
                                  then with_count i (item_count i + c) else r)
                        (CartItem_table st))
      by (unfold st1, added; rewrite E; reflexivity).
    cbv zeta. rewrite Ht1, Hex1.
    apply Hgoal; [exact Hback | apply added_products | reflexivity].
Qed.

(** ** Ordering *)

Section SortFacts.
Variable A : Type.
Variable leb : A -> A -> bool.

Let R (a b : A) : Prop := leb a b = true.

Lemma insert_Permutation x l : Permutation (insert leb x l) (x :: l).
Proof.
  induction l as [|y l IH]; cbn; [reflexivity|].
  destruct (leb x y); [reflexivity|].
  rewrite IH. apply perm_swap.
Qed.

Lemma sort_by_Permutation l : Permutation (sort_by leb l) l.
Proof.
  induction l as [|x l IH]; cbn; [reflexivity|].
  rewrite insert_Permutation. constructor; exact IH.
Qed.

Hypothesis leb_total : forall x y, leb x y = false -> leb y x = true.
Hypothesis leb_trans :
  forall x y z, leb x y = true -> leb y z = true -> leb x z = true.

Lemma insert_StronglySorted x l :
  StronglySorted R l -> StronglySorted R (insert leb x l).
Proof.
  induction 1 as [|y l Hs IH Hall]; cbn.
  - repeat constructor.
  - destruct (leb x y) eqn:E.
    + constructor; [constructor; assumption|].
      constructor; [exact E|].
      eapply Forall_impl; [|exact Hall].
      intros z Hz. exact (leb_trans _ _ _ E Hz).
    + constructor; [exact IH|].
      apply (Permutation_Forall (Permutation_sym (insert_Permutation x l))).
      constructor; [apply leb_total; exact E | exact Hall].
Qed.

Lemma sort_by_StronglySorted l : StronglySorted R (sort_by leb l).
Proof.
  induction l as [|x l IH]; cbn; [constructor|].
  apply insert_StronglySorted; exact IH.
Qed.
End SortFacts.

Lemma StronglySorted_impl A (R R' : A -> A -> Prop) l :
  (forall a b, R a b -> R' a b) -> StronglySorted R l -> StronglySorted R' l.
Proof.
  intros H. induction 1 as [|x l Hs IH Hall]; constructor; auto.
  eapply Forall_impl; [|exact Hall]. intros; apply H; assumption.
Qed.

(** ** The catalog: what is selected *)

Lemma map_const_repeat A B (x : B) (l : list A) :
  map (fun _ => x) l = repeat x (List.length l).
Proof. induction l as [|a l IH]; cbn; [reflexivity | rewrite IH; reflexivity]. Qed.

Lemma flat_map_singleton A (l : list A) : flat_map (fun x => [x]) l = l.
Proof. induction l as [|a l IH]; cbn; [reflexivity | rewrite IH; reflexivity]. Qed.

Lemma filter_true A (l : list A) : filter (fun _ => true) l = l.
Proof. apply filter_all; reflexivity. Qed.

Lemma filter_freeDelivery_any l :
  filter (fun p : Product => eqb (freeDelivery p) true
                             || eqb (freeDelivery p) false) l = l.
Proof. apply filter_all. intros p _. destruct (freeDelivery p); reflexivity. Qed.

Lemma filter_freeDelivery_only l :
  filter (fun p : Product => eqb (freeDelivery p) true) l
  = filter freeDelivery l.
Proof. apply filter_ext. intros p. destruct (freeDelivery p); reflexivity. Qed.

Lemma sort_by_unordered A (l : list A) : sort_by (fun _ _ => true) l = l.
Proof.
  induction l as [|x l IH]; [reflexivity|].
  cbn [sort_by]. rewrite IH. destruct l; reflexivity.
Qed.

Lemma tag_ids_requested GET ids :
  tag_ids (tags_list GET) = Some ids -> ids = requested_tags GET.
Proof.
  unfold requested_tags. generalize (tags_list GET). intros values.
  revert ids. induction values as [|[t|] values IH]; cbn; intros ids H.
  - injection H as <-. reflexivity.
  - destruct (tag_ids values) as [ids'|]; [|discriminate H].
    injection H as <-. rewrite (IH ids' eq_refl). reflexivity.
  - discriminate H.
Qed.

Lemma bind_parameters_run parameters st :
  bind_parameters parameters st = (Ok tt, st)
  \/ bind_parameters parameters st = (Raise OverflowError, st).
Proof.
  unfold bind_parameters. destruct (forallb _ _); [left | right]; reflexivity.
Qed.

(** The filters of [filter_queryset] before the tag filter keep the
    matching rows of the queryset, in its order; the tag filter joins. *)
Lemma filter_queryset_stages GET queryset st result :
  fst (CatalogAPIView.filter_queryset GET queryset st) = Ok result ->
  exists evaluate,
    (forall st',
        evaluate st'
        = match tags_list GET with
          | _ :: _ =>
              (bind_parameters (requested_tags GET) ;;;
               rows_as_returned <- gets tag_join_order ;;
               ret (rows_as_returned (selected GET queryset))) st'
          | [] => (Ok (filter (matches GET) queryset), st')
          end)
    /\ fst (match truthy (sort GET) with
            | Some sort_param =>
                match sortType GET with
                | None => raise AttributeError
                | Some sort_type_param => order_by (ordering_of GET) evaluate
                end
            | None => evaluate
            end st) = Ok result.
Proof.
  intros Hresult.
  unfold CatalogAPIView.filter_queryset in Hresult.
  unfold ordering_of, selected, matches, copies.
  destruct (filter_minPrice GET) as [[|v1]|]; [discriminate Hresult| |];
    (destruct (filter_maxPrice GET) as [[|v2]|]; [discriminate Hresult| |]);
    cbn [bind ret] in Hresult;
    (destruct (tags_list GET) as [|t0 tl] eqn:Htags;
     [|pose proof (tag_ids_requested GET) as Hids; rewrite Htags in Hids;
       destruct (tag_ids (t0 :: tl)) as [ids|];
       [specialize (Hids ids eq_refl); subst ids | discriminate Hresult]]);
    cbn [bind ret] in Hresult;
    (eexists; split; [|destruct (truthy (sort GET));
                       [destruct (sortType GET)|]; exact Hresult]);
    clear Hresult; intros st';
    rewrite <- ?(flat_map_ext _ _ (fun p => map_const_repeat _ _ p _));
    rewrite <- !filter_filter;
    repeat match goal with
      | |- context [match ?x with _ => _ end] =>
          match x with
          | truthy _ => destruct x
          | filter_freeDelivery _ => destruct x
          | String.eqb _ _ => destruct x
          end
      end;
    rewrite ?filter_true, ?filter_freeDelivery_any, ?filter_freeDelivery_only;
    reflexivity.
Qed.

(** With its sort terms resolved to columns and the rows of a join kept,
    [filter_queryset] returns the selected rows in some order. *)
Lemma filter_queryset_rows GET queryset st result :
  tags_list GET = [] \/ join_keeps_rows st -> sorts_by_columns GET ->
  fst (CatalogAPIView.filter_queryset GET queryset st) = Ok result ->
  Permutation result (selected GET queryset).
Proof.
  intros Hjoin Hsort Hresult.
  destruct (filter_queryset_stages GET queryset st result Hresult)
    as [evaluate [Hevaluate Hsorted]].
  assert (Hrows : forall rows, fst (evaluate st) = Ok rows ->
                               evaluate st = (Ok rows, st)
                               /\ Permutation rows (selected GET queryset)).
  { intros rows. rewrite Hevaluate.
    destruct (tags_list GET) eqn:Htags.
    - cbn [fst]. intros [= <-]. split; [reflexivity|].
      unfold selected, copies. rewrite Htags.
      rewrite (flat_map_ext _ (fun x => [x]))
        by reflexivity.
      rewrite flat_map_singleton. reflexivity.
    - destruct (bind_parameters_run (requested_tags GET) st) as [Hb|Hb].
      + rewrite (bind_Ok _ _ _ _ _ _ _ Hb). cbn. intros [= <-].
        split; [reflexivity|].
        destruct Hjoin as [Hnone|Hjoin]; [discriminate Hnone | apply Hjoin].
      + rewrite (bind_Raise _ _ _ _ _ _ _ Hb). discriminate. }
  destruct (truthy (sort GET)).
  - destruct (sortType GET); [|discriminate Hsorted].
    destruct Hsort as [cs Hcs]. unfold order_by in Hsorted.
    rewrite Hcs in Hsorted. unfold bind in Hsorted.
    destruct (evaluate st) as [[rows|e] st1] eqn:E; [|discriminate Hsorted].
    destruct (Hrows rows eq_refl) as [_ Hperm].
    cbn in Hsorted. injection Hsorted as <-.
    rewrite sort_by_Permutation. exact Hperm.
  - apply (Hrows result Hsorted).
Qed.

(** Without tag filter and without sorting, [filter_queryset] returns the
    matching rows in the order of the queryset. *)
Lemma filter_queryset_plain GET queryset st result :
  tags_list GET = [] -> truthy (sort GET) = None ->
  fst (CatalogAPIView.filter_queryset GET queryset st) = Ok result ->
  result = filter (matches GET) queryset.
Proof.
  intros Htags Hsort Hresult.
  destruct (filter_queryset_stages GET queryset st result Hresult)
    as [evaluate [Hevaluate Hsorted]].
  rewrite Hsort, Hevaluate, Htags in Hsorted. injection Hsorted as <-.
  reflexivity.
Qed.



(** ** Pagination of the catalog *)

Section Paginated.
Variable A : Type.
Variable l : list A.

Let paginator := Paginator.new l 10.
Let N := Z.of_nat (List.length l).

Lemma num_pages_new :
  Paginator.num_pages paginator = Z.max 1 (Paginator.ceil_div N 10).
Proof.
  unfold Paginator.num_pages, paginator, Paginator.new, Paginator.count.
  cbn [Paginator.object_list Paginator.per_page Paginator.orphans
       Paginator.allow_empty_first_page negb].
  rewrite andb_false_r, Z.sub_0_r. fold N.
  unfold Paginator.ceil_div.
  assert (0 <= N) by (unfold N; lia).
  destruct (Z.max_spec 1 N) as [[? ->]|[? ->]].
  - rewrite Z.max_r; [reflexivity|].
    apply Z.div_le_lower_bound; lia.
  - assert (N = 0 \/ N = 1) as [->| ->] by lia; reflexivity.
Qed.


(** The page [get_page] settles on. *)
Lemma get_page_new number :
  exists m,
    1 <= m <= Paginator.num_pages paginator
    /\ Paginator.get_page paginator number
       = Ok {| Paginator.page_object_list :=
                 Paginator.slice l ((m - 1) * 10)
                   (if (m - 1) * 10 + 10 + 0 >=? N then N
                    else (m - 1) * 10 + 10);
               Paginator.number := m |}
    /\ (forall n, number = Some n ->
                  m = if (n <? 1) || (n >? Paginator.num_pages paginator)
                      then Paginator.num_pages paginator else n)
    /\ (number = None -> m = 1).
Proof.
  pose proof num_pages_new as Hnum.
  assert (Hge : 1 <= Paginator.num_pages paginator) by lia.
  assert (Hpage : forall m, 1 <= m <= Paginator.num_pages paginator ->
            Paginator.page paginator (Some m)
            = Ok {| Paginator.page_object_list :=
                      Paginator.slice l ((m - 1) * 10)
                        (if (m - 1) * 10 + 10 + 0 >=? N then N
                         else (m - 1) * 10 + 10);
                    Paginator.number := m |}).
  { intros m Hm. unfold Paginator.page, Paginator.validate_number.
    replace (m <? 1) with false by (symmetry; apply Z.ltb_ge; lia).
    replace (m >? Paginator.num_pages paginator) with false
      by (rewrite Z.gtb_ltb; symmetry; apply Z.ltb_ge; lia).
    reflexivity. }
  unfold Paginator.get_page, Paginator.validate_number.
  destruct number as [n|].
  - destruct (n <? 1) eqn:E1.
    + exists (Paginator.num_pages paginator).
      split; [lia|]. split; [apply Hpage; lia|].
      split; [|discriminate]. intros ? [= <-]. rewrite E1. reflexivity.
    + destruct (n >? Paginator.num_pages paginator) eqn:E2.
      * assert ((n =? 1) = false) as ->.
        { apply Z.eqb_neq. rewrite Z.gtb_ltb in E2. apply Z.ltb_lt in E2. lia. }
        cbn [andb].
        exists (Paginator.num_pages paginator).
        split; [lia|]. split; [apply Hpage; lia|].
        split; [|discriminate]. intros ? [= <-]. rewrite E1, E2. reflexivity.
      * exists n. apply Z.ltb_ge in E1.
        assert (n <= Paginator.num_pages paginator).
        { destruct (Z.gtb_spec n (Paginator.num_pages paginator));
            [discriminate | lia]. }
        split; [lia|]. split; [apply Hpage; lia|].
        split; [|discriminate]. intros ? [= <-].
        replace (n <? 1) with false by (symmetry; apply Z.ltb_ge; lia).
        rewrite E2. reflexivity.
  - exists 1. split; [lia|]. split; [apply Hpage; lia|].
    split; [discriminate | reflexivity].
Qed.

End Paginated.

Lemma ProductSerializer_data_run st obj :
  ProductSerializer_data obj st = (Ok (rendered st obj), st).
Proof.
  unfold ProductSerializer_data, ProductSerializer_get_reviews,
    ProductSerializer_get_rating, product_reviews, rendered, bind, gets, ret.
  destruct (filter _ (Review_table st)); reflexivity.
Qed.

Lemma readonly_order_by ordering queryset :
  readonly queryset -> readonly (order_by ordering queryset).
Proof. intros Hqs. unfold order_by. readonly_tac; exact Hqs. Qed.

Lemma readonly_filter_queryset GET queryset :
  readonly (CatalogAPIView.filter_queryset GET queryset).
Proof.
  assert (Hsort : forall evaluate,
             readonly evaluate ->
             readonly (match truthy (sort GET) with
                       | Some sort_param =>
                           match sortType GET with
                           | None => raise AttributeError
                           | Some sort_type_param =>
                               order_by (ordering_of GET) evaluate
                           end
                       | None => evaluate
                       end)).
  { intros evaluate He. destruct (truthy (sort GET)); [|exact He].
    destruct (sortType GET); [|apply readonly_raise].
    apply readonly_order_by; exact He. }
  unfold ordering_of in Hsort. intros st.
  unfold CatalogAPIView.filter_queryset.
  destruct (filter_minPrice GET) as [[|v1]|]; [reflexivity| |];
    (destruct (filter_maxPrice GET) as [[|v2]|]; [reflexivity| |]);
    cbn [bind ret];
    (destruct (tags_list GET) as [|t0 tl];
     [|destruct (tag_ids (t0 :: tl)) as [ids|]; [|reflexivity]]);
    cbn [bind ret];
    (destruct (truthy (sort GET)) as [sort_param|] eqn:Hs;
     [destruct (sortType GET) as [sort_type_param|] eqn:Ht; [|reflexivity]|]);
    match goal with
    | |- snd (order_by _ ?e st) = st =>
        specialize (Hsort e); apply Hsort
    | |- snd (?e st) = st =>
        specialize (Hsort e); apply Hsort
    end;
    unfold bind_parameters; readonly_tac.
Qed.

Lemma result_of_readonly A (m : M A) st r :
  readonly m -> fst (m st) = r -> m st = (r, st).
Proof.
  intros Hm Hr. specialize (Hm st).
  destruct (m st) as [r' st']; cbn in *; congruence.
Qed.

(** What [CatalogAPIView.get] answers once the filtered queryset is known. *)
Lemma catalog_get_run st GET queryset page :
  fst (CatalogAPIView.filter_queryset GET (Product_table st) st) = Ok queryset ->
  exists m,
    let paginator := Paginator.new queryset 10 in
    let N := Z.of_nat (List.length queryset) in
    1 <= m <= Paginator.num_pages paginator
    /\ CatalogAPIView.get (with_currentPage GET page) st
       = (Ok {| data :=
                  CatalogBody
                    (map (rendered st)
                         (Paginator.slice queryset ((m - 1) * 10)
                            (if (m - 1) * 10 + 10 + 0 >=? N then N
                             else (m - 1) * 10 + 10)))
                    m (Paginator.num_pages paginator);
                status_code := HTTP_200_OK |}, st)
    /\ (forall n, page = Some n ->
                  m = if (n <? 1) || (n >? Paginator.num_pages paginator)
                      then Paginator.num_pages paginator else n)
    /\ (page = None -> m = 1).
Proof.
  intros Hqs.
  apply (result_of_readonly _ _ _ _ (readonly_filter_queryset _ _)) in Hqs.
  destruct (get_page_new _ queryset page) as [m [Hm [Hpage Hwhich]]].
  exists m. cbv zeta. split; [exact Hm|]. split; [|exact Hwhich].
  unfold CatalogAPIView.get, CatalogAPIView.get_queryset.
  rewrite (bind_Ok _ _ _ _ st (Product_table st) st) by reflexivity.
  change (CatalogAPIView.filter_queryset (with_currentPage GET page))
    with (CatalogAPIView.filter_queryset GET).
  rewrite (bind_Ok _ _ _ _ _ _ _ Hqs).
  cbn [currentPage_param with_currentPage]. rewrite Hpage.
  cbn [Paginator.page_object_list Paginator.number].
  rewrite (bind_Ok _ _ _ _ st _ st
             (mapM_readers_Ok _ _ _ (rendered st) _ st
                (fun a _ => ProductSerializer_data_run st a))).
  reflexivity.
Qed.



(** ** Archived products in the catalog *)

(** C5 at a failing input.  In the sample store product 8 is archived; the
    catalog request without parameters lists it on its first page, although
    the product detail view ([ProductAPIView.get_queryset]) hides it. *)
Theorem catalog_lists_archived_product :
  let p8 := sample_product 8 50 true in
  archived p8 = true
  /\ In p8 (Product_table sample_store)
  /\ (exists items,
         fst (CatalogAPIView.get no_parameters sample_store)
         = Ok {| data := CatalogBody items 1 1; status_code := HTTP_200_OK |}
         /\ In p8 (map out_product items))
  /\ fst (ProductAPIView.get_queryset 8 sample_store) = Ok [].
Proof.
  cbv zeta. split; [reflexivity|]. split; [right; left; reflexivity|].
  split; [|reflexivity].
  eexists. split; [reflexivity|]. right; left; reflexivity.
Qed.

(** ** The sample store *)

Lemma sample_store_wf : Store_wf sample_store.
Proof.
  constructor; cbn.
  - intros i [<-|[]]; cbn; lia.
  - repeat constructor; intros [].
  - intros c [<-|[]]; cbn; lia.
  - intros i [<-|[]]; cbn. eexists; split; [left; reflexivity | reflexivity].
  - intros i [<-|[]]; cbn.
    eexists; split; [right; right; left; reflexivity | reflexivity].
  - repeat constructor; intros [].
  - intros i [<-|[]]; cbn; lia.
Qed.

Lemma sample_store_with_count_wf count :
  1 <= count -> Store_wf (sample_store_with_count count).
Proof.
  intros Hcount. constructor; cbn.
  - intros i [<-|[]]; cbn; lia.
  - repeat constructor; intros [].
  - intros c [<-|[]]; cbn; lia.
  - intros i [<-|[]]; cbn. eexists; split; [left; reflexivity | reflexivity].
  - intros i [<-|[]]; cbn.
    eexists; split; [right; right; left; reflexivity | reflexivity].
  - repeat constructor; intros [].
  - intros i [<-|[]]; cbn; lia.
Qed.

(** C1, as written, fails where the new count exceeds the column: adding
    [2^63 - 4] of a product of which the cart holds 4 is not answered 201
    (the request ends in [OverflowError]), and the count stays 4. *)
Lemma post_count_not_raised :
  ~ (forall st user pid c product,
        Store_wf st ->
        find (fun p => product_id p =? pid) (Product_table st)
        = Some product ->
        1 <= c ->
        let request := {| data_id := Some pid; data_count := Some c |} in
        responded (fst (BasketAPIView.post user request st))
                  HTTP_201_CREATED).
Proof.
  intros H.
  assert (Hc : 1 <= INTEGER_max - 3) by discriminate.
  destruct (H sample_store 10 9 (INTEGER_max - 3)
              (sample_product 9 200 false) sample_store_wf eq_refl Hc)
    as [body Hbody].
  vm_compute in Hbody. discriminate Hbody.
Qed.

(** C3, as written, fails where the addition exceeds the column: on a line
    item of count [2^63 - 2], adding 2 ends in [OverflowError] and changes
    nothing, and removing 2 then succeeds: the count ends 2 below its
    former value. *)
Lemma post_then_delete_not_restored :
  ~ (forall st user pid c product,
        Store_wf st ->
        find (fun p => product_id p =? pid) (Product_table st)
        = Some product ->
        1 <= c ->
        let add := BasketAPIView.post
                     user {| data_id := Some pid; data_count := Some c |} in
        let remove := BasketAPIView.delete
                        user {| BasketAPIView.delete_id := Some pid;
                                BasketAPIView.delete_count := Some c |} in
        forall q, line_items (snd (remove (snd (add st)))) user q
                  = line_items st user q).
Proof.
  intros H.
  assert (Hk : 1 <= INTEGER_max - 1) by discriminate.
  specialize (H (sample_store_with_count (INTEGER_max - 1)) 10 9 2
                (sample_product 9 200 false)
                (sample_store_with_count_wf _ Hk) eq_refl ltac:(lia) 9).
  vm_compute in H. discriminate H.
Qed.

Lemma post_increments_or_creates_witness :
  let add c := BasketAPIView.post
                 10 {| data_id := Some 7; data_count := Some c |} in
  responded (fst (add 2 sample_store)) HTTP_201_CREATED
  /\ responded (fst (add 3 (snd (add 2 sample_store)))) HTTP_201_CREATED
  /\ exists i, line_items (snd (add 3 (snd (add 2 sample_store)))) 10 7 = [i]
               /\ item_count i = 5.
Proof.
  exact (proj2 (proj2 (post_increments_or_creates sample_store 10
                         sample_store_wf))
               (sample_product 7 150 false) eq_refl eq_refl).
Defined.

Lemma delete_decrements_or_rejects_witness :
  let request c := {| BasketAPIView.delete_id := Some 9;
                      BasketAPIView.delete_count := Some c |} in
  BasketAPIView.delete 10 (request 5) sample_store
  = (Ok {| data := ErrorBody "Count cannot be negative.";
           status_code := HTTP_400_BAD_REQUEST |}, sample_store)
  /\ CartItem_table (snd (BasketAPIView.delete 10 (request 4) sample_store))
     = []
  /\ CartItem_table (snd (BasketAPIView.delete 10 (request 1) sample_store))
     = [{| item_id := 1; item_cart := 1; item_product := 9;
           item_count := 3 |}].
Proof.
  pose (i := {| item_id := 1; item_cart := 1; item_product := 9;
                item_count := 4 |}).
  pose (H := fun c => delete_decrements_or_rejects
                        sample_store 10 9 {| cart_id := 1; cart_user := 10 |}
                        (sample_product 9 200 false) i c
                        eq_refl eq_refl eq_refl).
  cbv zeta. split; [|split].
  - apply (proj1 (H 5)). cbn. lia.
  - rewrite (proj1 (proj2 (H 4)) eq_refl). reflexivity.
  - rewrite (proj1 (proj2 (proj2 (H 1))));
      [reflexivity | cbn; lia | vm_compute; discriminate].
Defined.

Lemma post_then_delete_restores_witness :
  let add := BasketAPIView.post
               10 {| data_id := Some 9; data_count := Some 2 |} in
  let remove := BasketAPIView.delete
                  10 {| BasketAPIView.delete_id := Some 9;
                        BasketAPIView.delete_count := Some 2 |} in
  CartItem_table (snd (remove (snd (add sample_store))))
  = CartItem_table sample_store.
Proof.
  exact (proj1 (proj2 (proj2
           (post_then_delete_restores sample_store 10 9 2
              (sample_product 9 200 false) sample_store_wf eq_refl
              ltac:(lia) ltac:(vm_compute; discriminate))))).
Defined.


(** ** Price filter and price order *)








(** ** Review aggregation *)

Lemma product_reviews_run st p :
  product_reviews p st = (Ok (reviews_of st (product_id p)), st).
Proof. reflexivity. Qed.

Lemma find_existsb A (f : A -> bool) l x :
  find f l = Some x -> existsb f l = true.
Proof.
  intros H. apply find_some in H as [Hin Hf].
  apply existsb_exists. exists x; auto.
Qed.

Lemma find_replace_same t pk p p' :
  product_id p' = pk ->
  find (fun r => product_id r =? pk) t = Some p ->
  find (fun r => product_id r =? pk)
       (map (fun r => if product_id r =? pk then p' else r) t) = Some p'.
Proof.
  intros Hid. induction t as [|a t IH]; cbn; [discriminate|].
  destruct (product_id a =? pk) eqn:E.
  - intros _. rewrite Hid, Z.eqb_refl. reflexivity.
  - rewrite E. exact IH.
Qed.

Lemma Product_save_run st p old :
  find (fun r => product_id r =? product_id p) (Product_table st) = Some old ->
  Product_save p st
  = (Ok tt,
     with_Product_table
       (map (fun r => if product_id r =? product_id p then p else r)
            (Product_table st)) st).
Proof.
  intros H. unfold Product_save, modify. cbv zeta.
  rewrite (find_existsb _ _ _ _ H). reflexivity.
Qed.

(** The receiver writes the number and the mean of the product's reviews
    into the product's row. *)
Lemma update_product_fields_run st product :
  find (fun r => product_id r =? product_id product) (Product_table st)
  = Some product ->
  let rs := reviews_of st (product_id product) in
  let product' := with_aggregates product (Z.of_nat (List.length rs))
                                  (Avg (map rate rs)) in
  update_product_fields product st
  = (Ok product',
     with_Product_table
       (map (fun r => if product_id r =? product_id product
                      then product' else r)
            (Product_table st)) st).
Proof.
  intros Hfind rs product'. unfold update_product_fields.
  unfold calculate_reviews_count, average_rating.
  rewrite (bind_Ok _ _ _ _ st (Z.of_nat (List.length rs)) st)
    by (rewrite (bind_Ok _ _ _ _ _ _ _ (product_reviews_run st product));
        reflexivity).
  rewrite (bind_Ok _ _ _ _ st (Avg (map rate rs)) st)
    by (rewrite (bind_Ok _ _ _ _ _ _ _ (product_reviews_run st _));
        reflexivity).
  change (with_rating (with_reviews_count product (Z.of_nat (List.length rs)))
                      (Avg (map rate rs))) with product'.
  rewrite (bind_Ok _ _ _ _ _ _ _ (Product_save_run st product' product Hfind)).
  reflexivity.
Qed.

Lemma map_replace_idem t pk (p' : Product) :
  product_id p' = pk ->
  map (fun r => if product_id r =? pk then p' else r)
      (map (fun r => if product_id r =? pk then p' else r) t)
  = map (fun r => if product_id r =? pk then p' else r) t.
Proof.
  intros Hid. rewrite map_map. apply map_ext. intros r.
  destruct (product_id r =? pk) eqn:E; [|rewrite E; reflexivity].
  rewrite Hid, Z.eqb_refl. reflexivity.
Qed.

(** A valid review of an existing product is answered 201 with the
    product's reviews and leaves the store [reviewed]. *)
Lemma create_run st pk d now product v e :
  find (fun r => product_id r =? pk) (Product_table st) = Some product ->
  ReviewSerializer_validate d = Some v ->
  v_email v = Some e ->
  let review := {| review_id := Review_seq st;
                   review_product := product_id product;
                   author := v_author v; text := v_text v; rate := v_rate v;
                   review_date := now; email := e |} in
  let st' := reviewed st product review in
  ReviewViewSet.create pk d now st
  = (Ok {| data := ReviewsBody (reviews_of st' pk);
           status_code := HTTP_201_CREATED |}, st').
Proof.
  intros Hfind Hval Hemail review st'.
  destruct (find_product_exists st pk product Hfind) as [Hpid _].
  unfold ReviewViewSet.create.
  rewrite (try_or_return_Ok _ _ _ _ _ _ st product st)
    by (apply Product_objects_get_Ok; exact Hfind).
  rewrite Hval, Hemail.
  rewrite (bind_Ok _ _ _ _ st e st) by reflexivity.
  set (st1 := with_Review (Review_table st ++ [review]) (Review_seq st + 1) st).
  set (rs := reviews_of st1 (product_id product)).
  set (product' := with_aggregates product (Z.of_nat (List.length rs))
                                   (Avg (map rate rs))).
  assert (Hfind1 : find (fun r => product_id r =? product_id product)
                        (Product_table st1) = Some product)
    by (rewrite Hpid; exact Hfind).
  assert (Hsave : Review_save product (v_author v) (v_text v) (v_rate v) e now st
                  = (Ok (review, product'), st')).
  { unfold Review_save.
    rewrite (bind_Ok _ _ _ _ st (Review_seq st) st) by reflexivity.
    rewrite bind_modify. fold review. fold st1.
    rewrite (bind_Ok _ _ _ _ _ _ _ (update_product_fields_run st1 product Hfind1)).
    reflexivity. }
  rewrite (bind_Ok _ _ _ _ _ _ _ Hsave). cbn [snd].
  assert (Hrs : reviews_of st' (product_id product') = rs) by reflexivity.
  unfold calculate_reviews_count, average_rating.
  rewrite (bind_Ok _ _ _ _ st' (Z.of_nat (List.length rs)) st')
    by (rewrite (bind_Ok _ _ _ _ _ _ _ (product_reviews_run st' product'));
        rewrite Hrs; reflexivity).
  rewrite (bind_Ok _ _ _ _ st' (Avg (map rate rs)) st')
    by (rewrite (bind_Ok _ _ _ _ _ _ _ (product_reviews_run st' _));
        reflexivity).
  change (with_rating
            (with_reviews_count product' (Z.of_nat (List.length rs)))
            (Avg (map rate rs))) with product'.
  assert (Hfind' : find (fun r => product_id r =? product_id product')
                        (Product_table st') = Some product').
  { unfold st', reviewed. cbn [Product_table with_Product_table].
    fold st1. fold rs. fold product'.
    apply (find_replace_same _ _ product); [reflexivity | exact Hfind1]. }
  rewrite (bind_Ok _ _ _ _ _ _ _ (Product_save_run st' product' _ Hfind')).
  assert (Hidem :
            with_Product_table
              (map (fun r => if product_id r =? product_id product'
                             then product' else r) (Product_table st')) st'
            = st').
  { unfold st' at 1 2, reviewed. cbn [Product_table with_Product_table].
    fold st1. fold rs. fold product'.
    change (product_id product') with (product_id product).
    rewrite map_replace_idem by reflexivity. reflexivity. }
  rewrite Hidem.
  rewrite (bind_Ok _ _ _ _ _ _ _ (product_reviews_run st' product')).
  change (product_id product') with (product_id product). rewrite Hpid.
  reflexivity.
Qed.

Lemma reviews_of_reviewed st product review :
  reviews_of (reviewed st product review) (product_id product)
  = reviews_of st (product_id product)
    ++ (if review_product review =? product_id product then [review] else []).
Proof.
  unfold reviewed, reviews_of. cbn [Review_table with_Product_table with_Review].
  rewrite filter_app. cbn [filter].
  destruct (review_product review =? product_id product); reflexivity.
Qed.

Lemma find_reviewed st pk product review :
  find (fun r => product_id r =? pk) (Product_table st) = Some product ->
  let rs := reviews_of (reviewed st product review) pk in
  find (fun r => product_id r =? pk) (Product_table (reviewed st product review))
  = Some (with_aggregates product (Z.of_nat (List.length rs))
                          (Avg (map rate rs))).
Proof.
  intros Hfind rs.
  destruct (find_product_exists st pk product Hfind) as [Hpid _].
  unfold reviewed at 1. cbn [Product_table with_Product_table].
  rewrite Hpid.
  apply (find_replace_same _ _ product); [exact Hpid | exact Hfind].
Qed.

Lemma Zsum_from l a : fold_left Z.add l a = a + Zsum l.
Proof.
  unfold Zsum. revert a. induction l as [|x l IH]; intros a; cbn; [lia|].
  rewrite IH, (IH x). lia.
Qed.

Lemma Zsum_cons x l : Zsum (x :: l) = x + Zsum l.
Proof. unfold Zsum at 1. cbn. apply Zsum_from. Qed.

Lemma Zsum_Permutation l l' : Permutation l l' -> Zsum l = Zsum l'.
Proof.
  induction 1; rewrite ?Zsum_cons; lia.
Qed.

Lemma Review_save_run st product a t r e now :
  find (fun x => product_id x =? product_id product) (Product_table st)
  = Some product ->
  let review := {| review_id := Review_seq st;
                   review_product := product_id product;
                   author := a; text := t; rate := r;
                   review_date := now; email := e |} in
  let st' := reviewed st product review in
  Review_save product a t r e now st
  = (Ok (review,
         with_aggregates product
           (Z.of_nat (List.length (reviews_of st' (product_id product))))
           (Avg (map rate (reviews_of st' (product_id product))))),
     st').
Proof.
  intros Hfind review st'. unfold Review_save.
  rewrite (bind_Ok _ _ _ _ st (Review_seq st) st) by reflexivity.
  rewrite bind_modify. fold review.
  set (st1 := with_Review (Review_table st ++ [review]) (Review_seq st + 1) st).
  assert (Hfind1 : find (fun x => product_id x =? product_id product)
                        (Product_table st1) = Some product) by exact Hfind.
  rewrite (bind_Ok _ _ _ _ _ _ _ (update_product_fields_run st1 product Hfind1)).
  reflexivity.
Qed.

Lemma mean_nonempty_length (rates : list Z) :
  rates <> [] -> 0 < Z.of_nat (List.length rates).
Proof. destruct rates; [contradiction | cbn; lia]. Qed.

(** While sum and count are integers that floats represent, the average
    that the database computes is the mean rounded once. *)
Lemma Avg_rounds rates :
  rates <> [] ->
  Z.abs (Zsum rates) <= 2 ^ 53 ->
  Z.of_nat (List.length rates) <= 2 ^ 53 ->
  Avg rates = Some (fl (mean rates)).
Proof.
  intros Hne Hsum Hlen. pose proof (mean_nonempty_length rates Hne) as Hpos.
  destruct rates as [|r rates]; [contradiction|].
  unfold Avg, mean.
  rewrite (fl_integer (Zsum (r :: rates))) by exact Hsum.
  rewrite (fl_integer (Z.of_nat (List.length (r :: rates)))) by lia.
  reflexivity.
Qed.

Lemma mean_integer rates k :
  rates <> [] ->
  Zsum rates = k * Z.of_nat (List.length rates) ->
  (mean rates == inject_Z k)%Q.
Proof.
  intros Hne Hk. pose proof (mean_nonempty_length rates Hne) as Hpos.
  unfold mean. rewrite Hk, inject_Z_mult.
  apply Qdiv_mult_l.
  intros H. unfold Qeq in H. cbn in H. lia.
Qed.

(** C7, as the code has it.  Saving a review of a stored product, by
    whichever route, at once leaves the product's row with [reviews_count]
    equal to the number of the product's reviews and [rating] equal to the
    average that the database computes over their rates (the post_save
    receiver); so does every review creation answered 201.  While the sum
    and the number of the rates are integers that floats represent (at
    most [2^53] in magnitude), that average is the arithmetic mean rounded
    to the nearest float: it is the mean itself when the mean is an
    integer and differs from a mean of magnitude 1 or more by at most
    [2^-53] of it.  In particular, when a product without reviews receives
    three valid reviews whose rates are 4, 5 and 3 in any order, its row
    ends with [reviews_count = 3] and a rating equal to 4. *)
Theorem review_creation_aggregates :
  (forall st product a t r e now,
      find (fun x => product_id x =? product_id product) (Product_table st)
      = Some product ->
      let pk := product_id product in
      let st' := snd (Review_save product a t r e now st) in
      exists p,
        find (fun x => product_id x =? pk) (Product_table st') = Some p
        /\ reviews_count p = Z.of_nat (List.length (reviews_of st' pk))
        /\ rating p = Avg (map rate (reviews_of st' pk))
        /\ List.length (reviews_of st' pk)
           = S (List.length (reviews_of st pk)))
  /\ (forall st pk d now response st',
         ReviewViewSet.create pk d now st = (Ok response, st') ->
         status_code response = HTTP_201_CREATED ->
         exists p,
           find (fun r => product_id r =? pk) (Product_table st') = Some p
           /\ reviews_count p = Z.of_nat (List.length (reviews_of st' pk))
           /\ rating p = Avg (map rate (reviews_of st' pk))
           /\ reviews_of st' pk <> [])
  /\ (forall rates,
         rates <> [] ->
         Z.abs (Zsum rates) <= 2 ^ 53 ->
         Z.of_nat (List.length rates) <= 2 ^ 53 ->
         Avg rates = Some (fl (mean rates))
         /\ (forall k, Zsum rates = k * Z.of_nat (List.length rates) ->
                       fl (mean rates) = inject_Z k)
         /\ (1 <= Qabs (mean rates) ->
             Qabs (fl (mean rates) - mean rates) * inject_Z (2 ^ 53)
             <= Qabs (mean rates))%Q)
  /\ (forall st pk product d1 d2 d3 v1 v2 v3 now1 now2 now3,
         find (fun r => product_id r =? pk) (Product_table st) = Some product ->
         reviews_of st pk = [] ->
         ReviewSerializer_validate d1 = Some v1 -> v_email v1 <> None ->
         ReviewSerializer_validate d2 = Some v2 -> v_email v2 <> None ->
         ReviewSerializer_validate d3 = Some v3 -> v_email v3 <> None ->
         Permutation [v_rate v1; v_rate v2; v_rate v3] [4; 5; 3] ->
         let st1 := snd (ReviewViewSet.create pk d1 now1 st) in
         let st2 := snd (ReviewViewSet.create pk d2 now2 st1) in
         let st3 := snd (ReviewViewSet.create pk d3 now3 st2) in
         responded (fst (ReviewViewSet.create pk d1 now1 st)) HTTP_201_CREATED
         /\ responded (fst (ReviewViewSet.create pk d2 now2 st1))
                      HTTP_201_CREATED
         /\ responded (fst (ReviewViewSet.create pk d3 now3 st2))
                      HTTP_201_CREATED
         /\ exists p q,
              find (fun r => product_id r =? pk) (Product_table st3) = Some p
              /\ reviews_count p = 3
              /\ rating p = Some q
              /\ (q == 4)%Q).
Proof.
  assert (Step : forall st pk d now product v,
             find (fun r => product_id r =? pk) (Product_table st)
             = Some product ->
             ReviewSerializer_validate d = Some v -> v_email v <> None ->
             let st' := snd (ReviewViewSet.create pk d now st) in
             responded (fst (ReviewViewSet.create pk d now st)) HTTP_201_CREATED
             /\ (exists review,
                    rate review = v_rate v
                    /\ reviews_of st' pk = reviews_of st pk ++ [review])
             /\ find (fun r => product_id r =? pk) (Product_table st')
                = Some (with_aggregates product
                          (Z.of_nat (List.length (reviews_of st' pk)))
                          (Avg (map rate (reviews_of st' pk))))).
  { intros st pk d now product v Hfind Hval Hemail st'.
    destruct (v_email v) as [e|] eqn:He; [clear Hemail | contradiction].
    pose proof (create_run st pk d now product v e Hfind Hval He) as Hrun.
    cbv zeta in Hrun. subst st'. rewrite Hrun. cbn [fst snd].
    destruct (find_product_exists st pk product Hfind) as [Hpid _].
    subst pk.
    split; [eexists; reflexivity|]. split.
    - eexists. split; [|rewrite reviews_of_reviewed; cbn [review_product];
                        rewrite Z.eqb_refl; reflexivity].
      reflexivity.
    - apply find_reviewed; exact Hfind. }
  split; [|split; [|split]].
  - intros st product a t r e now Hfind pk st'.
    pose proof (Review_save_run st product a t r e now Hfind) as Hrun.
    cbv zeta in Hrun. subst st'. rewrite Hrun. cbn [snd].
    eexists. split; [apply find_reviewed; exact Hfind|].
    cbn [reviews_count rating with_aggregates].
    split; [reflexivity|]. split; [reflexivity|].
    unfold pk. rewrite reviews_of_reviewed. cbn [review_product].
    rewrite Z.eqb_refl, length_app. cbn [List.length]. lia.
  - intros st pk d now response st' Hcreate Hstatus.
    pose proof Hcreate as Hinv.
    unfold ReviewViewSet.create, try_or_return in Hinv.
    destruct (find (fun r => product_id r =? pk) (Product_table st))
      as [product|] eqn:Hfind.
    2:{ rewrite (Product_objects_get_None _ _ Hfind) in Hinv.
        cbn in Hinv. injection Hinv as <- <-. discriminate Hstatus. }
    destruct (ReviewSerializer_validate d) as [v|] eqn:Hval.
    2:{ rewrite (Product_objects_get_Ok _ _ _ Hfind) in Hinv.
        cbn in Hinv. injection Hinv as <- <-. discriminate Hstatus. }
    destruct (v_email v) as [e|] eqn:He.
    2:{ rewrite (Product_objects_get_Ok _ _ _ Hfind) in Hinv.
        unfold bind, raise in Hinv. discriminate Hinv. }
    clear Hinv.
    destruct (Step st pk d now product v Hfind Hval ltac:(congruence))
      as [_ [[review [_ Hrs]] Hp]].
    rewrite Hcreate in Hrs, Hp. cbn [snd] in Hrs, Hp.
    eexists. split; [exact Hp|]. cbn [reviews_count rating with_aggregates].
    split; [reflexivity|]. split; [reflexivity|].
    rewrite Hrs. intros H. apply app_eq_nil in H as [_ H]. discriminate H.
  - intros rates Hne Hsum Hlen.
    split; [apply Avg_rounds; assumption|]. split.
    + intros k Hk.
      rewrite (fl_Proper _ _ (mean_integer rates k Hne Hk)).
      apply fl_integer.
      pose proof (mean_nonempty_length rates Hne). nia.
    + apply fl_error.
  - intros st pk product d1 d2 d3 v1 v2 v3 now1 now2 now3
           Hfind Hnone Hv1 He1 Hv2 He2 Hv3 He3 Hperm st1 st2 st3.
    destruct (Step st pk d1 now1 product v1 Hfind Hv1 He1)
      as [Hr1 [[r1 [Hrate1 Hrs1]] Hp1]].
    fold st1 in Hrs1, Hp1.
    destruct (Step st1 pk d2 now2 _ v2 Hp1 Hv2 He2)
      as [Hr2 [[r2 [Hrate2 Hrs2]] Hp2]].
    fold st2 in Hrs2, Hp2.
    destruct (Step st2 pk d3 now3 _ v3 Hp2 Hv3 He3)
      as [Hr3 [[r3 [Hrate3 Hrs3]] Hp3]].
    fold st3 in Hrs3, Hp3.
    split; [exact Hr1|]. split; [exact Hr2|]. split; [exact Hr3|].
    rewrite Hrs3, Hrs2, Hrs1, Hnone in Hp3.
    cbn [app map List.length] in Hp3.
    rewrite Hrate1, Hrate2, Hrate3 in Hp3.
    assert (HAvg : Avg [v_rate v1; v_rate v2; v_rate v3] = Some 4%Q).
    { unfold Avg. rewrite (Zsum_Permutation _ _ Hperm). reflexivity. }
    rewrite HAvg in Hp3.
    eexists _, _. split; [exact Hp3|]. cbn [reviews_count rating with_aggregates].
    split; [reflexivity|]. split; reflexivity.
Qed.

(** C7, as written, fails where the mean is no float: the third review of
    a product whose reviews then have the rates 5, 4 and 4 is answered 201
    and leaves a rating whose product with 3 is not 13. *)
Lemma rating_not_exact_mean :
  ~ (forall st pk d now response st',
        ReviewViewSet.create pk d now st = (Ok response, st') ->
        status_code response = HTTP_201_CREATED ->
        exists p q,
          find (fun r => product_id r =? pk) (Product_table st') = Some p
          /\ rating p = Some q
          /\ is_mean_of q (map rate (reviews_of st' pk))).
Proof.
  intros H.
  destruct (H rated_store 7 (sample_review 4) 0 _ _ eq_refl eq_refl)
    as [p [q [Hfind [Hrating [_ Hmean]]]]].
  vm_compute in Hfind. injection Hfind as <-.
  vm_compute in Hrating. injection Hrating as <-.
  vm_compute in Hmean. discriminate Hmean.
Qed.

Lemma review_creation_aggregates_witness :
  let create r now := ReviewViewSet.create 7 (sample_review r) now in
  let st3 := snd (create 4 3 (snd (create 3 2 (snd (create 5 1 sample_store))))) in
  exists p q,
    find (fun r => product_id r =? 7) (Product_table st3) = Some p
    /\ reviews_count p = 3
    /\ rating p = Some q
    /\ (q == 4)%Q.
Proof.
  refine (proj2 (proj2 (proj2
           (proj2 (proj2 (proj2 review_creation_aggregates))
              sample_store 7 (sample_product 7 150 false)
              (sample_review 5) (sample_review 3) (sample_review 4)
              _ _ _ 1 2 3 eq_refl eq_refl eq_refl _ eq_refl _ eq_refl _ _)))).
  - cbn. discriminate.
  - cbn. discriminate.
  - cbn. discriminate.
  - cbn. eapply perm_trans; [apply perm_skip, perm_swap | apply perm_swap].
Defined.

(** ** Placing an order *)

(** C8 at a failing input.  Placing an order for products 7 and 99 in the
    sample store, where no product 99 exists, is not answered 404: the
    handler lets [Product.DoesNotExist] escape, which [dispatch] does not
    turn into a response, and the order row created before the loop stays
    in the store together with the link to product 7, while the cart is
    not cleared. *)
Theorem place_with_unknown_product :
  let request := [{| pd_id := Some 7; pd_price := None; pd_count := None |};
                  {| pd_id := Some 99; pd_price := None; pd_count := None |}] in
  let outcome := dispatch (OrderAPIView.post 10 request 3000) sample_store in
  find (fun p => product_id p =? 99) (Product_table sample_store) = None
  /\ fst outcome = Raise Product_DoesNotExist
  /\ Order_table (snd outcome)
     = Order_table sample_store
       ++ [{| order_id := 3; createdAt := 3000; order_user := 10;
              status := None; deliveryType := None; paymentType := None;
              totalCost := 0 |}]
  /\ Order_products_table (snd outcome)
     = Order_products_table sample_store ++ [(3, 7)]
  /\ CartItem_table (snd outcome) = CartItem_table sample_store.
Proof. cbv zeta. repeat split; reflexivity. Qed.

(** ** Finalizing an order *)






Lemma DeliveryType_objects_get_Ok st pk d :
  find (fun x => delivery_id x =? pk) (DeliveryType_table st) = Some d ->
  DeliveryType_objects_get pk st = (Ok d, st).
Proof.
  intros H. unfold DeliveryType_objects_get, bind, gets. rewrite H. reflexivity.
Qed.

Lemma PaymentType_objects_get_Ok st pk d :
  find (fun x => payment_id x =? pk) (PaymentType_table st) = Some d ->
  PaymentType_objects_get pk st = (Ok d, st).
Proof.
  intros H. unfold PaymentType_objects_get, bind, gets. rewrite H. reflexivity.
Qed.

Lemma OrderStatus_objects_get_Ok st pk d :
  find (fun x => status_id x =? pk) (OrderStatus_table st) = Some d ->
  OrderStatus_objects_get pk st = (Ok d, st).
Proof.
  intros H. unfold OrderStatus_objects_get, bind, gets. rewrite H. reflexivity.
Qed.

Lemma Order_objects_get_Ok st pk o :
  find (fun x => order_id x =? pk) (Order_table st) = Some o ->
  Order_objects_get pk st = (Ok o, st).
Proof.
  intros H. unfold Order_objects_get, bind, gets. rewrite H. reflexivity.
Qed.




(** ** Listing orders *)

Lemma mapM_readers_exists A B (f : A -> M B) (P : A -> B -> Prop) l st :
  (forall a, In a l -> exists b, f a st = (Ok b, st) /\ P a b) ->
  exists bs, mapM f l st = (Ok bs, st) /\ Forall2 P l bs.
Proof.
  induction l as [|a l IH]; intros H.
  - exists []. split; [reflexivity | constructor].
  - destruct (H a (or_introl eq_refl)) as [b [Hb HP]].
    destruct IH as [bs [Hbs HPs]]; [intros; apply H; right; assumption|].
    exists (b :: bs). split; [|constructor; assumption].
    cbn [mapM]. rewrite (bind_Ok _ _ _ _ _ _ _ Hb).
    rewrite (bind_Ok _ _ _ _ _ _ _ Hbs). reflexivity.
Qed.

Lemma string_related_Ok A (objects_get : Z -> M A) (name : A -> string)
    (fk : option Z) st :
  (forall pk, fk = Some pk -> exists row, objects_get pk st = (Ok row, st)) ->
  exists s, string_related objects_get name fk st = (Ok s, st).
Proof.
  intros H. unfold string_related. destruct fk as [pk|].
  - destruct (H pk eq_refl) as [row Hrow].
    eexists. rewrite (bind_Ok _ _ _ _ _ _ _ Hrow). reflexivity.
  - eexists. reflexivity.
Qed.

Lemma found A (f : A -> bool) l : find f l <> None -> exists x, find f l = Some x.
Proof. destruct (find f l) as [x|]; [eauto | congruence]. Qed.

Lemma OrderSerializer_data_Ok st o :
  Orders_renderable st -> In o (Order_table st) ->
  exists r, OrderSerializer_data o st = (Ok r, st) /\ renders st o r.
Proof.
  intros Hok Ho.
  destruct (found _ _ _ (@owner_has_profile st Hok o Ho)) as [profile Hprofile].
  destruct (string_related_Ok _ DeliveryType_objects_get delivery_name
              (deliveryType o) st) as [d Hd].
  { intros pk Hpk. destruct (found _ _ _ (@delivery_exists st Hok o pk Ho Hpk)).
    eexists. apply DeliveryType_objects_get_Ok. eassumption. }
  destruct (string_related_Ok _ PaymentType_objects_get payment_name
              (paymentType o) st) as [p Hp].
  { intros pk Hpk. destruct (found _ _ _ (@payment_exists st Hok o pk Ho Hpk)).
    eexists. apply PaymentType_objects_get_Ok. eassumption. }
  destruct (string_related_Ok _ OrderStatus_objects_get status_name
              (status o) st) as [s Hs].
  { intros pk Hpk. destruct (found _ _ _ (@status_exists st Hok o pk Ho Hpk)).
    eexists. apply OrderStatus_objects_get_Ok. eassumption. }
  destruct (mapM_readers_exists _ _
              (fun l : Z * Z => Product_objects_get (snd l))
              (fun _ _ => True)
              (filter (fun l => fst l =? order_id o) (Order_products_table st))
              st) as [products [Hproducts _]].
  { intros l Hl. apply filter_In in Hl as [Hl _].
    destruct (found _ _ _ (@linked_product_exists st Hok l Hl)) as [x Hx].
    exists x. split; [apply Product_objects_get_Ok; exact Hx | exact I]. }
  eexists. split.
  - unfold OrderSerializer_data, user_profile.
    rewrite (bind_Ok _ _ _ _ st profile st)
      by (rewrite (bind_Ok _ _ _ _ st _ st) by reflexivity;
          rewrite Hprofile; reflexivity).
    rewrite (bind_Ok _ _ _ _ _ _ _ Hd), (bind_Ok _ _ _ _ _ _ _ Hp),
      (bind_Ok _ _ _ _ _ _ _ Hs).
    unfold order_products_all.
    rewrite (bind_Ok _ _ _ _ st products st)
      by (rewrite (bind_Ok _ _ _ _ st _ st) by reflexivity; exact Hproducts).
    rewrite (bind_Ok _ _ _ _ st _ st
               (mapM_readers_Ok _ _ _ (rendered st) _ st
                  (fun a _ => ProductSerializer_data_run st a))).
    reflexivity.
  - repeat split. exists profile. split; [exact Hprofile | reflexivity].
Qed.

Lemma Forall2_map_eq A B C (f : A -> C) (g : B -> C) (P : A -> B -> Prop) l bs :
  (forall a b, P a b -> g b = f a) ->
  Forall2 P l bs -> map g bs = map f l.
Proof.
  intros H. induction 1 as [|a b l bs HP _ IH]; cbn; [reflexivity|].
  rewrite (H a b HP), IH. reflexivity.
Qed.

Lemma StronglySorted_map A B (f : A -> B) (R : B -> B -> Prop) l :
  StronglySorted (fun a b => R (f a) (f b)) l -> StronglySorted R (map f l).
Proof.
  induction 1 as [|x l Hs IH Hall]; cbn; constructor; auto.
  apply Forall_map. exact Hall.
Qed.

Lemma readonly_OrderSerializer_data o : readonly (OrderSerializer_data o).
Proof.
  unfold OrderSerializer_data, user_profile, string_related,
    order_products_all, DeliveryType_objects_get, PaymentType_objects_get,
    OrderStatus_objects_get, Product_objects_get, ProductSerializer_data,
    ProductSerializer_get_reviews, ProductSerializer_get_rating,
    product_reviews.
  readonly_tac.
Qed.

(** A list is not rendered when one of its elements cannot be. *)
Lemma mapM_readers_raise A B (f : A -> M B) l st a :
  (forall x, readonly (f x)) ->
  In a l -> (exists e, fst (f a st) = Raise e) ->
  exists e, fst (mapM f l st) = Raise e.
Proof.
  intros Hf Hin [e He]. induction l as [|x l IH]; [contradiction|].
  cbn [mapM]. unfold bind at 1.
  pose proof (Hf x st) as Hx.
  destruct (f x st) as [[b|e'] st1] eqn:E; cbn [snd] in Hx; subst st1.
  - destruct Hin as [->|Hin]; [rewrite E in He; discriminate He|].
    destruct (IH Hin) as [e1 He1]. unfold bind.
    destruct (mapM f l st) as [[bs|e2] st2]; cbn [fst] in He1;
      [discriminate He1|].
    eexists; reflexivity.
  - eexists; reflexivity.
Qed.

Lemma OrderSerializer_data_without_profile st o :
  find (fun p => profile_user p =? order_user o) (UserProfile_table st) = None ->
  OrderSerializer_data o st = (Raise RelatedObjectDoesNotExist, st).
Proof.
  intros H. unfold OrderSerializer_data, user_profile.
  rewrite (bind_Raise _ _ _ _ st RelatedObjectDoesNotExist st); [reflexivity|].
  rewrite (bind_Ok _ _ _ _ st _ st) by reflexivity.
  rewrite H. reflexivity.
Qed.

(** C10, as the code has it.  The order list.  [OrderAPIView.get] gives
    every requesting user the same outcome.  On a store whose order tables
    have referential integrity the answer is 200 with one rendered order
    per row of the order table, whoever owns it, in descending order of
    creation time.  On a store that holds an order whose owner has no
    profile, no user is answered: the request ends in an exception. *)
Theorem order_list_is_global :
  forall st user1 user2,
    OrderAPIView.get user1 st = OrderAPIView.get user2 st
    /\ (Orders_renderable st ->
        exists orders rendered,
          OrderAPIView.get user1 st
          = (Ok {| data := OrdersBody rendered; status_code := HTTP_200_OK |},
             st)
          /\ Permutation orders (Order_table st)
          /\ Forall2 (renders st) orders rendered
          /\ StronglySorted (fun a b => b <= a) (map out_createdAt rendered))
    /\ (forall o,
           In o (Order_table st) ->
           find (fun p => profile_user p =? order_user o)
                (UserProfile_table st) = None ->
           exists e, fst (OrderAPIView.get user1 st) = Raise e).
Proof.
  intros st user1 user2. split; [reflexivity|].
  set (orders := sort_by (fun a b => createdAt b <=? createdAt a)
                         (Order_table st)).
  assert (Hperm : Permutation orders (Order_table st))
    by apply sort_by_Permutation.
  assert (Hall_orders : Order_objects_all st = (Ok orders, st))
    by (unfold Order_objects_all;
        rewrite (bind_Ok _ _ _ _ st _ st) by reflexivity; reflexivity).
  split.
  - intros Hok.
    destruct (mapM_readers_exists _ _ OrderSerializer_data (renders st)
                orders st)
      as [rendered [Hrendered Hall]].
    { intros o Ho. apply OrderSerializer_data_Ok; [exact Hok|].
      apply (Permutation_in _ Hperm Ho). }
    exists orders, rendered.
    split; [|split; [exact Hperm | split; [exact Hall|]]].
    + unfold OrderAPIView.get.
      rewrite (bind_Ok _ _ _ _ _ _ _ Hall_orders).
      rewrite (bind_Ok _ _ _ _ _ _ _ Hrendered). reflexivity.
    + rewrite (Forall2_map_eq _ _ _ createdAt out_createdAt _ _ _
                 (fun a b H => proj1 (proj2 H)) Hall).
      apply StronglySorted_map.
      eapply StronglySorted_impl; [|apply sort_by_StronglySorted].
      * intros a b H. apply Z.leb_le. exact H.
      * intros x y H. apply Z.leb_le. apply Z.leb_gt in H. lia.
      * intros x y z Hxy Hyz. apply Z.leb_le.
        apply Z.leb_le in Hxy, Hyz. lia.
  - intros o Ho Hprofile.
    destruct (mapM_readers_raise _ _ OrderSerializer_data orders st o
                readonly_OrderSerializer_data
                (Permutation_in _ (Permutation_sym Hperm) Ho))
      as [e He].
    { eexists. rewrite (OrderSerializer_data_without_profile _ _ Hprofile).
      reflexivity. }
    exists e. unfold OrderAPIView.get.
    rewrite (bind_Ok _ _ _ _ _ _ _ Hall_orders).
    unfold bind. destruct (mapM OrderSerializer_data orders st) as [[r|e'] st1];
      cbn [fst] in He; [discriminate He|].
    cbn [fst]. congruence.
Qed.

(** C10, as written, fails on a store that the API itself brings about:
    once a user without profile has posted an order (a request that ends
    in an exception after the order was saved), the order list is returned
    to no user. *)
Lemma order_list_not_returned :
  ~ (forall st user,
        exists rendered,
          fst (OrderAPIView.get user st)
          = Ok {| data := OrdersBody rendered; status_code := HTTP_200_OK |}
          /\ List.length rendered = List.length (Order_table st)).
Proof.
  intros H.
  destruct (H (snd (dispatch (OrderAPIView.post 12 [] 3000) sample_store)) 10)
    as [rendered [Hget _]].
  vm_compute in Hget. discriminate Hget.
Qed.

Lemma sample_store_renderable : Orders_renderable sample_store.
Proof.
  constructor; cbn.
  - intros o [<-|[<-|[]]]; cbn; discriminate.
  - intros o pk [<-|[<-|[]]] [= <-]; cbn; discriminate.
  - intros o pk [<-|[<-|[]]] [= <-]; cbn; discriminate.
  - intros o pk [<-|[<-|[]]] [= <-]; cbn; discriminate.
  - intros l [<-|[<-|[]]]; cbn; discriminate.
Qed.

Lemma order_list_is_global_witness :
  exists orders rendered,
    OrderAPIView.get 10 sample_store
    = (Ok {| data := OrdersBody rendered; status_code := HTTP_200_OK |},
       sample_store)
    /\ Permutation orders (Order_table sample_store)
    /\ Forall2 (renders sample_store) orders rendered
    /\ StronglySorted (fun a b => b <= a) (map out_createdAt rendered).
Proof.
  exact (proj1 (proj2 (order_list_is_global sample_store 10 11))
               sample_store_renderable).
Defined.

(** ** Integrity is an invariant of the cart requests *)

Lemma empty_store_wf : Store_wf empty_store.
Proof. constructor; cbn; try contradiction; constructor. Qed.

Lemma NoDup_map_filter A B (f : A -> B) (P : A -> bool) l :
  NoDup (map f l) -> NoDup (map f (filter P l)).
Proof.
  induction l as [|a l IH]; cbn; intros Hnd; [constructor|].
  inversion Hnd as [|? ? Hnotin Hnd']; subst.
  destruct (P a); cbn; [constructor|]; auto.
  intros Hin. apply Hnotin. apply in_map_iff in Hin as [j [Hj Hin]].
  apply in_map_iff. exists j. split; [exact Hj|].
  apply filter_In in Hin as [Hin _]; exact Hin.
Qed.

Lemma remove_item_wf st i :
  Store_wf st ->
  Store_wf (with_CartItem
              (filter (fun r => negb (item_id r =? item_id i))
                      (CartItem_table st))
              (CartItem_seq st) st).
Proof.
  intros [H1 H2 H3 H4 H5 H6 H7].
  assert (Hsub : forall j P, In j (filter P (CartItem_table st)) ->
                             In j (CartItem_table st))
    by (intros j P Hj; apply filter_In in Hj as [Hj _]; exact Hj).
  constructor; cbn; eauto using NoDup_map_filter.
Qed.

Lemma post_wf st user request :
  Store_wf st -> Store_wf (snd (BasketAPIView.post user request st)).
Proof.
  intros Hwf. unfold BasketAPIView.post.
  destruct (CartItemSerializer_validate request) as [[pid c]|] eqn:Hval;
    [|exact Hwf].
  assert (Hc : 1 <= c).
  { unfold CartItemSerializer_validate in Hval.
    destruct (data_id request), (data_count request) as [c'|];
      try discriminate.
    destruct (1 <=? c') eqn:E; [|discriminate].
    injection Hval as _ <-. apply Z.leb_le; exact E. }
  destruct (find (fun p => product_id p =? pid) (Product_table st))
    as [product|] eqn:Hfind.
  - assert (Hreq : request = {| data_id := Some pid; data_count := Some c |}).
    { unfold CartItemSerializer_validate in Hval.
      destruct request as [[i|] [c'|]]; cbn in Hval; try discriminate.
      destruct (1 <=? c'); [|discriminate]. injection Hval as -> ->.
      reflexivity. }
    destruct (Z_le_gt_dec (count_after st user pid c) INTEGER_max)
      as [Hrange|Hrange].
    + destruct (post_added st user pid c product Hwf Hfind Hc Hrange)
        as [lines [Hpost _]].
      unfold BasketAPIView.post in Hpost. rewrite <- Hreq, Hval in Hpost.
      rewrite Hpost. cbn [snd].
      apply added_wf; auto. apply (find_product_exists _ _ _ Hfind).
    + pose proof (post_over st user pid c product Hwf Hfind Hc
                    ltac:(lia)) as Hpost.
      unfold BasketAPIView.post in Hpost. rewrite <- Hreq, Hval in Hpost.
      rewrite Hpost. cbn [snd]. apply with_cart_for_wf; exact Hwf.
  - unfold try_or_return.
    rewrite (Product_objects_get_None _ _ Hfind). exact Hwf.
Qed.

Lemma delete_wf st user request :
  Store_wf st -> Store_wf (snd (BasketAPIView.delete user request st)).
Proof.
  intros Hwf. unfold BasketAPIView.delete, try_or_return.
  destruct (find (fun c => cart_user c =? user) (Cart_table st))
    as [cart|] eqn:Hcart.
  2:{ rewrite (Cart_objects_get_None _ _ Hcart). exact Hwf. }
  rewrite (Cart_objects_get_Ok _ _ _ Hcart).
  destruct (BasketAPIView.delete_id request) as [pid|]; [|exact Hwf].
  destruct (find (fun p => product_id p =? pid) (Product_table st))
    as [product|] eqn:Hproduct.
  2:{ rewrite (Product_objects_get_None _ _ Hproduct). exact Hwf. }
  rewrite (Product_objects_get_Ok _ _ _ Hproduct).
  rewrite (bind_Ok _ _ _ _ st _ st) by reflexivity.
  assert (Hfinish : forall st',
             Store_wf st' ->
             Store_wf (snd ((lines <- CartGETSerializer_data cart ;;
                             ret {| data := CartBody lines;
                                    status_code := HTTP_200_OK |}) st'))).
  { intros st' Hwf'.
    rewrite (readonly_bind _ _ _ _ (readonly_CartGETSerializer_data cart)
               (fun a => readonly_ret _ _) st').
    exact Hwf'. }
  destruct (first _) as [cart_item|] eqn:Hfirst; [|apply Hfinish; exact Hwf].
  pose proof (cart_item_in_table st cart product cart_item Hfirst) as Hin.
  destruct (_ <? 0) eqn:Hneg; [exact Hwf|].
  destruct (_ =? 0) eqn:Hzero.
  - unfold CartItem_delete. rewrite bind_modify.
    apply Hfinish. apply remove_item_wf; exact Hwf.
  - apply Z.ltb_ge in Hneg. apply Z.eqb_neq in Hzero.
    match goal with
    | |- context [CartItem_save ?i] => set (item := i)
    end.
    destruct (Z_le_gt_dec (item_count item) INTEGER_max) as [Hrange|Hrange].
    + assert (Hcount : 0 <= item_count item <= INTEGER_max)
        by (split; [subst item; cbn [item_count with_count]; lia
                   | exact Hrange]).
      rewrite (bind_Ok _ _ _ _ _ _ _ (CartItem_save_Ok item st Hcount)).
      apply Hfinish. subst item. cbn [item_id with_count].
      replace (existsb _ _) with true
        by (symmetry; apply existsb_exists; exists cart_item;
            split; [exact Hin | apply Z.eqb_refl]).
      apply (replace_item_wf st cart_item _ Hwf Hin). lia.
    + rewrite (bind_Raise _ _ _ _ _ _ _
                 (CartItem_save_over item st ltac:(lia))).
      exact Hwf.
Qed.

(** ** The two defects, for every store *)

(** Without parameters the catalog queryset is the whole product table,
    archived rows included. *)
Lemma catalog_queryset_keeps_archived st p :
  In p (Product_table st) -> archived p = true ->
  exists queryset,
    (all <- CatalogAPIView.get_queryset ;;
     CatalogAPIView.filter_queryset no_parameters all) st
    = (Ok queryset, st)
    /\ In p queryset.
Proof.
  intros Hin _. exists (Product_table st). split; [reflexivity | exact Hin].
Qed.

Lemma order_products_add_products o p st :
  Product_table (snd (order_products_add o p st)) = Product_table st.
Proof.
  unfold order_products_add, modify. cbn [snd].
  destruct (existsb _ _); reflexivity.
Qed.

(** The loop of [OrderAPIView.post] over a list with an unknown product id
    ends in [Product.DoesNotExist]. *)
Lemma attach_unknown_product_raises order request :
  Forall (fun d => pd_id d <> None) request ->
  forall st0 st,
    Product_table st = Product_table st0 ->
    Exists (fun d => exists i,
                pd_id d = Some i
                /\ find (fun p => product_id p =? i) (Product_table st0) = None)
           request ->
    exists st',
      forM_ request (fun product_data =>
        id <- match pd_id product_data with
              | Some i => ret i
              | None => raise KeyError
              end ;;
        product <- Product_objects_get id ;;
        order_products_add order product) st
      = (Raise Product_DoesNotExist, st').
Proof.
  induction 1 as [|d request Hd Hall IH]; intros st0 st Hst Hex.
  - inversion Hex.
  - cbn [forM_].
    destruct (pd_id d) as [i|] eqn:Hi; [|contradiction].
    destruct (find (fun p => product_id p =? i) (Product_table st))
      as [product|] eqn:Hfind.
    + rewrite (bind_Ok _ _ _ _ st tt (snd (order_products_add order product st))).
      * apply (IH st0).
        -- rewrite order_products_add_products. exact Hst.
        -- inversion Hex as [? ? [j [Hj Hnone]]|]; subst; [|assumption].
           rewrite Hi in Hj. injection Hj as <-.
           rewrite <- Hst, Hfind in Hnone. discriminate.
      * rewrite (bind_Ok _ _ _ _ st i st) by reflexivity.
        rewrite (bind_Ok _ _ _ _ st product st)
          by (apply Product_objects_get_Ok; exact Hfind).
        unfold order_products_add, modify. destruct (existsb _ _); reflexivity.
    + exists st. apply bind_Raise.
      rewrite (bind_Ok _ _ _ _ st i st) by reflexivity.
      apply bind_Raise. apply Product_objects_get_None; exact Hfind.
Qed.

(** Whatever the store, an order request that names an unknown product
    (each element carrying an id) is not answered at all: the exception
    leaves [dispatch]. *)
Lemma post_unknown_product_raises st user request now :
  Forall (fun d => pd_id d <> None) request ->
  Exists (fun d => exists i,
              pd_id d = Some i
              /\ find (fun p => product_id p =? i) (Product_table st) = None)
         request ->
  fst (dispatch (OrderAPIView.post user request now) st)
  = Raise Product_DoesNotExist.
Proof.
  intros Hall Hex. unfold dispatch, try_except, OrderAPIView.post.
  unfold Order_objects_create.
  rewrite (bind_Ok _ _ _ _ st _ _
             (bind_Ok _ _ _ _ st (Order_seq st) st eq_refl)).
  match goal with
  | |- context [bind (forM_ request ?body) ?k ?s] =>
      destruct (attach_unknown_product_raises
                  {| order_id := Order_seq st; createdAt := now;
                     order_user := user; status := None;
                     deliveryType := None; paymentType := None;
                     totalCost := 0 |}
                  request Hall st s eq_refl Hex) as [st' Hloop]
  end.
  rewrite (bind_Raise _ _ _ _ _ _ _ Hloop). reflexivity.
Qed.

(** * Further properties *)

(** ** The cart: requests that are refused *)

(** X1. [BasketAPIView.post] answers 400 and leaves the whole store as it
    was, without even creating the user's cart, when the body lacks [id] or
    [count] or has a count below 1 (serializer errors), and when the body
    is valid but no product has the id ("Invalid product ID"; a 400, not a
    404). *)
Theorem post_refused_changes_nothing :
  forall st user request,
    (data_id request = None
     \/ data_count request = None
     \/ (exists c, data_count request = Some c /\ c < 1)
     -> BasketAPIView.post user request st
        = (Ok {| data := SerializerErrors;
                 status_code := HTTP_400_BAD_REQUEST |}, st))
    /\ (forall pid c,
           data_id request = Some pid -> data_count request = Some c ->
           1 <= c ->
           find (fun p => product_id p =? pid) (Product_table st) = None ->
           BasketAPIView.post user request st
           = (Ok {| data := ErrorBody "Invalid product ID";
                    status_code := HTTP_400_BAD_REQUEST |}, st)).
Proof.
  intros st user request. split.
  - intros H. unfold BasketAPIView.post, CartItemSerializer_validate.
    destruct (data_id request) as [i|], (data_count request) as [c|];
      try reflexivity.
    + destruct H as [H|[H|[c' [[= <-] Hc]]]]; try discriminate.
      replace (1 <=? c) with false by (symmetry; apply Z.leb_gt; lia).
      reflexivity.
  - intros pid c Hid Hcount Hc Hfind.
    unfold BasketAPIView.post, CartItemSerializer_validate.
    rewrite Hid, Hcount.
    replace (1 <=? c) with true by (symmetry; apply Z.leb_le; lia).
    unfold try_or_return.
    rewrite (Product_objects_get_None _ _ Hfind). reflexivity.
Qed.

Lemma post_refused_changes_nothing_witness :
  BasketAPIView.post 11 {| data_id := Some 7; data_count := Some 0 |}
                     sample_store
  = (Ok {| data := SerializerErrors; status_code := HTTP_400_BAD_REQUEST |},
     sample_store)
  /\ BasketAPIView.post 11 {| data_id := Some 99; data_count := Some 2 |}
                        sample_store
     = (Ok {| data := ErrorBody "Invalid product ID";
              status_code := HTTP_400_BAD_REQUEST |}, sample_store).
Proof.
  split.
  - apply (proj1 (post_refused_changes_nothing sample_store 11
                    {| data_id := Some 7; data_count := Some 0 |})).
    right; right. exists 0. split; [reflexivity | lia].
  - apply (proj2 (post_refused_changes_nothing sample_store 11
                    {| data_id := Some 99; data_count := Some 2 |})
                 99 2 eq_refl eq_refl); [lia | reflexivity].
Defined.

(** X2. [BasketAPIView.delete] leaves the whole store as it was when it
    refuses: 404 "Cart not found." for a user without a cart (whatever the
    body), 400 "Product ID is required." for a body without [id], and 404
    "Product not found." for an unknown product id. *)
Theorem delete_refused_changes_nothing :
  forall st user request,
    (find (fun c => cart_user c =? user) (Cart_table st) = None ->
     BasketAPIView.delete user request st
     = (Ok {| data := ErrorBody "Cart not found.";
              status_code := HTTP_404_NOT_FOUND |}, st))
    /\ (forall cart,
           find (fun c => cart_user c =? user) (Cart_table st) = Some cart ->
           (BasketAPIView.delete_id request = None ->
            BasketAPIView.delete user request st
            = (Ok {| data := ErrorBody "Product ID is required.";
                     status_code := HTTP_400_BAD_REQUEST |}, st))
           /\ (forall pid,
                  BasketAPIView.delete_id request = Some pid ->
                  find (fun p => product_id p =? pid) (Product_table st)
                  = None ->
                  BasketAPIView.delete user request st
                  = (Ok {| data := ErrorBody "Product not found.";
                           status_code := HTTP_404_NOT_FOUND |}, st))).
Proof.
  intros st user request. split.
  - intros Hcart. unfold BasketAPIView.delete, try_or_return.
    rewrite (Cart_objects_get_None _ _ Hcart). reflexivity.
  - intros cart Hcart. split.
    + intros Hid. unfold BasketAPIView.delete, try_or_return.
      rewrite (Cart_objects_get_Ok _ _ _ Hcart), Hid. reflexivity.
    + intros pid Hid Hfind. unfold BasketAPIView.delete, try_or_return.
      rewrite (Cart_objects_get_Ok _ _ _ Hcart), Hid.
      rewrite (Product_objects_get_None _ _ Hfind). reflexivity.
Qed.

Lemma delete_refused_changes_nothing_witness :
  BasketAPIView.delete 11 {| BasketAPIView.delete_id := Some 9;
                             BasketAPIView.delete_count := None |}
                       sample_store
  = (Ok {| data := ErrorBody "Cart not found.";
           status_code := HTTP_404_NOT_FOUND |}, sample_store).
Proof.
  exact (proj1 (delete_refused_changes_nothing sample_store 11 _) eq_refl).
Defined.

(** X3. Removing a product that the cart does not hold is a successful
    no-op: on a store with integrity, for a user with a cart and an
    existing product without line item in that cart,
    [BasketAPIView.delete] is answered 200 with the cart view, one line per
    line item of the cart, and leaves the store as it was, whatever count
    was sent. *)
Theorem delete_absent_item_is_noop :
  forall st user request pid cart product,
    Store_wf st ->
    find (fun c => cart_user c =? user) (Cart_table st) = Some cart ->
    BasketAPIView.delete_id request = Some pid ->
    find (fun p => product_id p =? pid) (Product_table st) = Some product ->
    line_items st user pid = [] ->
    exists lines,
      BasketAPIView.delete user request st
      = (Ok {| data := CartBody lines; status_code := HTTP_200_OK |}, st)
      /\ map (fun l => (product_id (line_product l), line_count l)) lines
         = map (fun i => (item_product i, item_count i))
               (filter (in_cart cart) (CartItem_table st)).
Proof.
  intros st user request pid cart product Hwf Hcart Hid Hfind Hnone.
  destruct (CartGETSerializer_data_Ok st cart (wf_item_product Hwf)
              (wf_item_unique Hwf)) as [lines [Hview Hlines]].
  exists lines. split; [|exact Hlines].
  unfold BasketAPIView.delete, try_or_return.
  rewrite (Cart_objects_get_Ok _ _ _ Hcart), Hid.
  rewrite (Product_objects_get_Ok _ _ _ Hfind).
  rewrite (bind_Ok _ _ _ _ st _ st) by reflexivity.
  replace (filter (of_product product)
                  (filter (in_cart cart) (CartItem_table st)))
    with (line_items st user pid).
  - rewrite Hnone. cbn [first hd_error].
    rewrite (bind_Ok _ _ _ _ _ _ _ Hview). reflexivity.
  - unfold line_items. rewrite Hcart, filter_filter.
    apply find_some in Hfind as [_ Hp]. apply Z.eqb_eq in Hp.
    unfold in_cart, of_product. rewrite Hp. reflexivity.
Qed.

Lemma delete_absent_item_is_noop_witness :
  exists lines,
    BasketAPIView.delete 10 {| BasketAPIView.delete_id := Some 7;
                               BasketAPIView.delete_count := Some 3 |}
                         sample_store
    = (Ok {| data := CartBody lines; status_code := HTTP_200_OK |},
       sample_store)
    /\ map (fun l => (product_id (line_product l), line_count l)) lines
       = [(9, 4)].
Proof.
  exact (delete_absent_item_is_noop sample_store 10
           {| BasketAPIView.delete_id := Some 7;
              BasketAPIView.delete_count := Some 3 |} 7
           {| cart_id := 1; cart_user := 10 |} (sample_product 7 150 false)
           sample_store_wf eq_refl eq_refl eq_refl eq_refl).
Defined.

(** ** The cart: viewing *)

Lemma post_steps st user pid c product :
  Store_wf st ->
  find (fun p => product_id p =? pid) (Product_table st) = Some product ->
  1 <= c ->
  count_after st user pid c <= INTEGER_max ->
  BasketAPIView.post user {| data_id := Some pid; data_count := Some c |} st
  = (lines <- CartGETSerializer_data (cart_for st user) ;;
     ret {| data := CartBody lines; status_code := HTTP_201_CREATED |})
      (added st user pid c).
Proof.
  intros Hwf Hfind Hc Hrange.
  destruct (find_product_exists st pid product Hfind) as [Hpid _].
  unfold BasketAPIView.post, CartItemSerializer_validate.
  cbn [data_id data_count].
  replace (1 <=? c) with true by (symmetry; apply Z.leb_le; exact Hc).
  rewrite (try_or_return_Ok _ _ _ _ _ _ st product st)
    by (apply Product_objects_get_Ok; exact Hfind).
  destruct (Cart_objects_get_or_create_run st user) as [created Hcart].
  rewrite (bind_Ok _ _ _ _ _ _ _ Hcart). cbn [fst].
  rewrite (bind_Ok _ _ _ _ _ _ _
             (add_step st user pid c product Hwf Hpid ltac:(lia) Hrange)).
  reflexivity.
Qed.

(** X4. [BasketAPIView.get] never writes.  For a user without a cart it
    ends in the unhandled [Cart.DoesNotExist] (the cart is created only by
    the first POST); on a store with integrity, for a user with a cart, it
    is answered 200 with one line per line item of the cart, carrying that
    item's product and count, and no line has a count below 1. *)
Theorem basket_get_lists_cart :
  forall st user,
    snd (BasketAPIView.get user st) = st
    /\ (find (fun c => cart_user c =? user) (Cart_table st) = None ->
        fst (BasketAPIView.get user st) = Raise Cart_DoesNotExist)
    /\ (forall cart,
           Store_wf st ->
           find (fun c => cart_user c =? user) (Cart_table st) = Some cart ->
           exists lines,
             fst (BasketAPIView.get user st)
             = Ok {| data := CartBody lines; status_code := HTTP_200_OK |}
             /\ map (fun l => (product_id (line_product l), line_count l))
                    lines
                = map (fun i => (item_product i, item_count i))
                      (filter (in_cart cart) (CartItem_table st))
             /\ Forall (fun l => 1 <= line_count l) lines).
Proof.
  intros st user. split; [|split].
  - apply (readonly_bind _ _ (Cart_objects_get user)).
    + unfold Cart_objects_get. readonly_tac.
    + intros cart. apply readonly_bind;
        [apply readonly_CartGETSerializer_data | intros; apply readonly_ret].
  - intros Hcart. unfold BasketAPIView.get.
    rewrite (bind_Raise _ _ _ _ _ _ _ (Cart_objects_get_None _ _ Hcart)).
    reflexivity.
  - intros cart Hwf Hcart.
    destruct (CartGETSerializer_data_Ok st cart (wf_item_product Hwf)
                (wf_item_unique Hwf)) as [lines [Hview Hlines]].
    exists lines. split; [|split; [exact Hlines|]].
    + unfold BasketAPIView.get.
      rewrite (bind_Ok _ _ _ _ _ _ _ (Cart_objects_get_Ok _ _ _ Hcart)).
      rewrite (bind_Ok _ _ _ _ _ _ _ Hview). reflexivity.
    + apply Forall_forall. intros l Hl.
      assert (Hin : In (product_id (line_product l), line_count l)
                       (map (fun i => (item_product i, item_count i))
                            (filter (in_cart cart) (CartItem_table st)))).
      { rewrite <- Hlines.
        apply (in_map (fun l => (product_id (line_product l), line_count l))).
        exact Hl. }
      apply in_map_iff in Hin as [i [Hi Hin]].
      apply filter_In in Hin as [Hin _].
      injection Hi as _ <-. apply (wf_item_count Hwf i Hin).
Qed.

Lemma basket_get_lists_cart_witness :
  fst (BasketAPIView.get 11 sample_store) = Raise Cart_DoesNotExist
  /\ exists lines,
       fst (BasketAPIView.get 10 sample_store)
       = Ok {| data := CartBody lines; status_code := HTTP_200_OK |}
       /\ map (fun l => (product_id (line_product l), line_count l)) lines
          = [(9, 4)]
       /\ Forall (fun l => 1 <= line_count l) lines.
Proof.
  split.
  - exact (proj1 (proj2 (basket_get_lists_cart sample_store 11)) eq_refl).
  - exact (proj2 (proj2 (basket_get_lists_cart sample_store 10))
                 {| cart_id := 1; cart_user := 10 |} sample_store_wf eq_refl).
Defined.

(** X5. The answer to an accepted [BasketAPIView.post] is the cart as a
    following [BasketAPIView.get] shows it: on a store with integrity, for
    an existing product and a count of at least 1 that the count column can
    take (the count the line would reach is at most [INTEGER_max]), the
    POST is answered 201 with some lines and the GET on the resulting store
    is answered 200 with the same lines, the line of the product carrying
    the new count; in particular the GET that failed for a user without a
    cart succeeds after that user's first POST.  Where the count the line
    would reach exceeds [INTEGER_max] the POST is not answered: it ends in
    [OverflowError]. *)
Theorem basket_get_after_post :
  forall st user pid c product,
    Store_wf st ->
    find (fun p => product_id p =? pid) (Product_table st) = Some product ->
    1 <= c ->
    let added_to := BasketAPIView.post
                      user {| data_id := Some pid; data_count := Some c |} st in
    (count_after st user pid c <= INTEGER_max ->
     exists lines,
       fst added_to
       = Ok {| data := CartBody lines; status_code := HTTP_201_CREATED |}
       /\ BasketAPIView.get user (snd added_to)
          = (Ok {| data := CartBody lines; status_code := HTTP_200_OK |},
             snd added_to)
       /\ In (pid, count_after st user pid c)
             (map (fun l => (product_id (line_product l), line_count l))
                  lines))
    /\ (INTEGER_max < count_after st user pid c ->
        fst added_to = Raise OverflowError).
Proof.
  intros st user pid c product Hwf Hfind Hc added_to.
  split;
    [|intros Hover; unfold added_to;
      rewrite (post_over st user pid c product Hwf Hfind Hc Hover);
      reflexivity].
  intros Hrange.
  pose proof (post_steps st user pid c product Hwf Hfind Hc Hrange) as Hsteps.
  fold added_to in Hsteps.
  pose proof (added_wf st user pid c Hwf
                (proj2 (find_product_exists _ _ _ Hfind)) Hc) as Hwf'.
  destruct (CartGETSerializer_data_Ok (added st user pid c)
              (cart_for st user) (wf_item_product Hwf') (wf_item_unique Hwf'))
    as [lines [Hview Hlines]].
  rewrite (bind_Ok _ _ _ _ _ _ _ Hview) in Hsteps.
  exists lines. rewrite Hsteps. cbn [fst snd ret].
  split; [reflexivity|]. split.
  - unfold BasketAPIView.get.
    rewrite (bind_Ok _ _ _ _ _ _ _
               (Cart_objects_get_Ok _ _ _ (added_find_cart st user pid c))).
    rewrite (bind_Ok _ _ _ _ _ _ _ Hview). reflexivity.
  - rewrite Hlines.
    pose proof (line_items_added st user pid c pid Hwf) as Hline.
    rewrite Z.eqb_refl in Hline.
    rewrite (line_items_after st _ user pid (added_find_cart st user pid c))
      in Hline.
    set (items := filter (in_cart (cart_for st user))
                         (CartItem_table (added st user pid c))) in *.
    assert (Hin : forall i, In i (filter (fun i => item_product i =? pid) items)
                            -> In (pid, item_count i)
                                  (map (fun i => (item_product i, item_count i))
                                       items)).
    { intros i Hi. apply filter_In in Hi as [Hi Hp]. apply Z.eqb_eq in Hp.
      rewrite <- Hp.
      apply (in_map (fun i => (item_product i, item_count i))). exact Hi. }
    unfold count_after.
    destruct (line_items st user pid) as [|i l]; rewrite Hline in Hin.
    + apply (Hin _ (or_introl eq_refl)).
    + apply (Hin _ (or_introl eq_refl)).
Qed.

Lemma basket_get_after_post_witness :
  let added_to := BasketAPIView.post
                    11 {| data_id := Some 7; data_count := Some 2 |}
                    sample_store in
  exists lines,
    fst added_to
    = Ok {| data := CartBody lines; status_code := HTTP_201_CREATED |}
    /\ BasketAPIView.get 11 (snd added_to)
       = (Ok {| data := CartBody lines; status_code := HTTP_200_OK |},
          snd added_to)
    /\ In (7, 2)
          (map (fun l => (product_id (line_product l), line_count l)) lines).
Proof.
  exact (proj1 (basket_get_after_post sample_store 11 7 2
                  (sample_product 7 150 false) sample_store_wf eq_refl
                  ltac:(lia))
               ltac:(vm_compute; discriminate)).
Defined.

(** ** Integrity under every request *)

Lemma preserves_readonly A P (m : M A) : readonly m -> preserves P m.
Proof. intros Hm st HP. rewrite (Hm st). exact HP. Qed.

Lemma preserves_bind A B P (m : M A) (k : A -> M B) :
  preserves P m -> (forall a, preserves P (k a)) -> preserves P (bind m k).
Proof.
  intros Hm Hk st HP. unfold bind. specialize (Hm st HP).
  destruct (m st) as [[a|e] st1]; cbn in *; [apply Hk; exact Hm | exact Hm].
Qed.

Lemma preserves_try_except A P (m : M A) e (h : M A) :
  preserves P m -> preserves P h -> preserves P (try_except m e h).
Proof.
  intros Hm Hh st HP. unfold try_except. specialize (Hm st HP).
  destruct (m st) as [[a|e'] st1]; cbn in *; [exact Hm|].
  destruct (exn_eqb e' e); [apply Hh; exact Hm | exact Hm].
Qed.

Lemma preserves_try_or_return A B P (m : M A) e (h : M B) (k : A -> M B) :
  preserves P m -> preserves P h -> (forall a, preserves P (k a)) ->
  preserves P (try_or_return m e h k).
Proof.
  intros Hm Hh Hk st HP. unfold try_or_return. specialize (Hm st HP).
  destruct (m st) as [[a|e'] st1]; cbn in *; [apply Hk; exact Hm|].
  destruct (exn_eqb e' e); [apply Hh; exact Hm | exact Hm].
Qed.

Lemma preserves_forM_ A P (l : list A) (f : A -> M unit) :
  (forall a, preserves P (f a)) -> preserves P (forM_ l f).
Proof.
  intros Hf. induction l as [|a l IH]; cbn [forM_].
  - apply preserves_readonly, readonly_ret.
  - apply preserves_bind; [apply Hf | intros; exact IH].
Qed.

Lemma preserves_modify P (f : Store -> Store) :
  (forall st, P st -> P (f st)) -> preserves P (modify f).
Proof. intros Hf st HP. apply Hf; exact HP. Qed.

(** Writes to tables that the cart integrity does not mention. *)
Lemma Store_wf_frame st st' :
  CartItem_table st' = CartItem_table st ->
  CartItem_seq st' = CartItem_seq st ->
  Cart_table st' = Cart_table st ->
  Cart_seq st' = Cart_seq st ->
  (forall pid, (exists p, In p (Product_table st) /\ product_id p = pid) ->
               exists p, In p (Product_table st') /\ product_id p = pid) ->
  Store_wf st -> Store_wf st'.
Proof.
  intros Ht Hs Hc Hcs Hp [H1 H2 H3 H4 H5 H6 H7].
  constructor; rewrite ?Ht, ?Hs, ?Hc, ?Hcs; auto.
Qed.

Lemma preserves_Product_save p : preserves Store_wf (Product_save p).
Proof.
  apply preserves_modify. intros st Hwf. cbv zeta.
  destruct (existsb _ _).
  - apply (Store_wf_frame st); try reflexivity; [|exact Hwf].
    intros pid [x [Hx Hid]]. cbn [Product_table with_Product_table].
    exists (if product_id x =? product_id p then p else x). split.
    + apply (in_map (fun r => if product_id r =? product_id p then p else r)).
      exact Hx.
    + destruct (product_id x =? product_id p) eqn:E; [|exact Hid].
      apply Z.eqb_eq in E. congruence.
  - apply (Store_wf_frame st); try reflexivity; [|exact Hwf].
    intros pid [x [Hx Hid]]. exists x. split; [|exact Hid].
    cbn. apply in_or_app. left; exact Hx.
Qed.

Lemma preserves_unrelated (f : Store -> Store) :
  (forall st, CartItem_table (f st) = CartItem_table st) ->
  (forall st, CartItem_seq (f st) = CartItem_seq st) ->
  (forall st, Cart_table (f st) = Cart_table st) ->
  (forall st, Cart_seq (f st) = Cart_seq st) ->
  (forall st, Product_table (f st) = Product_table st) ->
  preserves Store_wf (modify f).
Proof.
  intros H1 H2 H3 H4 H5. apply preserves_modify. intros st.
  apply Store_wf_frame; auto. rewrite H5. auto.
Qed.

Ltac preserves_tac :=
  repeat match goal with
    | |- preserves _ (Product_save _) => apply preserves_Product_save
    | |- preserves _ (modify _) =>
        apply preserves_unrelated; intros; reflexivity
    | |- preserves _ (bind _ _) => apply preserves_bind; [|intros]
    | |- preserves _ (try_except _ _ _) => apply preserves_try_except
    | |- preserves _ (try_or_return _ _ _ _) =>
        apply preserves_try_or_return; [| |intros]
    | |- preserves _ (ret _) => apply preserves_readonly, readonly_ret
    | |- preserves _ (raise _) => apply preserves_readonly, readonly_raise
    | |- preserves _ (gets _) => apply preserves_readonly, readonly_gets
    | |- preserves _ (match ?x with _ => _ end) => destruct x
    end.

Lemma preserves_order_products_add o p :
  preserves Store_wf (order_products_add o p).
Proof.
  apply preserves_modify. intros st Hwf. cbv beta zeta.
  destruct (existsb _ _); [exact Hwf|].
  apply (Store_wf_frame st); try reflexivity; [|exact Hwf]. auto.
Qed.

Lemma preserves_Order_save o : preserves Store_wf (Order_save o).
Proof.
  apply preserves_modify. intros st Hwf. cbv beta zeta.
  destruct (existsb _ _);
    (apply (Store_wf_frame st); try reflexivity; [|exact Hwf]; auto).
Qed.

Lemma preserves_cart_items_delete_all cart :
  preserves Store_wf (cart_items_delete_all cart).
Proof.
  apply preserves_modify. intros st [H1 H2 H3 H4 H5 H6 H7].
  assert (Hsub : forall j P, In j (filter P (CartItem_table st)) ->
                             In j (CartItem_table st))
    by (intros j P Hj; apply filter_In in Hj as [Hj _]; exact Hj).
  constructor; cbn; eauto using NoDup_map_filter.
Qed.

Lemma readonly_CatalogAPIView_get GET : readonly (CatalogAPIView.get GET).
Proof.
  unfold CatalogAPIView.get, CatalogAPIView.get_queryset.
  apply readonly_bind; [apply readonly_gets|]. intros all.
  apply readonly_bind; [apply readonly_filter_queryset|]. intros queryset.
  destruct (Paginator.get_page _ _); [|apply readonly_raise].
  unfold ProductSerializer_data, ProductSerializer_get_reviews,
    ProductSerializer_get_rating, product_reviews.
  readonly_tac.
Qed.

Lemma readonly_ProductAPIView_retrieve pk :
  readonly (ProductAPIView_retrieve pk).
Proof.
  unfold ProductAPIView_retrieve, ProductAPIView.get_queryset,
    ProductDetailsSerializer_data, ProductDetailsSerializer_get_rating,
    product_reviews.
  readonly_tac.
Qed.

Lemma readonly_OrderAPIView_get user :
  readonly (dispatch (OrderAPIView.get user)).
Proof.
  unfold dispatch, OrderAPIView.get, Order_objects_all.
  apply readonly_try_except; [|apply readonly_ret].
  apply readonly_bind; [readonly_tac|]. intros orders.
  apply readonly_bind;
    [apply readonly_mapM; intros; apply readonly_OrderSerializer_data|].
  intros; apply readonly_ret.
Qed.

Lemma readonly_OrderDetailView_get pk : readonly (OrderDetailView_get pk).
Proof.
  unfold OrderDetailView_get.
  apply readonly_try_except; [|apply readonly_ret].
  apply readonly_bind; [unfold Order_objects_get; readonly_tac|]. intros o.
  apply readonly_bind; [apply readonly_OrderSerializer_data|].
  intros; apply readonly_ret.
Qed.

Lemma preserves_ReviewViewSet_create pk d now :
  preserves Store_wf (ReviewViewSet.create pk d now).
Proof.
  unfold ReviewViewSet.create, Review_save, update_product_fields,
    calculate_reviews_count, average_rating, product_reviews,
    Product_objects_get.
  preserves_tac.
Qed.

Lemma preserves_OrderAPIView_post user d now :
  preserves Store_wf (dispatch (OrderAPIView.post user d now)).
Proof.
  unfold dispatch, OrderAPIView.post, Order_objects_create.
  apply preserves_try_except;
    [|apply preserves_readonly, readonly_ret].
  apply preserves_bind; [preserves_tac|]. intros order.
  apply preserves_bind.
  { apply preserves_forM_. intros product_data.
    apply preserves_bind; [preserves_tac|]. intros id.
    apply preserves_bind;
      [apply preserves_readonly; unfold Product_objects_get; readonly_tac|].
    intros product. apply preserves_order_products_add. }
  intros _.
  unfold get_object_or_404, DeliveryType_objects_get, PaymentType_objects_get,
    OrderStatus_objects_get.
  apply preserves_bind; [preserves_tac|]. intros dt.
  apply preserves_bind; [preserves_tac|]. intros pt.
  apply preserves_bind; [preserves_tac|]. intros os.
  apply preserves_bind; [apply preserves_Order_save|]. intros _.
  apply preserves_bind;
    [apply preserves_readonly, readonly_OrderSerializer_data|].
  intros rendered.
  apply preserves_bind;
    [apply preserves_readonly; unfold user_cart, Cart_objects_get;
     readonly_tac|].
  intros cart.
  apply preserves_bind; [apply preserves_cart_items_delete_all|].
  intros; apply preserves_readonly, readonly_ret.
Qed.

Lemma preserves_OrderDetailView_post pk d :
  preserves Store_wf (OrderDetailView.post pk d).
Proof.
  unfold OrderDetailView.post, Order_objects_get, DeliveryType_objects_get,
    PaymentType_objects_get, OrderStatus_objects_get.
  apply preserves_try_or_return; [preserves_tac | preserves_tac |].
  intros order.
  apply preserves_bind; [preserves_tac|]. intros dt.
  apply preserves_bind; [preserves_tac|]. intros pt.
  apply preserves_bind; [preserves_tac|]. intros os.
  apply preserves_bind; [apply preserves_Order_save|]. intros _.
  preserves_tac.
Qed.

Lemma preserves_PaymentView_get pk : preserves Store_wf (PaymentView.get pk).
Proof.
  unfold PaymentView.get, Order_objects_get. preserves_tac.
Qed.

Lemma preserves_PaymentView_post pk : preserves Store_wf (PaymentView.post pk).
Proof.
  unfold PaymentView.post, Order_objects_get, OrderStatus_objects_get.
  apply preserves_bind; [preserves_tac|]. intros order_id.
  destruct (PaymentView.present order_id); [|preserves_tac].
  apply preserves_try_except; [|preserves_tac].
  apply preserves_bind; [preserves_tac|]. intros order.
  apply preserves_bind; [preserves_tac|]. intros os.
  apply preserves_bind; [apply preserves_Order_save|]. intros _.
  preserves_tac.
Qed.

(** X6. Integrity is an invariant of the API.  Every modelled request,
    whether it is answered or ends in an exception half way, leaves a store
    with integrity (unique primary keys below their sequences, line items
    pointing at existing carts and products, one line item per cart and
    product, counts of at least 1) when it started from one; hence so does
    every sequence of requests, and every sequence run from the empty
    store. *)
Theorem requests_keep_integrity :
  (forall st r, Store_wf st -> Store_wf (handle st r))
  /\ (forall requests st,
         Store_wf st -> Store_wf (fold_left handle requests st))
  /\ (forall requests, Store_wf (fold_left handle requests empty_store)).
Proof.
  assert (Hone : forall st r, Store_wf st -> Store_wf (handle st r)).
  { intros st r Hwf. destruct r; cbn [handle].
    - rewrite (proj1 (basket_get_lists_cart st user)). exact Hwf.
    - apply post_wf; exact Hwf.
    - apply delete_wf; exact Hwf.
    - rewrite readonly_CatalogAPIView_get. exact Hwf.
    - rewrite readonly_ProductAPIView_retrieve. exact Hwf.
    - apply preserves_ReviewViewSet_create; exact Hwf.
    - rewrite readonly_OrderAPIView_get. exact Hwf.
    - apply preserves_OrderAPIView_post; exact Hwf.
    - rewrite readonly_OrderDetailView_get. exact Hwf.
    - apply preserves_OrderDetailView_post; exact Hwf.
    - apply preserves_PaymentView_get; exact Hwf.
    - apply preserves_PaymentView_post; exact Hwf. }
  assert (Hall : forall requests st,
             Store_wf st -> Store_wf (fold_left handle requests st)).
  { induction requests as [|r requests IH]; intros st Hwf; cbn [fold_left].
    - exact Hwf.
    - apply IH, Hone, Hwf. }
  split; [exact Hone|]. split; [exact Hall|].
  intros requests. apply Hall, empty_store_wf.
Qed.

Lemma requests_keep_integrity_witness :
  Store_wf
    (fold_left handle
       [POST_basket 11 {| data_id := Some 7; data_count := Some 2 |};
        POST_orders 11 [{| pd_id := Some 7; pd_price := None;
                           pd_count := None |}] 3000;
        POST_order 3 sample_payload;
        POST_payment 3]
       sample_store).
Proof.
  exact (proj1 (proj2 requests_keep_integrity) _ sample_store sample_store_wf).
Defined.

(** ** Carts are private *)

Lemma find_app_nomatch A (f : A -> bool) l x :
  f x = false -> find f (l ++ [x]) = find f l.
Proof.
  intros Hx. induction l as [|a l IH]; cbn; [rewrite Hx; reflexivity|].
  destruct (f a); [reflexivity | exact IH].
Qed.

Lemma line_items_frame st st' other q :
  find (fun c => cart_user c =? other) (Cart_table st')
  = find (fun c => cart_user c =? other) (Cart_table st) ->
  (forall co,
      find (fun c => cart_user c =? other) (Cart_table st) = Some co ->
      filter (in_cart co) (CartItem_table st')
      = filter (in_cart co) (CartItem_table st)) ->
  line_items st' other q = line_items st other q.
Proof.
  intros Hfind Hrows. unfold line_items. rewrite Hfind.
  destruct (find _ (Cart_table st)) as [co|]; [|reflexivity].
  rewrite <- !filter_filter. fold (in_cart co).
  rewrite (Hrows co eq_refl). reflexivity.
Qed.

(** The rows of a cart are untouched by the removal or the rewriting of a
    row of another cart. *)
Lemma other_cart_rows_kept st co i :
  Store_wf st -> In i (CartItem_table st) -> item_cart i <> cart_id co ->
  forall n,
    filter (in_cart co)
           (filter (fun r => negb (item_id r =? item_id i)) (CartItem_table st))
    = filter (in_cart co) (CartItem_table st)
    /\ filter (in_cart co)
              (map (fun r => if item_id r =? item_id i
                             then with_count i n else r) (CartItem_table st))
       = filter (in_cart co) (CartItem_table st).
Proof.
  intros Hwf Hi Hne n.
  assert (Hother : forall r, In r (CartItem_table st) -> in_cart co r = true ->
                             (item_id r =? item_id i) = false).
  { intros r Hr Hc. apply Z.eqb_neq. intros E.
    rewrite (NoDup_map_inj_on _ _ _ _ r i (wf_item_pk_unique Hwf) Hr Hi E) in Hc.
    unfold in_cart in Hc. apply Z.eqb_eq in Hc. contradiction. }
  split.
  - rewrite filter_filter. apply filter_ext_in. intros r Hr.
    destruct (in_cart co r) eqn:Hc; [|apply andb_false_r].
    rewrite (Hother r Hr Hc). reflexivity.
  - rewrite (map_ext_in _ _ _
               (fun r Hr => replace_item_same st i r n Hwf Hi Hr)).
    rewrite filter_map_stable
      by (intros r _; destruct (item_id r =? item_id i); reflexivity).
    apply map_id_on. intros r Hr. apply filter_In in Hr as [Hr Hc].
    rewrite (Hother r Hr Hc). reflexivity.
Qed.

Lemma other_cart_differs st user other cu co :
  NoDup (map cart_id (Cart_table st)) ->
  find (fun c => cart_user c =? user) (Cart_table st) = Some cu ->
  find (fun c => cart_user c =? other) (Cart_table st) = Some co ->
  other <> user ->
  cart_id cu <> cart_id co.
Proof.
  intros Hnd Hu Ho Hne E.
  apply find_some in Hu as [Hu Huu]. apply find_some in Ho as [Ho Hoo].
  apply Z.eqb_eq in Huu, Hoo.
  rewrite (NoDup_map_inj_on _ _ _ _ cu co Hnd Hu Ho E) in Huu. congruence.
Qed.

Lemma added_private st user other pid c q :
  Store_wf st -> NoDup (map cart_id (Cart_table st)) -> other <> user ->
  line_items (added st user pid c) other q = line_items st other q.
Proof.
  intros Hwf Hnd Hne.
  assert (Hcarts : Cart_table (added st user pid c)
                   = Cart_table (with_cart_for st user))
    by (unfold added; destruct (line_items st user pid); reflexivity).
  assert (Hfind : find (fun x => cart_user x =? other)
                       (Cart_table (with_cart_for st user))
                  = find (fun x => cart_user x =? other) (Cart_table st)).
  { unfold with_cart_for.
    destruct (find _ (Cart_table st)) as [cu|]; [reflexivity|].
    cbn. apply find_app_nomatch. cbn. apply Z.eqb_neq. congruence. }
  apply line_items_frame; [rewrite Hcarts; exact Hfind|].
  intros co Hco.
  assert (Hdiff : cart_id (cart_for st user) <> cart_id co).
  { unfold cart_for.
    destruct (find (fun c => cart_user c =? user) (Cart_table st))
      as [cu|] eqn:Hcu.
    - apply (other_cart_differs st user other cu co Hnd Hcu Hco Hne).
    - cbn. apply find_some in Hco as [Hco _].
      pose proof (wf_cart_pk Hwf co Hco). lia. }
  unfold added.
  destruct (line_items_at_most_one st user pid Hwf)
    as [E|[i [E [Hi [Hic _]]]]]; rewrite E;
    cbn [CartItem_table with_CartItem].
  - rewrite filter_app. cbn [filter]. unfold in_cart at 2. cbn [item_cart].
    replace (cart_id (cart_for st user) =? cart_id co) with false
      by (symmetry; apply Z.eqb_neq; exact Hdiff).
    apply app_nil_r.
  - apply (other_cart_rows_kept st co i Hwf Hi). congruence.
Qed.

Lemma with_cart_for_private st user other q :
  other <> user ->
  line_items (with_cart_for st user) other q = line_items st other q.
Proof.
  intros Hne. apply line_items_frame.
  - unfold with_cart_for.
    destruct (find _ (Cart_table st)) as [cu|]; [reflexivity|].
    cbn. apply find_app_nomatch. cbn. apply Z.eqb_neq. congruence.
  - intros co _. unfold with_cart_for.
    destruct (find _ (Cart_table st)); reflexivity.
Qed.

(** X7. Carts are private.  On a store with integrity whose carts have
    distinct primary keys, neither [BasketAPIView.post] nor
    [BasketAPIView.delete] of one user changes the line items of any other
    user, whatever the body and however the request ends. *)
Theorem basket_writes_are_private :
  forall st user other,
    Store_wf st -> NoDup (map cart_id (Cart_table st)) -> other <> user ->
    (forall request q,
        line_items (snd (BasketAPIView.post user request st)) other q
        = line_items st other q)
    /\ (forall request q,
           line_items (snd (BasketAPIView.delete user request st)) other q
           = line_items st other q).
Proof.
  intros st user other Hwf Hnd Hne. split.
  - intros request q. unfold BasketAPIView.post.
    destruct (CartItemSerializer_validate request) as [[pid c]|] eqn:Hval;
      [|reflexivity].
    assert (Hc : 1 <= c /\ request = {| data_id := Some pid;
                                        data_count := Some c |}).
    { unfold CartItemSerializer_validate in Hval.
      destruct request as [[i|] [c'|]]; cbn in Hval; try discriminate.
      destruct (1 <=? c') eqn:E; [|discriminate]. injection Hval as -> ->.
      split; [apply Z.leb_le; exact E | reflexivity]. }
    destruct Hc as [Hc Hreq].
    destruct (find (fun p => product_id p =? pid) (Product_table st))
      as [product|] eqn:Hfind.
    + destruct (Z_le_gt_dec (count_after st user pid c) INTEGER_max)
        as [Hrange|Hrange].
      * destruct (post_added st user pid c product Hwf Hfind Hc Hrange)
          as [lines [Hpost _]].
        unfold BasketAPIView.post in Hpost. rewrite <- Hreq, Hval in Hpost.
        rewrite Hpost. cbn [snd]. apply added_private; assumption.
      * pose proof (post_over st user pid c product Hwf Hfind Hc
                      ltac:(lia)) as Hpost.
        unfold BasketAPIView.post in Hpost. rewrite <- Hreq, Hval in Hpost.
        rewrite Hpost. cbn [snd]. apply with_cart_for_private; exact Hne.
    + unfold try_or_return.
      rewrite (Product_objects_get_None _ _ Hfind). reflexivity.
  - intros request q.
    unfold BasketAPIView.delete, try_or_return.
    destruct (find (fun c => cart_user c =? user) (Cart_table st))
      as [cart|] eqn:Hcart.
    2:{ rewrite (Cart_objects_get_None _ _ Hcart). reflexivity. }
    rewrite (Cart_objects_get_Ok _ _ _ Hcart).
    destruct (BasketAPIView.delete_id request) as [pid|]; [|reflexivity].
    destruct (find (fun p => product_id p =? pid) (Product_table st))
      as [product|] eqn:Hproduct.
    2:{ rewrite (Product_objects_get_None _ _ Hproduct). reflexivity. }
    rewrite (Product_objects_get_Ok _ _ _ Hproduct).
    rewrite (bind_Ok _ _ _ _ st _ st) by reflexivity.
    assert (Hfinish : forall st',
               snd ((lines <- CartGETSerializer_data cart ;;
                     ret {| data := CartBody lines;
                            status_code := HTTP_200_OK |}) st') = st')
      by (intros st';
          apply (readonly_bind _ _ _ _ (readonly_CartGETSerializer_data cart)
                   (fun a => readonly_ret _ _))).
    destruct (first _) as [cart_item|] eqn:Hfirst;
      [|rewrite Hfinish; reflexivity].
    pose proof (cart_item_in_table st cart product cart_item Hfirst) as Hin.
    assert (Hitem_cart : item_cart cart_item = cart_id cart).
    { unfold first in Hfirst.
      destruct (filter (of_product product) _) as [|x l] eqn:E;
        [discriminate|].
      injection Hfirst as ->.
      assert (H : In cart_item (cart_item :: l)) by (left; reflexivity).
      rewrite <- E in H. apply filter_In in H as [H _].
      apply filter_In in H as [_ H]. apply Z.eqb_eq in H. exact H. }
    assert (Hrows : forall co,
               find (fun c => cart_user c =? other) (Cart_table st) = Some co ->
               item_cart cart_item <> cart_id co).
    { intros co Hco. rewrite Hitem_cart.
      apply (other_cart_differs st user other cart co Hnd Hcart Hco Hne). }
    destruct (_ <? 0); [reflexivity|].
    destruct (_ =? 0).
    + unfold CartItem_delete. rewrite bind_modify, Hfinish.
      apply line_items_frame; [reflexivity|]. intros co Hco.
      apply (other_cart_rows_kept st co cart_item Hwf Hin (Hrows co Hco) 0).
    + match goal with
      | |- context [CartItem_save ?i] => set (item := i)
      end.
      destruct (CartItem_save_cases item st) as [Hsave|Hsave].
      * rewrite (bind_Ok _ _ _ _ _ _ _ Hsave), Hfinish.
        subst item. cbn [item_id with_count].
        replace (existsb _ _) with true
          by (symmetry; apply existsb_exists; exists cart_item;
              split; [exact Hin | apply Z.eqb_refl]).
        apply line_items_frame; [reflexivity|]. intros co Hco.
        cbn [CartItem_table with_CartItem].
        apply (other_cart_rows_kept st co cart_item Hwf Hin (Hrows co Hco)).
      * destruct Hsave as [e Hsave].
        rewrite (bind_Raise _ _ _ _ _ _ _ Hsave). reflexivity.
Qed.

Lemma basket_writes_are_private_witness :
  line_items
    (snd (BasketAPIView.post 11 {| data_id := Some 9; data_count := Some 2 |}
                             sample_store)) 10 9
  = line_items sample_store 10 9.
Proof.
  refine (proj1 (basket_writes_are_private sample_store 11 10
                   sample_store_wf _ _) _ 9).
  - cbn. repeat constructor. intros [].
  - discriminate.
Defined.

(** ** Placing an order: the accepted request *)

(** The loop of [OrderAPIView.post] over a list of known products links
    each named product once to the order and touches nothing else. *)
Lemma attach_known_products order request :
  forall st,
    Forall (names_product st) request ->
    exists new,
      forM_ request (fun product_data =>
        id <- match pd_id product_data with
              | Some i => ret i
              | None => raise KeyError
              end ;;
        product <- Product_objects_get id ;;
        order_products_add order product) st
      = (Ok tt, with_Order_products (Order_products_table st ++ new) st)
      /\ (forall l, In l new ->
            fst l = order_id order
            /\ In (Some (snd l)) (named_ids request)
            /\ ~ In l (Order_products_table st))
      /\ NoDup new
      /\ (forall pid, In (Some pid) (named_ids request) ->
            In (order_id order, pid) (Order_products_table st ++ new)).
Proof.
  induction request as [|d request IH]; intros st Hall.
  - exists []. rewrite app_nil_r. destruct st. cbn.
    repeat split; try contradiction. constructor.
  - inversion Hall as [|? ? [i [p [Hi Hp]]] Hrest]; subst.
    cbn [forM_].
    assert (Hpid : product_id p = i)
      by (apply find_some in Hp as [_ H]; apply Z.eqb_eq in H; exact H).
    set (t := Order_products_table st).
    set (present := existsb (fun l => (fst l =? order_id order)
                                      && (snd l =? product_id p)) t).
    set (st1 := if present then st
                else with_Order_products (t ++ [(order_id order, i)]) st).
    assert (Hstep : (id <- match pd_id d with
                           | Some i => ret i
                           | None => raise KeyError
                           end ;;
                     product <- Product_objects_get id ;;
                     order_products_add order product) st = (Ok tt, st1)).
    { rewrite Hi. rewrite (bind_Ok _ _ _ _ st i st) by reflexivity.
      rewrite (bind_Ok _ _ _ _ st p st)
        by (apply Product_objects_get_Ok; exact Hp).
      unfold order_products_add, modify, st1, present, t. cbv zeta.
      rewrite Hpid. destruct (existsb _ _); reflexivity. }
    rewrite (bind_Ok _ _ _ _ _ _ _ Hstep).
    assert (Hproducts : Product_table st1 = Product_table st)
      by (unfold st1; destruct present; reflexivity).
    destruct (IH st1) as [new [Hrun [Hnew [Hnd Hcover]]]].
    { eapply Forall_impl; [|exact Hrest].
      intros a [j [q [Hj Hq]]]. exists j, q. rewrite Hproducts. auto. }
    rewrite Hrun. unfold st1 in *. clear st1.
    destruct present eqn:Hpresent.
    + exists new. split; [reflexivity|]. split; [|split; [exact Hnd|]].
      * intros l Hl. destruct (Hnew l Hl) as [H1 [H2 H3]].
        split; [exact H1|]. split; [right; exact H2 | exact H3].
      * intros pid [Hd|Hpid']; [|apply Hcover; exact Hpid'].
        rewrite Hi in Hd. injection Hd as <-.
        unfold present in Hpresent. apply existsb_exists in Hpresent
          as [l [Hl Hmatch]].
        apply andb_true_iff in Hmatch as [H1 H2]. apply Z.eqb_eq in H1, H2.
        apply in_or_app. left. destruct l as [a b]. cbn in H1, H2.
        subst a b. rewrite <- Hpid. exact Hl.
    + exists ((order_id order, i) :: new).
      cbn [Order_products_table with_Order_products] in *.
      rewrite <- app_assoc in Hcover. cbn [app] in Hcover.
      split; [rewrite <- app_assoc; reflexivity|].
      assert (Hfresh : ~ In (order_id order, i) t).
      { intros Hin. unfold present in Hpresent.
        assert (existsb (fun l => (fst l =? order_id order)
                                  && (snd l =? product_id p)) t = true).
        { apply existsb_exists. exists (order_id order, i). split; [exact Hin|].
          cbn. rewrite Hpid, !Z.eqb_refl. reflexivity. }
        congruence. }
      split; [|split].
      * intros l [<-|Hl].
        -- split; [reflexivity|]. split; [left; exact Hi | exact Hfresh].
        -- destruct (Hnew l Hl) as [H1 [H2 H3]].
           split; [exact H1|]. split; [right; exact H2|].
           intros Hin. apply H3. apply in_or_app. left; exact Hin.
      * constructor; [|exact Hnd].
        intros Hin. destruct (Hnew _ Hin) as [_ [_ H3]].
        apply H3. apply in_or_app. right. left. reflexivity.
      * intros pid [Hd|Hpid'].
        -- rewrite Hi in Hd. injection Hd as <-.
           apply in_or_app. right. left. reflexivity.
        -- apply Hcover; exact Hpid'.
Qed.

Lemma place_attached st user request now :
  Forall (names_product st) request ->
  exists new,
    OrderAPIView.post user request now st
    = after_attaching user (draft st user now) (attached st user now new)
    /\ (forall l, In l new ->
          fst l = Order_seq st
          /\ In (Some (snd l)) (named_ids request)
          /\ ~ In l (Order_products_table st))
    /\ NoDup new
    /\ (forall pid, In (Some pid) (named_ids request) ->
          In (Order_seq st, pid) (Order_products_table st ++ new)).
Proof.
  intros Hall.
  set (st1 := with_Order (Order_table st ++ [draft st user now])
                         (Order_seq st + 1) st).
  destruct (attach_known_products (draft st user now) request st1)
    as [new [Hrun Hnew]].
  { eapply Forall_impl; [|exact Hall]. intros a H. exact H. }
  exists new. split; [|exact Hnew].
  unfold OrderAPIView.post, Order_objects_create.
  rewrite (bind_Ok _ _ _ _ st (draft st user now) st1)
    by (rewrite (bind_Ok _ _ _ _ st (Order_seq st) st) by reflexivity;
        reflexivity).
  rewrite (bind_Ok _ _ _ _ _ _ _ Hrun). reflexivity.
Qed.

Lemma find_last_fresh A (key : A -> Z) l x :
  (forall a, In a l -> key a < key x) ->
  find (fun a => key a =? key x) (l ++ [x]) = Some x
  /\ forall y, key y = key x ->
       map (fun a => if key a =? key x then y else a) (l ++ [x]) = l ++ [y].
Proof.
  intros Hlt. split.
  - apply find_app_None; [|apply Z.eqb_refl].
    destruct (find _ l) as [a|] eqn:E; [|reflexivity].
    apply find_some in E as [Ha E]. apply Z.eqb_eq in E.
    specialize (Hlt a Ha). lia.
  - intros y Hy. rewrite map_app. cbn. rewrite Z.eqb_refl. f_equal.
    apply map_id_on. intros a Ha.
    replace (key a =? key x) with false; [reflexivity|].
    symmetry. apply Z.eqb_neq. specialize (Hlt a Ha). lia.
Qed.

(** One order is rendered when its owner has a profile, the lookup rows it
    refers to exist and the products linked to it exist. *)
Lemma OrderSerializer_data_one st o :
  find (fun p => profile_user p =? order_user o) (UserProfile_table st)
  <> None ->
  (forall pk, status o = Some pk ->
     find (fun s => status_id s =? pk) (OrderStatus_table st) <> None) ->
  (forall pk, deliveryType o = Some pk ->
     find (fun d => delivery_id d =? pk) (DeliveryType_table st) <> None) ->
  (forall pk, paymentType o = Some pk ->
     find (fun d => payment_id d =? pk) (PaymentType_table st) <> None) ->
  (forall l, In l (Order_products_table st) -> fst l = order_id o ->
     find (fun p => product_id p =? snd l) (Product_table st) <> None) ->
  exists r,
    OrderSerializer_data o st = (Ok r, st)
    /\ renders st o r
    /\ map (fun x => product_id (out_product x)) (out_products r)
       = linked_to st (order_id o).
Proof.
  intros Hprofile Hstatus Hdelivery Hpayment Hlinks.
  destruct (found _ _ _ Hprofile) as [profile Hp].
  destruct (string_related_Ok _ DeliveryType_objects_get delivery_name
              (deliveryType o) st) as [d Hd].
  { intros pk Hpk. destruct (found _ _ _ (Hdelivery pk Hpk)).
    eexists. apply DeliveryType_objects_get_Ok. eassumption. }
  destruct (string_related_Ok _ PaymentType_objects_get payment_name
              (paymentType o) st) as [pt Hpt].
  { intros pk Hpk. destruct (found _ _ _ (Hpayment pk Hpk)).
    eexists. apply PaymentType_objects_get_Ok. eassumption. }
  destruct (string_related_Ok _ OrderStatus_objects_get status_name
              (status o) st) as [s Hs].
  { intros pk Hpk. destruct (found _ _ _ (Hstatus pk Hpk)).
    eexists. apply OrderStatus_objects_get_Ok. eassumption. }
  destruct (mapM_readers_exists _ _
              (fun l : Z * Z => Product_objects_get (snd l))
              (fun l p => product_id p = snd l)
              (filter (fun l => fst l =? order_id o) (Order_products_table st))
              st) as [products [Hproducts Hids]].
  { intros l Hl. apply filter_In in Hl as [Hl Hfst]. apply Z.eqb_eq in Hfst.
    destruct (found _ _ _ (Hlinks l Hl Hfst)) as [x Hx].
    exists x. split; [apply Product_objects_get_Ok; exact Hx|].
    apply find_some in Hx as [_ Hx]. apply Z.eqb_eq in Hx. exact Hx. }
  eexists. split; [|split].
  - unfold OrderSerializer_data, user_profile.
    rewrite (bind_Ok _ _ _ _ st profile st)
      by (rewrite (bind_Ok _ _ _ _ st _ st) by reflexivity;
          rewrite Hp; reflexivity).
    rewrite (bind_Ok _ _ _ _ _ _ _ Hd), (bind_Ok _ _ _ _ _ _ _ Hpt),
      (bind_Ok _ _ _ _ _ _ _ Hs).
    unfold order_products_all.
    rewrite (bind_Ok _ _ _ _ st products st)
      by (rewrite (bind_Ok _ _ _ _ st _ st) by reflexivity; exact Hproducts).
    rewrite (bind_Ok _ _ _ _ st _ st
               (mapM_readers_Ok _ _ _ (rendered st) _ st
                  (fun a _ => ProductSerializer_data_run st a))).
    reflexivity.
  - repeat split. exists profile. split; [exact Hp | reflexivity].
  - cbn [out_products]. rewrite map_map. cbn [rendered out_product].
    unfold linked_to.
    apply (Forall2_map_eq _ _ _ snd product_id _ _ _ (fun a b H => H) Hids).
Qed.

Lemma get_object_or_404_Ok A (objects_get : Z -> M A) e pk st a :
  objects_get pk st = (Ok a, st) ->
  get_object_or_404 objects_get e pk st = (Ok a, st).
Proof. intros H. unfold get_object_or_404, try_except. rewrite H. reflexivity. Qed.



Lemma sample_store_orders_fresh : Orders_fresh sample_store.
Proof.
  constructor; cbn.
  - intros o [<-|[<-|[]]]; cbn; lia.
  - intros l [<-|[<-|[]]]; cbn; lia.
Qed.



(** ** Placing an order: what stays behind when it fails late *)

Lemma get_object_or_404_missing A (objects_get : Z -> M A) e pk st :
  objects_get pk st = (Raise e, st) ->
  get_object_or_404 objects_get e pk st = (Raise Http404, st).
Proof.
  intros H. unfold get_object_or_404, try_except. rewrite H.
  destruct e; reflexivity.
Qed.

Lemma DeliveryType_objects_get_None st pk :
  find (fun x => delivery_id x =? pk) (DeliveryType_table st) = None ->
  DeliveryType_objects_get pk st = (Raise DeliveryType_DoesNotExist, st).
Proof.
  intros H. unfold DeliveryType_objects_get, bind, gets. rewrite H. reflexivity.
Qed.

Lemma PaymentType_objects_get_None st pk :
  find (fun x => payment_id x =? pk) (PaymentType_table st) = None ->
  PaymentType_objects_get pk st = (Raise PaymentType_DoesNotExist, st).
Proof.
  intros H. unfold PaymentType_objects_get, bind, gets. rewrite H. reflexivity.
Qed.

Lemma OrderStatus_objects_get_None st pk :
  find (fun x => status_id x =? pk) (OrderStatus_table st) = None ->
  OrderStatus_objects_get pk st = (Raise OrderStatus_DoesNotExist, st).
Proof.
  intros H. unfold OrderStatus_objects_get, bind, gets. rewrite H. reflexivity.
Qed.

(** X9. A missing placeholder row.  When every listed product exists but
    delivery type 3, payment type 3 or order status 7 does not,
    [OrderAPIView.post] is answered 404 "Not found." and yet the order has
    been created: the order table keeps a new row of the user without
    status, delivery type and payment type, linked to the listed products,
    and the cart is not cleared. *)
Theorem place_without_placeholder_row :
  forall st user request now,
    Forall (names_product st) request ->
    find (fun d => delivery_id d =? 3) (DeliveryType_table st) = None
    \/ find (fun p => payment_id p =? 3) (PaymentType_table st) = None
    \/ find (fun s => status_id s =? 7) (OrderStatus_table st) = None ->
    let outcome := dispatch (OrderAPIView.post user request now) st in
    fst outcome = Ok {| data := ErrorBody "Not found.";
                        status_code := HTTP_404_NOT_FOUND |}
    /\ Order_table (snd outcome) = Order_table st ++ [draft st user now]
    /\ (forall pid, In (Some pid) (named_ids request) ->
                    In (Order_seq st, pid) (Order_products_table (snd outcome)))
    /\ CartItem_table (snd outcome) = CartItem_table st.
Proof.
  intros st user request now Hall Hmissing outcome.
  destruct (place_attached st user request now Hall)
    as [new [Hpost [_ [_ Hcover]]]].
  set (st_b := attached st user now new) in *.
  assert (Hrun : outcome
                 = (Ok {| data := ErrorBody "Not found.";
                          status_code := HTTP_404_NOT_FOUND |}, st_b)).
  { unfold outcome, dispatch, try_except. rewrite Hpost.
    unfold after_attaching.
    destruct (find (fun d => delivery_id d =? 3) (DeliveryType_table st))
      as [delivery|] eqn:Hd.
    2:{ rewrite (bind_Raise _ _ _ _ st_b Http404 st_b); [reflexivity|].
        apply get_object_or_404_missing, DeliveryType_objects_get_None.
        exact Hd. }
    rewrite (bind_Ok _ _ _ _ st_b delivery st_b)
      by (apply get_object_or_404_Ok, DeliveryType_objects_get_Ok; exact Hd).
    destruct (find (fun p => payment_id p =? 3) (PaymentType_table st))
      as [payment|] eqn:Hp.
    2:{ rewrite (bind_Raise _ _ _ _ st_b Http404 st_b); [reflexivity|].
        apply get_object_or_404_missing, PaymentType_objects_get_None.
        exact Hp. }
    rewrite (bind_Ok _ _ _ _ st_b payment st_b)
      by (apply get_object_or_404_Ok, PaymentType_objects_get_Ok; exact Hp).
    destruct (find (fun s => status_id s =? 7) (OrderStatus_table st))
      as [s|] eqn:Hs.
    2:{ rewrite (bind_Raise _ _ _ _ st_b Http404 st_b); [reflexivity|].
        apply get_object_or_404_missing, OrderStatus_objects_get_None.
        exact Hs. }
    destruct Hmissing as [H|[H|H]]; discriminate H. }
  rewrite Hrun. cbn [fst snd]. repeat split; auto.
Qed.

Lemma place_without_placeholder_row_witness :
  let outcome := dispatch (OrderAPIView.post 10 [] 3000) empty_store in
  fst outcome = Ok {| data := ErrorBody "Not found.";
                      status_code := HTTP_404_NOT_FOUND |}
  /\ Order_table (snd outcome) = [draft empty_store 10 3000].
Proof.
  destruct (place_without_placeholder_row empty_store 10 [] 3000
              (Forall_nil _) (or_introl eq_refl)) as [H1 [H2 _]].
  split; [exact H1 | exact H2].
Defined.

Lemma place_saved st user request now delivery payment draft_status :
  Forall (names_product st) request ->
  Orders_fresh st ->
  find (fun d => delivery_id d =? 3) (DeliveryType_table st) = Some delivery ->
  find (fun p => payment_id p =? 3) (PaymentType_table st) = Some payment ->
  find (fun s => status_id s =? 7) (OrderStatus_table st) = Some draft_status ->
  exists st_c,
    OrderAPIView.post user request now st
    = (rendered <- OrderSerializer_data (placed st user now) ;;
       cart <- user_cart user ;;
       cart_items_delete_all cart ;;;
       ret {| data := OrderBody rendered (Order_seq st);
              status_code := HTTP_201_CREATED |}) st_c
    /\ Order_table st_c = Order_table st ++ [placed st user now]
    /\ CartItem_table st_c = CartItem_table st
    /\ Cart_table st_c = Cart_table st
    /\ UserProfile_table st_c = UserProfile_table st
    /\ (exists rendered,
           find (fun p => profile_user p =? user) (UserProfile_table st)
           <> None ->
           OrderSerializer_data (placed st user now) st_c = (Ok rendered, st_c)).
Proof.
  intros Hall Hfresh Hdelivery Hpayment Hstatus.
  destruct (place_attached st user request now Hall)
    as [new [Hpost [Hnew [Hnd Hcover]]]].
  set (st_b := attached st user now new) in *.
  assert (Hdid : delivery_id delivery = 3)
    by (apply find_some in Hdelivery as [_ H]; apply Z.eqb_eq in H; exact H).
  assert (Hpid : payment_id payment = 3)
    by (apply find_some in Hpayment as [_ H]; apply Z.eqb_eq in H; exact H).
  assert (Hsid : status_id draft_status = 7)
    by (apply find_some in Hstatus as [_ H]; apply Z.eqb_eq in H; exact H).
  set (st_c := with_Order (Order_table st ++ [placed st user now])
                          (Order_seq st + 1) st_b).
  destruct (find_last_fresh Order order_id (Order_table st)
              (draft st user now) (order_pk_below Hfresh))
    as [Hfind_draft Hreplace].
  assert (Hsave : Order_save (placed st user now) st_b = (Ok tt, st_c)).
  { unfold Order_save, modify. cbv zeta.
    change (Order_table st_b) with (Order_table st ++ [draft st user now]).
    change (order_id (placed st user now)) with (order_id (draft st user now)).
    rewrite (find_existsb _ _ _ _ Hfind_draft).
    rewrite (Hreplace (placed st user now) eq_refl). reflexivity. }
  exists st_c. split; [|repeat split].
  - rewrite Hpost. unfold after_attaching.
    rewrite (bind_Ok _ _ _ _ st_b delivery st_b)
      by (apply get_object_or_404_Ok, DeliveryType_objects_get_Ok;
          exact Hdelivery).
    rewrite (bind_Ok _ _ _ _ st_b payment st_b)
      by (apply get_object_or_404_Ok, PaymentType_objects_get_Ok;
          exact Hpayment).
    rewrite (bind_Ok _ _ _ _ st_b draft_status st_b)
      by (apply get_object_or_404_Ok, OrderStatus_objects_get_Ok;
          exact Hstatus).
    rewrite Hdid, Hpid, Hsid. cbv zeta.
    change (with_lookups (draft st user now) (Some 7) (Some 3) (Some 3)
                         (totalCost (draft st user now)))
      with (placed st user now).
    rewrite (bind_Ok _ _ _ _ _ _ _ Hsave). reflexivity.
  - destruct (find (fun p => profile_user p =? user) (UserProfile_table st))
      as [profile|] eqn:Hprofile.
    + destruct (OrderSerializer_data_one st_c (placed st user now))
        as [rendered [Hrender _]].
      * cbn. rewrite Hprofile. discriminate.
      * intros ? [= <-]. cbn. rewrite Hstatus. discriminate.
      * intros ? [= <-]. cbn. rewrite Hdelivery. discriminate.
      * intros ? [= <-]. cbn. rewrite Hpayment. discriminate.
      * intros l Hl Hfst. cbn in Hl, Hfst.
        apply in_app_or in Hl as [Hl|Hl].
        -- pose proof (link_pk_below Hfresh l Hl). lia.
        -- destruct (Hnew l Hl) as [_ [Hnamed _]].
           unfold named_ids in Hnamed.
           apply in_map_iff in Hnamed as [d [Hd Hin]].
           pose proof (proj1 (Forall_forall _ _) Hall d Hin)
             as [i [p [Hi Hp]]].
           rewrite Hi in Hd. injection Hd as ->. cbn. rewrite Hp. discriminate.
      * exists rendered. intros _. exact Hrender.
    + exists {| out_id := 0; out_createdAt := 0; out_totalCost := 0;
                out_fullName := None; out_email := None; out_phone := None;
                out_deliveryType := None; out_paymentType := None;
                out_status := None; out_city := None; out_address := None;
                out_products := [] |}.
      intros H. contradiction.
Qed.

(** X10. A user without profile or without cart.  With every listed
    product and the placeholder rows in place, [OrderAPIView.post] of a user
    who has no profile (which the serializer dereferences) or no cart
    (which the view dereferences to clear it) ends in the unhandled
    [RelatedObjectDoesNotExist], after the order has been saved: the order
    table holds the new order with its placeholder rows, and no line item
    was deleted. *)
Theorem place_without_profile_or_cart :
  forall st user request now delivery payment draft_status,
    Forall (names_product st) request ->
    Orders_fresh st ->
    find (fun d => delivery_id d =? 3) (DeliveryType_table st) = Some delivery ->
    find (fun p => payment_id p =? 3) (PaymentType_table st) = Some payment ->
    find (fun s => status_id s =? 7) (OrderStatus_table st)
    = Some draft_status ->
    find (fun p => profile_user p =? user) (UserProfile_table st) = None
    \/ find (fun c => cart_user c =? user) (Cart_table st) = None ->
    let outcome := dispatch (OrderAPIView.post user request now) st in
    fst outcome = Raise RelatedObjectDoesNotExist
    /\ Order_table (snd outcome) = Order_table st ++ [placed st user now]
    /\ CartItem_table (snd outcome) = CartItem_table st.
Proof.
  intros st user request now delivery payment draft_status
         Hall Hfresh Hdelivery Hpayment Hstatus Hmissing outcome.
  destruct (place_saved st user request now delivery payment draft_status
              Hall Hfresh Hdelivery Hpayment Hstatus)
    as [st_c [Hpost [Horders [Hitems [Hcarts [Hprofiles [rendered Hrender]]]]]]].
  assert (Hrun : outcome = (Raise RelatedObjectDoesNotExist, st_c)).
  { unfold outcome, dispatch, try_except. rewrite Hpost.
    destruct (find (fun p => profile_user p =? user) (UserProfile_table st))
      as [profile|] eqn:Hprofile.
    - rewrite (bind_Ok _ _ _ _ _ _ _ (Hrender ltac:(discriminate))).
      destruct Hmissing as [H|Hcart]; [discriminate H|].
      rewrite (bind_Raise _ _ _ _ st_c RelatedObjectDoesNotExist st_c);
        [reflexivity|].
      unfold user_cart, try_except.
      rewrite (Cart_objects_get_None st_c user)
        by (rewrite Hcarts; exact Hcart).
      reflexivity.
    - rewrite (bind_Raise _ _ _ _ st_c RelatedObjectDoesNotExist st_c);
        [reflexivity|].
      unfold OrderSerializer_data.
      apply bind_Raise. unfold user_profile.
      rewrite (bind_Ok _ _ _ _ st_c _ st_c) by reflexivity.
      cbn [order_user placed]. rewrite Hprofiles, Hprofile. reflexivity. }
  rewrite Hrun. cbn [fst snd]. auto.
Qed.

Lemma place_without_profile_or_cart_witness :
  let outcome := dispatch (OrderAPIView.post 11 [] 3000) sample_store in
  fst outcome = Raise RelatedObjectDoesNotExist
  /\ Order_table (snd outcome)
     = Order_table sample_store ++ [placed sample_store 11 3000]
  /\ CartItem_table (snd outcome) = CartItem_table sample_store.
Proof.
  exact (place_without_profile_or_cart sample_store 11 [] 3000 _ _ _
           (Forall_nil _) sample_store_orders_fresh eq_refl eq_refl eq_refl
           (or_intror eq_refl)).
Defined.

(** ** Fetching and finalizing an order *)

(** X11. [OrderDetailView.get] never writes and takes no user into
    account: an unknown primary key is answered 404 without body; an
    existing order, in a store whose order tables have referential
    integrity, is answered 200 with that order rendered, whoever owns
    it. *)
Theorem order_get_renders_or_404 :
  forall st pk,
    snd (OrderDetailView_get pk st) = st
    /\ (find (fun o => order_id o =? pk) (Order_table st) = None ->
        fst (OrderDetailView_get pk st)
        = Ok {| reply_data := None; reply_status := HTTP_404_NOT_FOUND |})
    /\ (forall order,
           Orders_renderable st ->
           find (fun o => order_id o =? pk) (Order_table st) = Some order ->
           exists rendered,
             fst (OrderDetailView_get pk st)
             = Ok {| reply_data := Some rendered;
                     reply_status := HTTP_200_OK |}
             /\ renders st order rendered).
Proof.
  intros st pk. split; [apply readonly_OrderDetailView_get|]. split.
  - intros Hnone. unfold OrderDetailView_get, try_except.
    rewrite (bind_Raise _ _ _ _ st Order_DoesNotExist st); [reflexivity|].
    unfold Order_objects_get, bind, gets. rewrite Hnone. reflexivity.
  - intros order Hok Hfind.
    destruct (OrderSerializer_data_Ok st order Hok
                (proj1 (find_some _ _ Hfind))) as [rendered [Hrender Hrenders]].
    exists rendered. split; [|exact Hrenders].
    unfold OrderDetailView_get, try_except.
    rewrite (bind_Ok _ _ _ _ _ _ _ (Order_objects_get_Ok _ _ _ Hfind)).
    rewrite (bind_Ok _ _ _ _ _ _ _ Hrender). reflexivity.
Qed.

Lemma order_get_renders_or_404_witness :
  fst (OrderDetailView_get 5 sample_store)
  = Ok {| reply_data := None; reply_status := HTTP_404_NOT_FOUND |}
  /\ exists rendered,
       fst (OrderDetailView_get 2 sample_store)
       = Ok {| reply_data := Some rendered; reply_status := HTTP_200_OK |}
       /\ renders sample_store
                  {| order_id := 2; createdAt := 2000; order_user := 11;
                     status := Some 7; deliveryType := Some 3;
                     paymentType := Some 3; totalCost := 0 |} rendered.
Proof.
  split.
  - exact (proj1 (proj2 (order_get_renders_or_404 sample_store 5)) eq_refl).
  - exact (proj2 (proj2 (order_get_renders_or_404 sample_store 2)) _
                 sample_store_renderable eq_refl).
Defined.




(** ** Paying *)







(** X15. What the catalog selects.  Take a query that sorts, if at all, by
    columns of the product, on a store whose join with the tags returns its
    rows.  Whenever [filter_queryset] returns, its result is a
    rearrangement of the selected rows: the products of the queryset that
    pass every filter present in the query, each as often as it is stored
    when the query names no tag, and once per tag it shares with the query
    when it does (a product carrying two of the requested tags is listed
    twice, a product carrying none is not listed).  In which order the
    rows of the join come is not determined; without tags and without
    [sort] the result keeps the order of the queryset. *)
Theorem filter_queryset_selects :
  forall GET queryset st result,
    join_keeps_rows st -> sorts_by_columns GET ->
    fst (CatalogAPIView.filter_queryset GET queryset st) = Ok result ->
    Permutation result (selected GET queryset)
    /\ (tags_list GET = [] -> truthy (sort GET) = None ->
        result = filter (matches GET) queryset)
    /\ (forall p, In p result -> In p queryset /\ matches GET p = true)
    /\ (forall p, In p result -> tags_list GET <> [] ->
                  exists t, In t (tags p) /\ In t (requested_tags GET)).
Proof.
  intros GET queryset st result Hjoin Hsort Hresult.
  pose proof (filter_queryset_rows GET queryset st result (or_intror Hjoin)
                Hsort Hresult) as Hperm.
  split; [exact Hperm|]. split; [|split].
  - intros Htags Hnone.
    apply (filter_queryset_plain GET queryset st result Htags Hnone Hresult).
  - intros p Hp. apply (Permutation_in _ Hperm) in Hp.
    unfold selected in Hp. apply in_flat_map in Hp as [x [Hx Hrep]].
    apply repeat_spec in Hrep. subst x.
    apply filter_In in Hx. exact Hx.
  - intros p Hp Htags. apply (Permutation_in _ Hperm) in Hp.
    unfold selected in Hp. apply in_flat_map in Hp as [x [_ Hrep]].
    pose proof (repeat_spec _ _ _ Hrep) as ->.
    unfold copies in Hrep.
    destruct (tags_list GET); [contradiction Htags; reflexivity|].
    destruct (filter _ (tags x)) as [|t shared] eqn:E; [contradiction Hrep|].
    assert (Ht : In t (filter (fun t => existsb (Z.eqb t) (requested_tags GET))
                              (tags x)))
      by (rewrite E; left; reflexivity).
    apply filter_In in Ht as [Ht Hreq].
    apply existsb_exists in Hreq as [t' [Ht' Heq]].
    apply Z.eqb_eq in Heq. subst t'. exists t. split; assumption.
Qed.

Lemma sample_store_join_keeps_rows : join_keeps_rows sample_store.
Proof. intros rows. apply Permutation_refl. Qed.

Lemma filter_queryset_selects_witness :
  let queryset := [tagged_product 7 [1; 2]; tagged_product 8 [3]] in
  fst (CatalogAPIView.filter_queryset (tag_query [1; 2]) queryset sample_store)
  = Ok [tagged_product 7 [1; 2]; tagged_product 7 [1; 2]]
  /\ Permutation [tagged_product 7 [1; 2]; tagged_product 7 [1; 2]]
       (selected (tag_query [1; 2]) queryset).
Proof.
  split; [reflexivity|].
  exact (proj1 (filter_queryset_selects (tag_query [1; 2])
                  [tagged_product 7 [1; 2]; tagged_product 8 [3]]
                  sample_store _ sample_store_join_keeps_rows
                  (ex_intro _ [] eq_refl) eq_refl)).
Defined.

(** ** The catalog: pages *)










(** ** The catalog: failures and ignored parameters *)

Lemma bind_parameters_Ok ids st :
  Forall fits_INTEGER ids -> bind_parameters ids st = (Ok tt, st).
Proof.
  intros H. unfold bind_parameters.
  replace (forallb _ ids) with true; [reflexivity|].
  symmetry. apply forallb_forall. intros v Hv.
  rewrite Forall_forall in H. specialize (H v Hv). unfold fits_INTEGER in H.
  apply andb_true_iff. split; apply Z.leb_le; lia.
Qed.

Lemma bind_parameters_over ids st :
  Exists (fun v => ~ fits_INTEGER v) ids ->
  bind_parameters ids st = (Raise OverflowError, st).
Proof.
  intros H. unfold bind_parameters.
  destruct (forallb _ ids) eqn:E; [|reflexivity].
  exfalso. apply Exists_exists in H as [v [Hv Hout]]. apply Hout.
  rewrite forallb_forall in E. specialize (E v Hv).
  apply andb_true_iff in E as [E1 E2]. apply Z.leb_le in E1, E2.
  unfold fits_INTEGER. lia.
Qed.

(** [filter_queryset] once its price bounds and tags are accepted: the
    evaluation of the filtered rows, sorted if asked for. *)
Lemma filter_queryset_accepted GET queryset st ids :
  filter_minPrice GET <> Some NotANumber ->
  filter_maxPrice GET <> Some NotANumber ->
  tag_ids (tags_list GET) = Some ids ->
  exists evaluate,
    (forall st',
        evaluate st'
        = match tags_list GET with
          | _ :: _ =>
              (bind_parameters ids ;;;
               rows_as_returned <- gets tag_join_order ;;
               ret (rows_as_returned (selected GET queryset))) st'
          | [] => (Ok (filter (matches GET) queryset), st')
          end)
    /\ CatalogAPIView.filter_queryset GET queryset st
       = match truthy (sort GET) with
         | Some sort_param =>
             match sortType GET with
             | None => raise AttributeError
             | Some sort_type_param => order_by (ordering_of GET) evaluate
             end
         | None => evaluate
         end st.
Proof.
  intros Hmin Hmax Hids.
  unfold CatalogAPIView.filter_queryset.
  unfold ordering_of, selected, matches, copies.
  rewrite <- (tag_ids_requested GET ids Hids).
  destruct (filter_minPrice GET) as [[|v1]|]; [contradiction Hmin; reflexivity| |];
    (destruct (filter_maxPrice GET) as [[|v2]|];
     [contradiction Hmax; reflexivity| |]);
    cbn [bind ret];
    (destruct (tags_list GET) as [|t0 tl] eqn:Htags; [|rewrite Hids]);
    cbn [bind ret];
    (eexists; split; [|destruct (truthy (sort GET));
                       [destruct (sortType GET)|]; reflexivity]);
    intros st';
    rewrite <- ?(flat_map_ext _ _ (fun p => map_const_repeat _ _ p _));
    rewrite <- !filter_filter;
    repeat match goal with
      | |- context [match ?x with _ => _ end] =>
          match x with
          | truthy _ => destruct x
          | filter_freeDelivery _ => destruct x
          | String.eqb _ _ => destruct x
          end
      end;
    rewrite ?filter_true, ?filter_freeDelivery_any, ?filter_freeDelivery_only;
    reflexivity.
Qed.

Lemma filter_queryset_failures GET queryset st :
  (filter_minPrice GET = Some NotANumber
   \/ filter_maxPrice GET = Some NotANumber ->
   CatalogAPIView.filter_queryset GET queryset st = (Raise ValueError, st))
  /\ (filter_minPrice GET <> Some NotANumber ->
      filter_maxPrice GET <> Some NotANumber ->
      (tag_ids (tags_list GET) = None ->
       CatalogAPIView.filter_queryset GET queryset st = (Raise ValueError, st))
      /\ (forall ids,
             tag_ids (tags_list GET) = Some ids ->
             (truthy (sort GET) <> None -> sortType GET = None ->
              CatalogAPIView.filter_queryset GET queryset st
              = (Raise AttributeError, st))
             /\ (truthy (sort GET) <> None -> sortType GET <> None ->
                 order_terms (ordering_of GET) = Unresolved ->
                 CatalogAPIView.filter_queryset GET queryset st
                 = (Raise FieldError, st))
             /\ (sort_accepted GET ->
                 (Exists (fun v => ~ fits_INTEGER v) ids ->
                  CatalogAPIView.filter_queryset GET queryset st
                  = (Raise OverflowError, st))
                 /\ (Forall fits_INTEGER ids ->
                     exists result,
                       CatalogAPIView.filter_queryset GET queryset st
                       = (Ok result, st))))).
Proof.
  split.
  { unfold CatalogAPIView.filter_queryset.
    destruct (filter_minPrice GET) as [[|lo]|];
      destruct (filter_maxPrice GET) as [[|hi]|];
      unfold bind, ret, raise;
      try (intros _; reflexivity);
      intros [H|H]; discriminate H. }
  intros Hmin Hmax. split.
  { intros Hnone. unfold CatalogAPIView.filter_queryset.
    destruct (filter_minPrice GET) as [[|lo]|];
      [contradiction Hmin; reflexivity| |];
      (destruct (filter_maxPrice GET) as [[|hi]|];
       [contradiction Hmax; reflexivity| |]);
      cbn [bind ret];
      (destruct (tags_list GET); [discriminate Hnone|]);
      rewrite Hnone; reflexivity. }
  intros ids Hids.
  destruct (filter_queryset_accepted GET queryset st ids Hmin Hmax Hids)
    as [evaluate [Hevaluate ->]].
  split; [|split].
  - intros Hsort HsortType. rewrite HsortType.
    destruct (truthy (sort GET)); [reflexivity | contradiction].
  - intros Hsort HsortType Hterms.
    destruct (truthy (sort GET)); [|contradiction].
    destruct (sortType GET); [|contradiction].
    unfold order_by. rewrite Hterms. reflexivity.
  - intros [HsortType [cs Hcs]].
    assert (Hsorted :
              forall r, evaluate st = (r, st) ->
                        exists r',
                          match truthy (sort GET) with
                          | Some sort_param =>
                              match sortType GET with
                              | None => raise AttributeError
                              | Some sort_type_param =>
                                  order_by (ordering_of GET) evaluate
                              end
                          | None => evaluate
                          end st = (r', st)
                          /\ match r with
                             | Ok _ => exists rows, r' = Ok rows
                             | Raise e => r' = Raise e
                             end).
    { intros r Hr. destruct (truthy (sort GET)).
      - destruct (sortType GET);
          [|exfalso; apply HsortType; [discriminate | reflexivity]].
        unfold order_by. rewrite Hcs. unfold bind. rewrite Hr.
        destruct r; eexists; (split; [reflexivity|]);
          [eexists; reflexivity | reflexivity].
      - exists r. split; [exact Hr|]. destruct r; [eexists|]; reflexivity. }
    split.
    + intros Hover.
      assert (Hr : evaluate st = (Raise OverflowError, st)).
      { rewrite Hevaluate. destruct (tags_list GET).
        - injection Hids as <-. inversion Hover.
        - rewrite (bind_Raise _ _ _ _ _ _ _ (bind_parameters_over _ st Hover)).
          reflexivity. }
      destruct (Hsorted _ Hr) as [r' [Hrun ->]]. exact Hrun.
    + intros Hfits.
      assert (Hr : exists rows, evaluate st = (Ok rows, st)).
      { rewrite Hevaluate. destruct (tags_list GET).
        - eexists; reflexivity.
        - rewrite (bind_Ok _ _ _ _ _ _ _ (bind_parameters_Ok _ st Hfits)).
          eexists; reflexivity. }
      destruct Hr as [rows Hr].
      destruct (Hsorted _ Hr) as [r' [Hrun [result ->]]].
      exists result. exact Hrun.
Qed.

(** X18. How a catalog request fails.  A price bound that is not a number
    ends the request in [ValueError]; with usable bounds so does a value of
    [tags[]] that is not an integer.  With usable bounds and tags, a [sort]
    parameter without [sortType] ends the request in [AttributeError], and
    a sort term that names neither a column nor a relation of the product
    ends it in [FieldError].  Where the sort step is accepted (by columns),
    a tag outside the 64 bits of the database ends the request in
    [OverflowError], and otherwise the request is answered 200.  In every
    case the store is left as it was. *)
Theorem catalog_failures :
  forall st GET,
    let outcome := CatalogAPIView.get GET st in
    snd outcome = st
    /\ (filter_minPrice GET = Some NotANumber
        \/ filter_maxPrice GET = Some NotANumber ->
        fst outcome = Raise ValueError)
    /\ (filter_minPrice GET <> Some NotANumber ->
        filter_maxPrice GET <> Some NotANumber ->
        (tag_ids (tags_list GET) = None -> fst outcome = Raise ValueError)
        /\ (forall ids,
               tag_ids (tags_list GET) = Some ids ->
               (truthy (sort GET) <> None -> sortType GET = None ->
                fst outcome = Raise AttributeError)
               /\ (truthy (sort GET) <> None -> sortType GET <> None ->
                   order_terms (ordering_of GET) = Unresolved ->
                   fst outcome = Raise FieldError)
               /\ (sort_accepted GET ->
                   (Exists (fun v => ~ fits_INTEGER v) ids ->
                    fst outcome = Raise OverflowError)
                   /\ (Forall fits_INTEGER ids ->
                       responded (fst outcome) HTTP_200_OK)))).
Proof.
  intros st GET outcome.
  destruct (filter_queryset_failures GET (Product_table st) st)
    as [Hvalue Hrest].
  assert (Hstart : forall e,
            CatalogAPIView.filter_queryset GET (Product_table st) st
            = (Raise e, st) ->
            fst outcome = Raise e).
  { intros e He. unfold outcome, CatalogAPIView.get,
      CatalogAPIView.get_queryset.
    rewrite (bind_Ok _ _ _ _ st (Product_table st) st) by reflexivity.
    rewrite (bind_Raise _ _ _ _ _ _ _ He). reflexivity. }
  split; [apply readonly_CatalogAPIView_get|].
  split; [intros H; apply Hstart, Hvalue, H|].
  intros Hmin Hmax. destruct (Hrest Hmin Hmax) as [Htags Hids].
  split; [intros H; apply Hstart, Htags, H|].
  intros ids Hsome. destruct (Hids ids Hsome) as [Hattr [Hfield Haccepted]].
  split; [intros H1 H2; apply Hstart, Hattr; assumption|].
  split; [intros H1 H2 H3; apply Hstart, Hfield; assumption|].
  intros Hsort. destruct (Haccepted Hsort) as [Hover Hok].
  split; [intros H; apply Hstart, Hover, H|].
  intros Hfits. destruct (Hok Hfits) as [result Hresult].
  assert (Hqs : fst (CatalogAPIView.filter_queryset GET (Product_table st) st)
                = Ok result) by (rewrite Hresult; reflexivity).
  destruct (catalog_get_run st GET result (currentPage_param GET) Hqs)
    as [m [_ [Hget _]]].
  cbv zeta in Hget.
  replace (with_currentPage GET (currentPage_param GET)) with GET in Hget
    by (destruct GET; reflexivity).
  unfold outcome. rewrite Hget. eexists. reflexivity.
Qed.

Lemma catalog_failures_witness :
  fst (CatalogAPIView.get
         {| filter_name := None; filter_minPrice := Some NotANumber;
            filter_maxPrice := None; filter_freeDelivery := None;
            filter_available := None; sort := None; sortType := None;
            tags_list := []; currentPage_param := None |} sample_store)
  = Raise ValueError
  /\ fst (CatalogAPIView.get
            {| filter_name := None; filter_minPrice := None;
               filter_maxPrice := None; filter_freeDelivery := None;
               filter_available := None; sort := None; sortType := None;
               tags_list := [Some 1; None]; currentPage_param := None |}
            sample_store)
     = Raise ValueError
  /\ fst (CatalogAPIView.get
            {| filter_name := None; filter_minPrice := None;
               filter_maxPrice := None; filter_freeDelivery := None;
               filter_available := None; sort := Some "price"%string;
               sortType := None;
               tags_list := []; currentPage_param := None |} sample_store)
     = Raise AttributeError
  /\ fst (CatalogAPIView.get (tag_query [INTEGER_max + 1]) sample_store)
     = Raise OverflowError
  /\ responded (fst (CatalogAPIView.get no_parameters sample_store))
               HTTP_200_OK.
Proof.
  assert (Haccepted : forall GET,
             truthy (sort GET) = None -> sort_accepted GET).
  { intros GET H. unfold sort_accepted, ordering_of. rewrite H.
    split; [intros H'; contradiction H'; reflexivity|].
    exists []. reflexivity. }
  split; [|split; [|split; [|split]]].
  - apply (proj1 (proj2 (catalog_failures sample_store _))). left. reflexivity.
  - match goal with
    | |- fst (CatalogAPIView.get ?GET _) = _ =>
        pose proof (catalog_failures sample_store GET) as [_ [_ H]]
    end.
    apply H; [discriminate | discriminate | reflexivity].
  - match goal with
    | |- fst (CatalogAPIView.get ?GET _) = _ =>
        pose proof (catalog_failures sample_store GET) as [_ [_ H]]
    end.
    destruct (H ltac:(discriminate) ltac:(discriminate)) as [_ H'].
    apply (proj1 (H' [] eq_refl)); [discriminate | reflexivity].
  - pose proof (catalog_failures sample_store (tag_query [INTEGER_max + 1]))
      as [_ [_ H]].
    destruct (H ltac:(discriminate) ltac:(discriminate)) as [_ H'].
    apply (proj1 (proj2 (proj2 (H' [INTEGER_max + 1] eq_refl))
                        (Haccepted (tag_query [INTEGER_max + 1]) eq_refl))).
    constructor. unfold fits_INTEGER. lia.
  - pose proof (catalog_failures sample_store no_parameters) as [_ [_ H]].
    destruct (H ltac:(discriminate) ltac:(discriminate)) as [_ H'].
    apply (proj2 (proj2 (proj2 (H' [] eq_refl))
                        (Haccepted no_parameters eq_refl))).
    constructor.
Defined.

Lemma ordering_of_unknown_directions fields types :
  (forall d, In d types -> d <> "dec"%string /\ d <> "inc"%string) ->
  flat_map (fun fs : string * string =>
              let (field, sort_type) := fs in
              if String.eqb sort_type "dec" then [field]
              else if String.eqb sort_type "inc" then [String "-" field]
                   else [])
           (combine fields types)
  = [].
Proof.
  revert types. induction fields as [|f fields IH]; intros types H;
    [reflexivity|].
  destruct types as [|d types]; [reflexivity|].
  cbn [combine flat_map].
  destruct (H d (or_introl eq_refl)) as [Hdec Hinc].
  apply String.eqb_neq in Hdec, Hinc. rewrite Hdec, Hinc.
  apply IH. intros d' Hd'. apply H. right. exact Hd'.
Qed.

Lemma order_by_nothing queryset st : order_by [] queryset st = queryset st.
Proof.
  unfold order_by. cbn [order_terms]. unfold bind, ret.
  destruct (queryset st) as [[rows|e] st1]; [|reflexivity].
  change (precedes []) with (fun _ _ : Product => true).
  rewrite sort_by_unordered. reflexivity.
Qed.

(** X19. Direction tokens other than [dec] and [inc] switch sorting off.
    When no token of [sortType] (split at commas, stripped of the white
    space that [str.strip] removes, the no-break space included) is [dec]
    or [inc], the catalog filters answer exactly as for the same query
    without [sort]: the rows come unsorted, whatever column [sort] names,
    also one that does not exist. *)
Theorem unknown_direction_ignores_sort :
  forall GET queryset st sort_type_param,
    sortType GET = Some sort_type_param ->
    (forall d, In d (directions sort_type_param) ->
               d <> "dec"%string /\ d <> "inc"%string) ->
    CatalogAPIView.filter_queryset GET queryset st
    = CatalogAPIView.filter_queryset (without_sort GET) queryset st.
Proof.
  intros GET queryset st sort_type_param HsortType Htokens.
  unfold CatalogAPIView.filter_queryset.
  cbn [without_sort filter_name filter_minPrice filter_maxPrice
       filter_freeDelivery filter_available tags_list sort sortType truthy].
  rewrite HsortType.
  destruct (truthy (sort GET)) as [sort_param|]; [|reflexivity].
  fold (directions sort_type_param).
  rewrite (ordering_of_unknown_directions _ _ Htokens).
  destruct (filter_minPrice GET) as [[|lo]|];
    destruct (filter_maxPrice GET) as [[|hi]|];
    cbn [bind ret raise]; try reflexivity;
    (destruct (tags_list GET) as [|t0 tl];
     [|destruct (tag_ids (t0 :: tl)); [|reflexivity]]);
    cbn [bind ret raise];
    apply order_by_nothing.
Qed.

Lemma unknown_direction_ignores_sort_witness :
  CatalogAPIView.filter_queryset (sort_query "asc") (Product_table sample_store)
                                 sample_store
  = CatalogAPIView.filter_queryset (without_sort (sort_query "asc"))
                                   (Product_table sample_store) sample_store.
Proof.
  apply (unknown_direction_ignores_sort (sort_query "asc") _ _ "asc" eq_refl).
  intros d [<-|[]]. split; discriminate.
Defined.

(** ** Reviews that are refused *)

Lemma CharField_refuses max_length data :
  strip data = EmptyString \/ has_null (strip data) = true
  \/ (exists n, max_length = Some n /\ (n < len (strip data))%nat) ->
  CharField max_length data = None.
Proof.
  unfold CharField. cbv zeta. intros [H|[H|[n [-> H]]]].
  - rewrite H. reflexivity.
  - rewrite H. destruct (String.eqb _ _); reflexivity.
  - destruct (String.eqb _ _); [reflexivity|].
    destruct (has_null _); [reflexivity|].
    replace (len (strip data) <=? n)%nat with false; [reflexivity|].
    symmetry. apply Nat.leb_gt. exact H.
Qed.

Lemma validate_refuses d :
  refused d -> ReviewSerializer_validate d = None.
Proof.
  unfold refused, ReviewSerializer_validate.
  intros [H|[H|[H|[[r [H Hr]]|[[a [H Ha]]|[[t [H Ht]]|[[e [H He]]|H]]]]]]];
    try rewrite H.
  - reflexivity.
  - destruct (rv_author d); reflexivity.
  - destruct (rv_author d), (rv_text d); reflexivity.
  - destruct (rv_author d) as [a|], (rv_text d) as [t|]; try reflexivity.
    destruct (CharField _ a), (CharField None t); try reflexivity.
    cbv zeta.
    assert (Hrange : (1 <=? r) && (r <=? 5) = false).
    { destruct Hr as [Hr|Hr].
      - apply andb_false_intro1, Z.leb_gt. lia.
      - apply andb_false_intro2, Z.leb_gt. lia. }
    rewrite Hrange. cbn [andb].
    destruct (rv_email d) as [e|]; [destruct (EmailField e)|]; reflexivity.
  - destruct (rv_text d), (rv_rate d); try reflexivity.
    rewrite (CharField_refuses (Some 100%nat) a); [reflexivity|].
    destruct Ha as [Ha|[Ha|Ha]]; [left | right; left | right; right];
      try exact Ha.
    exists 100%nat. split; [reflexivity | exact Ha].
  - destruct (rv_author d) as [a|], (rv_rate d); try reflexivity.
    rewrite (CharField_refuses None t);
      [destruct (CharField _ a); reflexivity|].
    destruct Ht as [Ht|Ht]; [left | right; left]; exact Ht.
  - destruct (rv_author d) as [a|], (rv_text d) as [t|], (rv_rate d);
      try reflexivity.
    destruct (CharField _ a), (CharField None t); try reflexivity.
    cbv zeta. unfold EmailField. cbv zeta.
    replace (String.eqb (strip e) "") with false
      by (symmetry; apply String.eqb_neq; exact He).
    reflexivity.
  - destruct (rv_author d) as [a|], (rv_text d) as [t|], (rv_rate d);
      try reflexivity.
    destruct (CharField _ a), (CharField None t); try reflexivity.
    cbv zeta. rewrite andb_false_r.
    destruct (rv_email d) as [e|]; [destruct (EmailField e)|]; reflexivity.
Qed.

(** X20. Reviews that are refused leave no trace.  A review of a product
    that does not exist is answered 404; a review of an existing product
    that the serializer refuses is answered 400, which it is when [author],
    [text] or [rate] is missing, when [rate] is outside 1..5, when [author]
    or [text] is blank once stripped or holds a null character, when the
    stripped [author] has more than 100 characters, when [email] is a
    non-blank text that is no e-mail address, and when [date] is no date; a
    valid review sent without the key [email] ends in [KeyError].  In all
    three cases no review is stored and the product's aggregates stay as
    they were: the store is unchanged. *)
Theorem review_refused :
  forall st pk d now,
    let outcome := ReviewViewSet.create pk d now st in
    (find (fun p => product_id p =? pk) (Product_table st) = None ->
     outcome = (Ok {| data := ErrorBody "Продукт не найден.";
                      status_code := HTTP_404_NOT_FOUND |}, st))
    /\ (forall product,
           find (fun p => product_id p =? pk) (Product_table st)
           = Some product ->
           ReviewSerializer_validate d = None ->
           outcome = (Ok {| data := SerializerErrors;
                            status_code := HTTP_400_BAD_REQUEST |}, st))
    /\ (refused d -> ReviewSerializer_validate d = None)
    /\ (forall product v,
           find (fun p => product_id p =? pk) (Product_table st)
           = Some product ->
           ReviewSerializer_validate d = Some v ->
           rv_email d = None ->
           outcome = (Raise KeyError, st)).
Proof.
  intros st pk d now outcome. unfold outcome, ReviewViewSet.create.
  split; [|split; [|split; [apply validate_refuses|]]].
  - intros Hnone. unfold try_or_return.
    rewrite (Product_objects_get_None _ _ Hnone). reflexivity.
  - intros product Hfind Hbad.
    rewrite (try_or_return_Ok _ _ _ _ _ _ st product st)
      by (apply Product_objects_get_Ok; exact Hfind).
    rewrite Hbad. reflexivity.
  - intros product v Hfind Hval Hemail.
    rewrite (try_or_return_Ok _ _ _ _ _ _ st product st)
      by (apply Product_objects_get_Ok; exact Hfind).
    rewrite Hval.
    assert (Hv : v_email v = None).
    { unfold ReviewSerializer_validate in Hval. rewrite Hemail in Hval.
      destruct (rv_author d) as [a|], (rv_text d) as [t|], (rv_rate d);
        try discriminate.
      destruct (CharField _ a), (CharField None t); try discriminate.
      cbv zeta in Hval.
      destruct (_ && _) in Hval; [|discriminate].
      injection Hval as <-. reflexivity. }
    rewrite Hv. reflexivity.
Qed.

Lemma review_refused_witness :
  ReviewViewSet.create 99 (sample_review 4) 0 sample_store
  = (Ok {| data := ErrorBody "Продукт не найден.";
           status_code := HTTP_404_NOT_FOUND |}, sample_store)
  /\ ReviewViewSet.create 7 (sample_review 6) 0 sample_store
     = (Ok {| data := SerializerErrors;
              status_code := HTTP_400_BAD_REQUEST |}, sample_store)
  /\ ReviewViewSet.create 7 blank_author_review 0 sample_store
     = (Ok {| data := SerializerErrors;
              status_code := HTTP_400_BAD_REQUEST |}, sample_store)
  /\ ReviewViewSet.create 7 review_without_email 0 sample_store
     = (Raise KeyError, sample_store).
Proof.
  pose proof (review_refused sample_store 99 (sample_review 4) 0)
    as [Hmissing _].
  pose proof (review_refused sample_store 7 (sample_review 6) 0)
    as [_ [Hinvalid [Hrefused _]]].
  pose proof (review_refused sample_store 7 blank_author_review 0)
    as [_ [Hblank _]].
  pose proof (review_refused sample_store 7 review_without_email 0)
    as [_ [_ [_ Hkey]]].
  split; [|split; [|split]].
  - apply Hmissing. reflexivity.
  - apply (Hinvalid (sample_product 7 150 false)); [reflexivity|].
    apply Hrefused.
    right. right. right. left. exists 6. split; [reflexivity | right; lia].
  - apply (Hblank (sample_product 7 150 false)); reflexivity.
  - eapply Hkey; reflexivity.
Defined.

(** ** The product page *)

Lemma find_filter_first A (f g : A -> bool) l p :
  find g l = Some p -> f p = true -> find g (filter f l) = Some p.
Proof.
  induction l as [|a l IH]; cbn [find filter]; [discriminate|].
  destruct (g a) eqn:Eg.
  - intros [= ->] Hf. rewrite Hf. cbn [find]. rewrite Eg. reflexivity.
  - intros Hfind Hf. destruct (f a); [cbn [find]; rewrite Eg|]; auto.
Qed.

Lemma find_filter_none A (f g : A -> bool) l :
  (forall x, In x l -> g x = true -> f x = false) ->
  find g (filter f l) = None.
Proof.
  intros H. destruct (find g (filter f l)) as [x|] eqn:E; [|reflexivity].
  apply find_some in E as [Hin Hg]. apply filter_In in Hin as [Hin Hf].
  rewrite (H x Hin Hg) in Hf. discriminate.
Qed.

Lemma ProductDetailsSerializer_data_run st obj :
  ProductDetailsSerializer_data obj st
  = (Ok {| details_product := obj;
           details_reviews := reviews_of st (product_id obj);
           details_rating :=
             page_rating (map rate (reviews_of st (product_id obj))) |},
     st).
Proof.
  unfold ProductDetailsSerializer_data, ProductDetailsSerializer_get_rating.
  rewrite (bind_Ok _ _ _ _ _ _ _ (product_reviews_run st obj)).
  rewrite (bind_Ok _ _ _ _ st
             (page_rating (map rate (reviews_of st (product_id obj)))) st);
    [reflexivity|].
  rewrite (bind_Ok _ _ _ _ _ _ _ (product_reviews_run st obj)).
  destruct (reviews_of st (product_id obj)) as [|r l]; [reflexivity|].
  unfold ret, page_rating. cbn [map List.length]. rewrite length_map.
  reflexivity.
Qed.

(** The product page of a product that is stored and not archived. *)
Lemma retrieve_run st pk p :
  find (fun x => product_id x =? pk) (Product_table st) = Some p ->
  archived p = false ->
  ProductAPIView_retrieve pk st
  = (Ok {| reply_data :=
             {| details_product := p;
                details_reviews := reviews_of st pk;
                details_rating := page_rating (map rate (reviews_of st pk)) |};
           reply_status := HTTP_200_OK |}, st).
Proof.
  intros Hfind Harchived.
  destruct (find_product_exists st pk p Hfind) as [Hpid _].
  unfold ProductAPIView_retrieve, ProductAPIView.get_queryset.
  rewrite (bind_Ok _ _ _ _ st
             (filter (fun x => eqb (archived x) false && (product_id x =? pk))
                     (Product_table st)) st) by reflexivity.
  rewrite (find_filter_first _ _ _ _ p Hfind)
    by (rewrite Harchived, Hpid, Z.eqb_refl; reflexivity).
  rewrite (bind_Ok _ _ _ _ st p st) by reflexivity.
  rewrite (bind_Ok _ _ _ _ _ _ _ (ProductDetailsSerializer_data_run st p)).
  rewrite Hpid. reflexivity.
Qed.

Lemma page_rating_rounds rates :
  rates <> [] -> page_rating rates = Some (fl (mean rates)).
Proof. destruct rates; [contradiction | reflexivity]. Qed.

(** X21. The product page.  [ProductAPIView.retrieve] never changes the
    store.  A key that belongs to no product, or only to an archived one,
    ends in [Http404].  The key of a stored product that is not archived is
    answered 200 with that product, all of its reviews in the order they
    were written, and a rating that is absent while the product has no
    review and otherwise is the float nearest to the arithmetic mean of the
    rates: the mean itself where the mean is an integer of at most 53
    bits, and within a relative error of [2 ^ -53] of a mean of at least
    1. *)
Theorem retrieve_details :
  forall st pk,
    let outcome := ProductAPIView_retrieve pk st in
    let rates := map rate (reviews_of st pk) in
    snd outcome = st
    /\ ((forall p, In p (Product_table st) -> product_id p = pk ->
                   archived p = true) ->
        fst outcome = Raise Http404)
    /\ (forall p,
           find (fun x => product_id x =? pk) (Product_table st) = Some p ->
           archived p = false ->
           exists r,
             fst outcome
             = Ok {| reply_data :=
                       {| details_product := p;
                          details_reviews := reviews_of st pk;
                          details_rating := r |};
                     reply_status := HTTP_200_OK |}
             /\ (reviews_of st pk = [] -> r = None)
             /\ (reviews_of st pk <> [] ->
                 exists q,
                   r = Some q
                   /\ q = fl (mean rates)
                   /\ (forall k,
                          Zsum rates = k * Z.of_nat (List.length rates) ->
                          Z.abs k <= 2 ^ 53 -> q = inject_Z k)
                   /\ ((1 <= Qabs (mean rates))%Q ->
                       (Qabs (q - mean rates) * inject_Z (2 ^ 53)
                        <= Qabs (mean rates))%Q))).
Proof.
  intros st pk outcome rates.
  split; [apply readonly_ProductAPIView_retrieve|].
  split.
  - intros Hgone. unfold outcome, ProductAPIView_retrieve,
      ProductAPIView.get_queryset.
    rewrite (bind_Ok _ _ _ _ st
               (filter (fun x => eqb (archived x) false && (product_id x =? pk))
                       (Product_table st)) st) by reflexivity.
    rewrite find_filter_none.
    + reflexivity.
    + intros x Hin Hid. apply Z.eqb_eq in Hid.
      rewrite (Hgone x Hin Hid). reflexivity.
  - intros p Hfind Harchived.
    exists (page_rating rates).
    unfold outcome. rewrite (retrieve_run st pk p Hfind Harchived).
    split; [reflexivity|]. split.
    + unfold rates. intros ->. reflexivity.
    + intros Hne.
      assert (Hrates : rates <> [])
        by (unfold rates; destruct (reviews_of st pk);
            [contradiction | discriminate]).
      exists (fl (mean rates)).
      split; [apply page_rating_rounds; exact Hrates|].
      split; [reflexivity|]. split.
      * intros k Hk Habs.
        rewrite (fl_Proper _ _ (mean_integer rates k Hrates Hk)).
        apply fl_integer. exact Habs.
      * apply fl_error.
Qed.

Lemma retrieve_details_witness :
  fst (ProductAPIView_retrieve 8 sample_store) = Raise Http404
  /\ (exists r,
         fst (ProductAPIView_retrieve 7 sample_store)
         = Ok {| reply_data :=
                   {| details_product := sample_product 7 150 false;
                      details_reviews := [];
                      details_rating := r |};
                 reply_status := HTTP_200_OK |}
         /\ r = None)
  /\ fst (ProductAPIView_retrieve 7 rated_store)
     = Ok {| reply_data :=
               {| details_product := sample_product 7 150 false;
                  details_reviews := [stored_review 1 5; stored_review 2 4];
                  details_rating := Some (9 # 2) |};
             reply_status := HTTP_200_OK |}.
Proof.
  pose proof (retrieve_details sample_store 8) as [_ [Harchived _]].
  pose proof (retrieve_details sample_store 7) as [_ [_ Hshown]].
  pose proof (retrieve_details rated_store 7) as [_ [_ Hrated]].
  split; [|split].
  - apply Harchived. intros p [<-|[<-|[<-|[]]]]; cbn; intros H;
      [discriminate H | reflexivity | discriminate H].
  - destruct (Hshown (sample_product 7 150 false) eq_refl eq_refl)
      as [r [Hget [Hnone _]]].
    exists r. split; [exact Hget | apply Hnone; reflexivity].
  - destruct (Hrated (sample_product 7 150 false) eq_refl eq_refl)
      as [r [Hget [_ Hsome]]].
    destruct (Hsome ltac:(discriminate)) as [q [-> [-> _]]].
    rewrite Hget. vm_compute. reflexivity.
Defined.

Lemma validated_rate d v :
  ReviewSerializer_validate d = Some v -> 1 <= v_rate v <= 5.
Proof.
  unfold ReviewSerializer_validate.
  destruct (rv_author d) as [a|], (rv_text d) as [t|], (rv_rate d) as [r|];
    try discriminate.
  destruct (CharField _ a), (CharField None t); try discriminate.
  cbv zeta.
  destruct (match rv_email d with Some _ => _ | None => _ end);
    [|discriminate].
  destruct ((1 <=? r) && (r <=? 5)) eqn:E; [|discriminate].
  destruct (match rv_date d with Some _ => _ | None => _ end);
    [|discriminate].
  intros [= <-]. cbn [v_rate].
  apply andb_true_iff in E as [E1 E2]. apply Z.leb_le in E1, E2. lia.
Qed.

(** X22. The product page agrees with the stored aggregates.  Once a valid
    review of a product that is not archived has been accepted, the product
    page lists exactly the reviews that the 201 answer listed, the new one
    last, and the product row it shows carries a [reviews_count] equal to
    their number; while the sum of the rates and their number stay within
    the 53 bits that a float represents, its [rating] (the average the
    database computed) is equal to the rating the page computes. *)
Theorem retrieve_after_review :
  forall st pk d now product v e,
    find (fun r => product_id r =? pk) (Product_table st) = Some product ->
    archived product = false ->
    ReviewSerializer_validate d = Some v ->
    v_email v = Some e ->
    let st' := snd (ReviewViewSet.create pk d now st) in
    exists reviews review page,
      fst (ReviewViewSet.create pk d now st)
      = Ok {| data := ReviewsBody reviews; status_code := HTTP_201_CREATED |}
      /\ reviews = reviews_of st pk ++ [review]
      /\ rate review = v_rate v
      /\ 1 <= rate review <= 5
      /\ fst (ProductAPIView_retrieve pk st')
         = Ok {| reply_data := page; reply_status := HTTP_200_OK |}
      /\ details_reviews page = reviews
      /\ reviews_count (details_product page)
         = Z.of_nat (List.length reviews)
      /\ rating (details_product page) = Avg (map rate reviews)
      /\ (Z.abs (Zsum (map rate reviews)) <= 2 ^ 53 ->
          Z.of_nat (List.length reviews) <= 2 ^ 53 ->
          rating (details_product page) = details_rating page).
Proof.
  intros st pk d now product v e Hfind Harchived Hval Hemail st'.
  pose proof (create_run st pk d now product v e Hfind Hval Hemail) as Hrun.
  cbv zeta in Hrun.
  destruct (find_product_exists st pk product Hfind) as [Hpid _].
  set (review := {| review_id := Review_seq st;
                    review_product := product_id product;
                    author := v_author v; text := v_text v; rate := v_rate v;
                    review_date := now; email := e |}) in *.
  assert (Hst' : st' = reviewed st product review)
    by (unfold st'; rewrite Hrun; reflexivity).
  pose proof (find_reviewed st pk product review Hfind) as Hrow.
  cbv zeta in Hrow. rewrite <- Hst' in Hrow.
  assert (Hreviews : reviews_of st' pk = reviews_of st pk ++ [review]).
  { rewrite Hst', <- Hpid, reviews_of_reviewed. cbn [review_product review].
    rewrite Z.eqb_refl. reflexivity. }
  exists (reviews_of st' pk), review.
  eexists. rewrite Hrun, <- Hst'. cbn [fst].
  split; [reflexivity|]. split; [exact Hreviews|].
  split; [reflexivity|].
  split; [apply (validated_rate d v Hval)|].
  rewrite (retrieve_run st' pk _ Hrow Harchived). cbn [fst].
  split; [reflexivity|].
  cbn [details_reviews details_product details_rating].
  split; [reflexivity|]. split; [reflexivity|]. split; [reflexivity|].
  intros Hsum Hlen.
  assert (Hne : map rate (reviews_of st' pk) <> [])
    by (rewrite Hreviews, map_app; intros H;
        apply app_eq_nil in H as [_ H]; discriminate H).
  cbn [rating with_aggregates].
  rewrite (page_rating_rounds _ Hne).
  apply Avg_rounds; [exact Hne | exact Hsum|].
  rewrite length_map. exact Hlen.
Qed.

Lemma retrieve_after_review_witness :
  exists reviews review page,
    fst (ReviewViewSet.create 7 (sample_review 4) 0 sample_store)
    = Ok {| data := ReviewsBody reviews; status_code := HTTP_201_CREATED |}
    /\ reviews = reviews_of sample_store 7 ++ [review]
    /\ rate review = 4
    /\ 1 <= rate review <= 5
    /\ fst (ProductAPIView_retrieve 7
              (snd (ReviewViewSet.create 7 (sample_review 4) 0 sample_store)))
       = Ok {| reply_data := page; reply_status := HTTP_200_OK |}
    /\ details_reviews page = reviews
    /\ reviews_count (details_product page) = Z.of_nat (List.length reviews)
    /\ rating (details_product page) = Avg (map rate reviews)
    /\ (Z.abs (Zsum (map rate reviews)) <= 2 ^ 53 ->
        Z.of_nat (List.length reviews) <= 2 ^ 53 ->
        rating (details_product page) = details_rating page).
Proof.
  exact (retrieve_after_review sample_store 7 (sample_review 4) 0
           (sample_product 7 150 false) _ None
           eq_refl eq_refl eq_refl eq_refl).
Defined.
